(** * Art Studio Companion: the store functions, embedded and verified

    A shallow embedding of the tool functions of [app/tools] and of the
    models of [app/models/database.py].

    Conventions of the embedding.
    - A [Float] column or argument is a rational number ([Q]), and a
      column of a row holds one (it is not NULL).  Comparisons against the
      literals of the source (0.25, 0.5, 0.1, 1.0) are those of the source.
      A sum or a difference is written as the rational one where the source
      computes in double precision; what is proved of it is stated through
      the expression of the source and its order, and nothing here adds up
      repeated sums or compares two ways of computing one.  Equality of
      quantities is [Qeq], written [==].
    - A table is the list of its rows in row order; the primary key is the
      [id] field, and a new row gets the next free key.
    - A session has a working copy and the stored database; [commit] makes
      the working copy the stored one, [rollback] and [close] drop it.
    - A call into SQLAlchemy or the file system may raise: a fault table
      says, for each kind of external call, whether it raises and with which
      message.  What is raised is an [Exception]; [rollback] and [close] do
      not raise.  [try ... except Exception ... finally] is written out.
    - Arguments have the types of their annotations.
    - A JSON text column is represented by what [json.loads] gives on it;
      a dictionary shows it as the text stored or as the decoded value, and
      the two are kept apart.
    - [datetime.utcnow()] is the [now] argument of a call. *)

From Stdlib Require Import QArith Qminmax String Ascii List Bool Lia Lqa ZArith.
From Stdlib Require Import DecimalString Sorted Permutation.
Import ListNotations.

Local Open Scope Q_scope.

(** ** Python built-ins used by the source *)

Module Py.

Definition Qlt_bool (a b : Q) : bool := negb (Qle_bool b a).

(** [max(a, b)]: the first argument unless the second is strictly larger. *)
Definition max (a b : Q) : Q := if Qlt_bool a b then b else a.

(** [min(a, b)]: the first argument unless the second is strictly smaller. *)
Definition min (a b : Q) : Q := if Qlt_bool b a then b else a.

(** [str.lower()] on the ASCII letters. *)
Definition lower_char (c : ascii) : ascii :=
  let n := nat_of_ascii c in
  if (65 <=? n)%nat && (n <=? 90)%nat then ascii_of_nat (n + 32) else c.

Fixpoint lower (s : string) : string :=
  match s with
  | EmptyString => EmptyString
  | String c r => String (lower_char c) (lower r)
  end.

(** [needle in hay] on strings. *)
Fixpoint contains (needle hay : string) : bool :=
  String.prefix needle hay ||
  match hay with
  | EmptyString => false
  | String _ r => contains needle r
  end.

(** Truth value of an [Optional[str]]: [None] and the empty string are
    false. *)
Definition truthy (o : option string) : bool :=
  match o with
  | Some (String _ _) => true
  | _ => false
  end.

(** [str.isalnum()] and [str.isspace()] for one character, on ASCII. *)
Definition isalnum (c : ascii) : bool :=
  let n := nat_of_ascii c in
  ((48 <=? n)%nat && (n <=? 57)%nat)
  || ((65 <=? n)%nat && (n <=? 90)%nat)
  || ((97 <=? n)%nat && (n <=? 122)%nat).

Definition isspace (c : ascii) : bool :=
  let n := nat_of_ascii c in
  ((9 <=? n)%nat && (n <=? 13)%nat)
  || ((28 <=? n)%nat && (n <=? 32)%nat).

Definition isalpha (c : ascii) : bool :=
  let n := nat_of_ascii c in
  ((65 <=? n)%nat && (n <=? 90)%nat) || ((97 <=? n)%nat && (n <=? 122)%nat).

Definition upper_char (c : ascii) : ascii :=
  let n := nat_of_ascii c in
  if (97 <=? n)%nat && (n <=? 122)%nat then ascii_of_nat (n - 32) else c.

(** [str.title()]: a letter is put in upper case when no letter stands
    before it, in lower case otherwise. *)
Fixpoint title_from (after_letter : bool) (s : string) : string :=
  match s with
  | EmptyString => EmptyString
  | String c r =>
      if isalpha c
      then String (if after_letter then lower_char c else upper_char c)
                  (title_from true r)
      else String c (title_from false r)
  end.

Definition title (s : string) : string := title_from false s.

(** [str.lstrip()], [str.rstrip()] and [str.strip()]. *)
Fixpoint lstrip (s : string) : string :=
  match s with
  | EmptyString => EmptyString
  | String c r => if isspace c then lstrip r else s
  end.

Fixpoint rstrip (s : string) : string :=
  match s with
  | EmptyString => EmptyString
  | String c r =>
      match rstrip r with
      | EmptyString => if isspace c then EmptyString else String c EmptyString
      | r' => String c r'
      end
  end.

Definition strip (s : string) : string := rstrip (lstrip s).

(** [s.replace(old, new)] for one character [old]. *)
Fixpoint replace_char (old : ascii) (new : string) (s : string) : string :=
  match s with
  | EmptyString => EmptyString
  | String c r =>
      if Ascii.eqb c old then (new ++ replace_char old new r)%string
      else String c (replace_char old new r)
  end.

(** ["".join(c for c in s if keep(c))] *)
Fixpoint filter_chars (keep : ascii -> bool) (s : string) : string :=
  match s with
  | EmptyString => EmptyString
  | String c r =>
      if keep c then String c (filter_chars keep r) else filter_chars keep r
  end.

(** [s[:n]] on a string, for a literal [n] that is not negative. *)
Fixpoint take (n : nat) (s : string) : string :=
  match n, s with
  | S n', String c r => String c (take n' r)
  | _, _ => EmptyString
  end.

(** [l[:n]] on a list: the first [n] items, and for a negative [n] all but
    the last [-n]. *)
Definition slice_to {A} (n : Z) (l : list A) : list A :=
  if (n <? 0)%Z
  then firstn (Z.to_nat (Z.of_nat (length l) + n)) l
  else firstn (Z.to_nat n) l.

(** [s.rsplit(".", 1)] when [s] has a dot: what stands before the last dot
    and what stands after it. *)
Fixpoint rsplit_dot (s : string) : option (string * string) :=
  match s with
  | EmptyString => None
  | String c r =>
      match rsplit_dot r with
      | Some (before, after) => Some (String c before, after)
      | None => if Ascii.eqb c "." then Some (EmptyString, r) else None
      end
  end.

(** [" ".join(parts)] *)
Fixpoint join (sep : string) (parts : list string) : string :=
  match parts with
  | [] => EmptyString
  | [p] => p
  | p :: rest => (p ++ sep ++ join sep rest)%string
  end.

(** [str(n)] for a natural number. *)
Definition str_of_nat (n : nat) : string :=
  NilZero.string_of_uint (Nat.to_uint n).

(** The line feed. *)
Definition nl : string := String (ascii_of_nat 10) EmptyString.

(** [text LIKE pattern] of SQL on strings in lower case: a percent sign
    stands for any run of characters, an underscore for any one
    character. *)
Fixpoint like (pattern : string) : string -> bool :=
  match pattern with
  | EmptyString =>
      fun text => match text with EmptyString => true | _ => false end
  | String c pattern' =>
      if Ascii.eqb c "%"
      then fix any (text : string) : bool :=
             like pattern' text
             || match text with
                | EmptyString => false
                | String _ text' => any text'
                end
      else fun text =>
             match text with
             | EmptyString => false
             | String d text' =>
                 (Ascii.eqb c "_" || Ascii.eqb c d) && like pattern' text'
             end
  end.

End Py.

(** ** app/models/database.py *)

Definition Time := Z.

Module Supply.

Record t := mk {
  id : Z;
  name : string;
  brand : option string;
  category : option string;
  color : option string;
  size : option string;
  quantity : Q;
  unit : option string;
  notes : option string;
  updated_at : Time
}.

(** [Supply.get_status] *)
Definition get_status (self : t) : string :=
  if Qle_bool 0.5 (quantity self) then "green"%string
  else if Qle_bool 0.25 (quantity self) then "yellow"%string
  else "red"%string.

(** [Supply.to_dict]: the columns and the derived status. *)
Record dict := mk_dict { columns : t; status : string }.

Definition to_dict (self : t) : dict :=
  {| columns := self; status := get_status self |}.

End Supply.

Module SupplyUsage.

Record t := mk {
  id : Z;
  supply_id : Z;
  project_id : option Z;
  quantity_used : Q;
  used_at : Time
}.

End SupplyUsage.

(** What [json.loads] makes of a text column that should hold a list. *)
Inductive JsonColumn (A : Type) : Type :=
| JNull                       (* NULL, or the empty string: a false value *)
| JInvalid                    (* text on which json.loads raises JSONDecodeError *)
| JList (items : list A)      (* text of a JSON array *)
| JOther (type_name : string) (iter : option (list string)).
    (* text of another JSON value: the name of its Python type and, for an
       object or a string, the strings that iterating over it gives *)

Arguments JNull {A}.
Arguments JInvalid {A}.
Arguments JList {A} items.
Arguments JOther {A} type_name iter.

(** A JSON column as a dictionary shows it: [to_dict] gives the text as it
    is stored, known here by what [json.loads] makes of it, and a function
    that decodes the column puts the decoded value in its place. *)
Inductive JsonField (A : Type) : Type :=
| AsText (column : JsonColumn A)
| AsValue (column : JsonColumn A).

Arguments AsText {A} column.
Arguments AsValue {A} column.

(** What [get_project] and [get_portfolio_piece] put in the place of a
    JSON column: the decoded value when there is text and [json.loads]
    takes it; [on_error] when [json.loads] raises [JSONDecodeError]; the
    column as [to_dict] gave it when it is NULL or empty. *)
Definition loaded {A} (on_error : JsonField A) (column : JsonColumn A)
    : JsonField A :=
  match column with
  | JNull => AsText JNull
  | JInvalid => on_error
  | value => AsValue value
  end.

(** An entry of a materials list: a JSON object, of which only the "name"
    key is read, or any other value, of which [str] is taken. *)
Inductive Material : Type :=
| MDict (name : option string) (category : option string)
| MValue (str : string).

Module Project.

Record t := mk {
  id : Z;
  title : string;
  description : option string;
  status : string;
  medium : option string;
  style : option string;
  estimated_budget : option Q;
  actual_budget : option Q;
  materials_list : JsonColumn Material;
  steps : JsonColumn string;
  notes : option string;
  file_path : option string;
  created_at : Time;
  updated_at : Time;
  completed_at : option Time
}.

(** [Project.to_dict]: the budget spent, the path of the saved file and the
    completion time are not part of it; the two JSON columns are given as
    the text stored. *)
Record dict := mk_dict {
  dict_id : Z;
  dict_title : string;
  dict_description : option string;
  dict_status : string;
  dict_medium : option string;
  dict_style : option string;
  dict_estimated_budget : option Q;
  dict_materials_list : JsonField Material;
  dict_steps : JsonField string;
  dict_notes : option string;
  dict_created_at : Time;
  dict_updated_at : Time
}.

Definition to_dict (self : t) : dict :=
  mk_dict (id self) (title self) (description self) (status self)
          (medium self) (style self) (estimated_budget self)
          (AsText (materials_list self)) (AsText (steps self))
          (notes self) (created_at self) (updated_at self).

End Project.

Module ProgressImage.

Record t := mk {
  path : string;
  description : option string;
  added_at : Time
}.

End ProgressImage.

Module PortfolioPiece.

Record t := mk {
  id : Z;
  title : string;
  description : option string;
  project_id : option Z;
  status : string;
  medium : option string;
  dimensions : option string;
  image_path : option string;
  thumbnail_path : option string;
  progress_images : JsonColumn ProgressImage.t;
  created_at : Time;
  updated_at : Time;
  completed_at : option Time
}.

(** [PortfolioPiece.to_dict]: the time of the last update is not part of
    it; the progress images are given as the text stored. *)
Record dict := mk_dict {
  dict_id : Z;
  dict_title : string;
  dict_description : option string;
  dict_project_id : option Z;
  dict_status : string;
  dict_medium : option string;
  dict_dimensions : option string;
  dict_image_path : option string;
  dict_thumbnail_path : option string;
  dict_progress_images : JsonField ProgressImage.t;
  dict_created_at : Time;
  dict_completed_at : option Time
}.

Definition to_dict (self : t) : dict :=
  mk_dict (id self) (title self) (description self) (project_id self)
          (status self) (medium self) (dimensions self) (image_path self)
          (thumbnail_path self) (AsText (progress_images self))
          (created_at self) (completed_at self).

End PortfolioPiece.

Module StylePreference.

Record t := mk {
  id : Z;
  category : string;
  value : string;
  confidence : Q;
  source : string
}.

(** [StylePreference.to_dict] copies the five columns. *)
Definition to_dict (self : t) : t := self.

End StylePreference.

(** The database: one list of rows per table. *)
Record DB := mkDB {
  supplies : list Supply.t;
  supply_usage : list SupplyUsage.t;
  projects : list Project.t;
  portfolio_pieces : list PortfolioPiece.t;
  style_preferences : list StylePreference.t
}.

Definition empty_db : DB := mkDB [] [] [] [] [].

(** ** Sessions, exceptions and the try/except/finally frame *)

(** An exception is known by its [str(e)]. *)
Definition Exn := string.

Inductive Outcome (A : Type) : Type :=
| Returned (a : A)
| Raised (e : Exn).

Arguments Returned {A} a.
Arguments Raised {A} e.

(** The dictionary a store function returns: [{"success": True, ...}] or
    [{"success": False, "error": ...}]. *)
Inductive Response (A : Type) : Type :=
| Success (payload : A)
| Failure (error : string).

Arguments Success {A} payload.
Arguments Failure {A} error.

Definition success {A} (r : Response A) : bool :=
  match r with Success _ => true | Failure _ => false end.

(** The external calls that may raise. *)
Inductive Site : Type :=
| QuerySupply | QueryProject | QueryPiece | QueryPreference
| Commit | Refresh
| Makedirs | CopyFile | WriteFile.

Definition Faults := Site -> option Exn.

Definition no_faults : Faults := fun _ => None.

Inductive SessionOp : Type := DidCommit | DidRollback | DidClose.

Record Session := mkSession {
  stored : DB;
  working : DB;
  journal : list SessionOp
}.

(** [SessionLocal()] *)
Definition SessionLocal (db : DB) : Session :=
  {| stored := db; working := db; journal := [] |}.

Definition M (A : Type) : Type := Session -> Outcome A * Session.

Definition ret {A} (a : A) : M A := fun s => (Returned a, s).

Definition bind {A B} (m : M A) (k : A -> M B) : M B :=
  fun s =>
    match m s with
    | (Returned a, s') => k a s'
    | (Raised e, s') => (Raised e, s')
    end.

Definition raise {A} (e : Exn) : M A := fun s => (Raised e, s).

Notation "x <- m ;; k" := (bind m (fun x => k))
  (at level 61, m at next level, right associativity).
Notation "m ;;; k" := (bind m (fun _ => k))
  (at level 61, right associativity).

(** An external call: raises when the fault table says so. *)
Definition external (F : Faults) (c : Site) : M unit :=
  fun s =>
    match F c with
    | Some e => (Raised e, s)
    | None => (Returned tt, s)
    end.

(** [db.query(T).filter(p).first()] *)
Definition query_first {R} (F : Faults) (c : Site)
    (table : DB -> list R) (p : R -> bool) : M (option R) :=
  external F c ;;; fun s => (Returned (find p (table (working s))), s).

(** [db.query(T).filter(p).all()], in row order *)
Definition query_all {R} (F : Faults) (c : Site)
    (table : DB -> list R) (p : R -> bool) : M (list R) :=
  external F c ;;; fun s => (Returned (filter p (table (working s))), s).

(** The working copy as it stands (the key a new row will get is read off
    it). *)
Definition snapshot : M DB := fun s => (Returned (working s), s).

(** A change of the working copy: [db.add(row)], or an assignment to a
    column of a loaded row. *)
Definition modify (f : DB -> DB) : M unit :=
  fun s => (Returned tt,
            {| stored := stored s; working := f (working s);
               journal := journal s |}).

(** [db.commit()] *)
Definition db_commit (F : Faults) : M unit :=
  external F Commit ;;;
  fun s => (Returned tt,
            {| stored := working s; working := working s;
               journal := journal s ++ [DidCommit] |}).

(** [db.refresh(row)] *)
Definition db_refresh (F : Faults) : M unit := external F Refresh.

(** [db.rollback()] *)
Definition db_rollback (s : Session) : Session :=
  {| stored := stored s; working := stored s;
     journal := journal s ++ [DidRollback] |}.

(** [db.close()] *)
Definition db_close (s : Session) : Session :=
  {| stored := stored s; working := stored s;
     journal := journal s ++ [DidClose] |}.

(** [try: body / except Exception as e: db.rollback(); return failure /
    finally: db.close()], the frame of the functions that write. *)
Definition try_rollback_close {A} (body : M (Response A))
    (s : Session) : Response A * Session :=
  match body s with
  | (Returned r, s') => (r, db_close s')
  | (Raised e, s') => (Failure e, db_close (db_rollback s'))
  end.

(** [try: body / except Exception as e: return failure / finally:
    db.close()], the frame of the functions that only read. *)
Definition try_close {A} (body : M (Response A))
    (s : Session) : Response A * Session :=
  match body s with
  | (Returned r, s') => (r, db_close s')
  | (Raised e, s') => (Failure e, db_close s')
  end.

(** The database a call leaves behind. *)
Definition db_after {A} (r : A * Session) : DB := stored (snd r).

(** Row helpers shared by the tables. *)
Definition next_id {R} (id : R -> Z) (table : list R) : Z :=
  1 + fold_right Z.max 0%Z (map id table).

Definition replace_row {R} (id : R -> Z) (row : R) (table : list R) : list R :=
  map (fun r => if (id r =? id row)%Z then row else r) table.

(** Default value of a keyword parameter. *)
Definition default {A} (dflt : A) (arg : option A) : A :=
  match arg with Some a => a | None => dflt end.

(** An assignment under [if value is not None], to a column that cannot
    be NULL and to one that can. *)
Definition patch {A} (new : option A) (old : A) : A :=
  match new with Some a => a | None => old end.

Definition patch_opt {A} (new : option A) (old : option A) : option A :=
  match new with Some a => Some a | None => old end.

(** A Python [dict] with string keys: the items in insertion order.
    Assigning to a key that is present keeps its place. *)
Module PyDict.

Definition t (V : Type) : Type := list (string * V).

Fixpoint set {V} (k : string) (v : V) (d : t V) : t V :=
  match d with
  | [] => [(k, v)]
  | (k', v') :: r =>
      if String.eqb k' k then (k', v) :: r else (k', v') :: set k v r
  end.

Fixpoint get {V} (k : string) (d : t V) : option V :=
  match d with
  | [] => None
  | (k', v') :: r => if String.eqb k' k then Some v' else get k r
  end.

Definition keys {V} (d : t V) : list string := map fst d.

End PyDict.

(** [ORDER BY]: a stable insertion sort along a total preorder. *)
Section OrderBy.

Variable R : Type.
Variable leb : R -> R -> bool.

Fixpoint insert_row (x : R) (l : list R) : list R :=
  match l with
  | [] => [x]
  | y :: r => if leb x y then x :: y :: r else y :: insert_row x r
  end.

Definition order_by (l : list R) : list R :=
  fold_right insert_row [] l.

End OrderBy.

Arguments insert_row {R} leb x l.
Arguments order_by {R} leb l.

(** ** app/tools/supply_inventory.py *)

Module supply_inventory.

Definition has_id (supply_id : Z) (s : Supply.t) : bool :=
  (Supply.id s =? supply_id)%Z.

(** The [try] block of [get_supply_by_id]. *)
Definition get_supply_by_id_try (F : Faults) (supply_id : Z)
    : M (Response Supply.dict) :=
  supply <- query_first F QuerySupply supplies (has_id supply_id) ;;
  match supply with
  | Some s => ret (Success (Supply.to_dict s))
  | None => ret (Failure "Supply not found"%string)
  end.

(** [get_supply_by_id] *)
Definition get_supply_by_id (F : Faults) (supply_id : Z) (db : DB)
    : Response Supply.dict * Session :=
  try_close
    (get_supply_by_id_try F supply_id)
    (SessionLocal db).

Definition insert_supply (row : Supply.t) (d : DB) : DB :=
  mkDB (supplies d ++ [row]) (supply_usage d) (projects d)
       (portfolio_pieces d) (style_preferences d).

Definition write_supply (row : Supply.t) (d : DB) : DB :=
  mkDB (replace_row Supply.id row (supplies d)) (supply_usage d)
       (projects d) (portfolio_pieces d) (style_preferences d).

Definition insert_usage (row : SupplyUsage.t) (d : DB) : DB :=
  mkDB (supplies d) (supply_usage d ++ [row]) (projects d)
       (portfolio_pieces d) (style_preferences d).

(** The [try] block of [add_supply]; [quantity] and [unit] have the
    defaults 1.0 and "piece". *)
Definition add_supply_try (F : Faults) (now : Time)
    (name category : string) (brand color size : option string)
    (quantity : option Q) (unit : option string) (notes : option string)
    : M (Response (string * Supply.dict)) :=
  d <- snapshot ;;
  let supply :=
    Supply.mk (next_id Supply.id (supplies d)) name brand (Some category)
              color size (default 1.0 quantity)
              (Some (default "piece"%string unit)) notes now in
  modify (insert_supply supply) ;;;
  db_commit F ;;;
  db_refresh F ;;;
  ret (Success (("Added " ++ name ++ " to inventory")%string,
                Supply.to_dict supply)).

(** [add_supply] *)
Definition add_supply (F : Faults) (now : Time)
    (name category : string) (brand color size : option string)
    (quantity : option Q) (unit : option string) (notes : option string) (db : DB)
    : Response (string * Supply.dict) * Session :=
  try_rollback_close
    (add_supply_try F now name category brand color size quantity unit
       notes)
    (SessionLocal db).

(** The keyword arguments of [update_supply] that name a column; [name],
    [quantity] and [notes] are parameters of their own. *)
Record supply_kwargs := mk_kwargs {
  kw_brand : option string;
  kw_category : option string;
  kw_color : option string;
  kw_size : option string;
  kw_unit : option string
}.

Definition no_kwargs : supply_kwargs := mk_kwargs None None None None None.

Definition updated_supply (now : Time) (name : option string)
    (quantity : option Q) (notes : option string) (kw : supply_kwargs)
    (supply : Supply.t) : Supply.t :=
  Supply.mk (Supply.id supply)
    (patch name (Supply.name supply))
    (patch_opt (kw_brand kw) (Supply.brand supply))
    (patch_opt (kw_category kw) (Supply.category supply))
    (patch_opt (kw_color kw) (Supply.color supply))
    (patch_opt (kw_size kw) (Supply.size supply))
    (match quantity with
     | Some q => Py.max 0 (Py.min 1 q)
     | None => Supply.quantity supply
     end)
    (patch_opt (kw_unit kw) (Supply.unit supply))
    (patch_opt notes (Supply.notes supply))
    now.

(** The [try] block of [update_supply]. *)
Definition update_supply_try (F : Faults) (now : Time) (supply_id : Z)
    (name : option string) (quantity : option Q) (notes : option string)
    (kw : supply_kwargs)
    : M (Response (string * Supply.dict)) :=
  supply <- query_first F QuerySupply supplies (has_id supply_id) ;;
  match supply with
  | None => ret (Failure "Supply not found"%string)
  | Some supply =>
      let supply' := updated_supply now name quantity notes kw supply in
      modify (write_supply supply') ;;;
      db_commit F ;;;
      db_refresh F ;;;
      ret (Success (("Updated " ++ Supply.name supply')%string,
                    Supply.to_dict supply'))
  end.

(** [update_supply] *)
Definition update_supply (F : Faults) (now : Time) (supply_id : Z)
    (name : option string) (quantity : option Q) (notes : option string)
    (kw : supply_kwargs) (db : DB)
    : Response (string * Supply.dict) * Session :=
  try_rollback_close
    (update_supply_try F now supply_id name quantity notes kw)
    (SessionLocal db).

(** Order of [ORDER BY quantity, category]; NULL sorts first. *)
Definition category_leb (a b : option string) : bool :=
  match a, b with
  | None, _ => true
  | Some _, None => false
  | Some x, Some y => String.leb x y
  end.

Definition low_stock_leb (a b : Supply.t) : bool :=
  Py.Qlt_bool (Supply.quantity a) (Supply.quantity b) ||
  (Qeq_bool (Supply.quantity a) (Supply.quantity b) &&
   category_leb (Supply.category a) (Supply.category b)).

Record suggestion := mk_suggestion {
  sg_name : string;
  sg_brand : option string;
  sg_category : option string;
  sg_current_quantity : Q;
  sg_urgency : string
}.

Record low_stock := mk_low_stock {
  total_low_stock : nat;
  ls_supplies : list Supply.dict;
  by_category : PyDict.t (list Supply.dict);
  shopping_list : list suggestion
}.

Definition group_by_category (rows : list Supply.t)
    : PyDict.t (list Supply.dict) :=
  fold_left
    (fun acc supply =>
       let cat := if Py.truthy (Supply.category supply)
                  then default ""%string (Supply.category supply)
                  else "uncategorized"%string in
       let old := default [] (PyDict.get cat acc) in
       PyDict.set cat (old ++ [Supply.to_dict supply]) acc)
    rows [].

Definition suggest (supply : Supply.t) : suggestion :=
  mk_suggestion (Supply.name supply) (Supply.brand supply)
    (Supply.category supply) (Supply.quantity supply)
    (if Py.Qlt_bool (Supply.quantity supply) 0.1
     then "critical"%string else "low"%string).

(** The [try] block of [get_low_stock_supplies]; [threshold] has the default
    0.25. *)
Definition get_low_stock_supplies_try (F : Faults) (threshold : option Q)
    : M (Response low_stock) :=
  rows <- query_all F QuerySupply supplies
            (fun s => Qle_bool (Supply.quantity s)
                               (default 0.25 threshold)) ;;
  let rows := order_by low_stock_leb rows in
  ret (Success
         (mk_low_stock (length rows) (map Supply.to_dict rows)
                       (group_by_category rows) (map suggest rows))).

(** [get_low_stock_supplies] *)
Definition get_low_stock_supplies (F : Faults) (threshold : option Q) (db : DB)
    : Response low_stock * Session :=
  try_close
    (get_low_stock_supplies_try F threshold)
    (SessionLocal db).

Inductive alert : Type :=
| RunningLow (name : string)     (* "... is now running low!" *)
| AlmostEmpty (name : string).   (* "... is almost empty!" *)

Record usage_report := mk_report {
  supply : Supply.dict;
  usage_recorded : Q;
  previous_quantity : Q;
  status_alert : option alert
}.

Definition used_supply (now : Time) (amount_used : Q) (supply : Supply.t)
    : Supply.t :=
  Supply.mk (Supply.id supply) (Supply.name supply) (Supply.brand supply)
    (Supply.category supply) (Supply.color supply) (Supply.size supply)
    (Py.max 0 (Supply.quantity supply - amount_used))
    (Supply.unit supply) (Supply.notes supply) now.

(** The [try] block of [use_supply]. *)
Definition use_supply_try (F : Faults) (now : Time) (supply_id : Z)
    (amount_used : Q) (project_id : option Z)
    : M (Response usage_report) :=
  found <- query_first F QuerySupply supplies (has_id supply_id) ;;
  match found with
  | None => ret (Failure "Supply not found"%string)
  | Some supply =>
      let old_quantity := Supply.quantity supply in
      let supply' := used_supply now amount_used supply in
      modify (write_supply supply') ;;;
      modify (fun d =>
        insert_usage
          (SupplyUsage.mk (next_id SupplyUsage.id (supply_usage d))
                          supply_id project_id amount_used now) d) ;;;
      db_commit F ;;;
      let status_message :=
        if Py.Qlt_bool (Supply.quantity supply') 0.25
           && Qle_bool 0.25 old_quantity
        then Some (RunningLow (Supply.name supply'))
        else if Py.Qlt_bool (Supply.quantity supply') 0.1
        then Some (AlmostEmpty (Supply.name supply'))
        else None in
      ret (Success (mk_report (Supply.to_dict supply') amount_used
                              old_quantity status_message))
  end.

(** [use_supply] *)
Definition use_supply (F : Faults) (now : Time) (supply_id : Z)
    (amount_used : Q) (project_id : option Z) (db : DB)
    : Response usage_report * Session :=
  try_rollback_close
    (use_supply_try F now supply_id amount_used project_id)
    (SessionLocal db).

(** Order of [ORDER BY category, name]; NULL sorts first. *)
Definition category_compare (a b : option string) : comparison :=
  match a, b with
  | None, None => Eq
  | None, Some _ => Lt
  | Some _, None => Gt
  | Some x, Some y => String.compare x y
  end.

Definition by_category_name (a b : Supply.t) : bool :=
  match category_compare (Supply.category a) (Supply.category b) with
  | Lt => true
  | Eq => String.leb (Supply.name a) (Supply.name b)
  | Gt => false
  end.

(** [Supply.category == category] in a filter: NULL is equal to nothing. *)
Definition in_category (category : string) (s : Supply.t) : bool :=
  match Supply.category s with
  | Some c => String.eqb c category
  | None => false
  end.

Record inventory := mk_inventory {
  total : nat;
  inv_supplies : list Supply.dict;
  by_status : PyDict.t (list Supply.dict);
  plenty : nat;
  low : nat;
  empty : nat
}.

(** The loop of [get_all_supplies]: each dictionary goes to the list and to
    the group of its status; a status without a group is a [KeyError]. *)
Fixpoint group_by_status (rows : list Supply.t)
    (supply_list : list Supply.dict) (grouped : PyDict.t (list Supply.dict))
    : M (list Supply.dict * PyDict.t (list Supply.dict)) :=
  match rows with
  | [] => ret (supply_list, grouped)
  | supply :: rows =>
      let supply_dict := Supply.to_dict supply in
      match PyDict.get (Supply.status supply_dict) grouped with
      | Some group =>
          group_by_status rows (supply_list ++ [supply_dict])
            (PyDict.set (Supply.status supply_dict) (group ++ [supply_dict])
                        grouped)
      | None => raise ("'" ++ Supply.status supply_dict ++ "'")%string
      end
  end.

Definition group_size (status : string)
    (grouped : PyDict.t (list Supply.dict)) : M nat :=
  match PyDict.get status grouped with
  | Some group => ret (length group)
  | None => raise ("'" ++ status ++ "'")%string
  end.

(** The [try] block of [get_all_supplies]. *)
Definition get_all_supplies_try (F : Faults) (category : option string)
    : M (Response inventory) :=
  rows <- query_all F QuerySupply supplies
            (fun s => if Py.truthy category
                      then in_category (default ""%string category) s
                      else true) ;;
  let supplies := order_by by_category_name rows in
  grouped <- group_by_status supplies []
               [("green"%string, []); ("yellow"%string, []);
                ("red"%string, [])] ;;
  plenty <- group_size "green" (snd grouped) ;;
  low <- group_size "yellow" (snd grouped) ;;
  empty <- group_size "red" (snd grouped) ;;
  ret (Success (mk_inventory (length supplies) (fst grouped) (snd grouped)
                             plenty low empty)).

(** [get_all_supplies] *)
Definition get_all_supplies (F : Faults) (category : option string) (db : DB)
    : Response inventory * Session :=
  try_close (get_all_supplies_try F category) (SessionLocal db).

(** The table [essentials] of [get_supplies_for_project]. *)
Definition essentials : PyDict.t (PyDict.t (list string)) :=
  [("watercolor",
    [("paint", ["yellow"; "red"; "blue"]);
     ("brush", ["round"]);
     ("paper", ["watercolor paper"])]);
   ("oil",
    [("paint", ["white"; "yellow"; "red"; "blue"]);
     ("brush", ["flat"; "filbert"]);
     ("canvas", ["canvas"]);
     ("medium", ["linseed oil"; "turpentine"])]);
   ("acrylic",
    [("paint", ["white"; "yellow"; "red"; "blue"]);
     ("brush", ["flat"; "round"]);
     ("canvas", ["canvas"])])]%string.

Record missing_essential := mk_missing {
  missing_category : string;
  missing_item : string
}.

Record readiness := mk_readiness {
  ready_medium : string;
  available_supplies : list Supply.dict;
  missing_essentials : list missing_essential;
  ready_to_start : bool
}.

(** [item.lower() in (s.name.lower() + " " + (s.color or ""))] *)
Definition covers (item : string) (s : Supply.t) : bool :=
  Py.contains (Py.lower item)
    (Py.lower (Supply.name s) ++ " "
     ++ (if Py.truthy (Supply.color s)
         then default ""%string (Supply.color s) else ""))%string.

(** [s.category == category] in Python: [None] is equal to no string. *)
Definition of_category (category : string) (s : Supply.t) : bool :=
  match Supply.category s with
  | Some c => String.eqb c category
  | None => false
  end.

(** The two loops over the essentials of a medium. *)
Definition missing_of (medium_essentials : PyDict.t (list string))
    (supplies : list Supply.t) : list missing_essential :=
  fold_left
    (fun missing entry =>
       let category := fst entry in
       let category_supplies := filter (of_category category) supplies in
       fold_left
         (fun missing item =>
            if existsb (covers item) category_supplies
            then missing
            else missing ++ [mk_missing category item])
         (snd entry) missing)
    medium_essentials [].

(** The [try] block of [get_supplies_for_project]; [style] is not read. *)
Definition get_supplies_for_project_try (F : Faults) (medium : string)
    (style : option string) : M (Response readiness) :=
  supplies <- query_all F QuerySupply supplies
                (fun s => Py.Qlt_bool 0.1 (Supply.quantity s)) ;;
  let available := map Supply.to_dict supplies in
  let medium_essentials :=
    default [] (PyDict.get (Py.lower medium) essentials) in
  let missing := missing_of medium_essentials supplies in
  ret (Success (mk_readiness medium available missing
                             (Nat.eqb (length missing) 0))).

(** [get_supplies_for_project] *)
Definition get_supplies_for_project (F : Faults) (medium : string)
    (style : option string) (db : DB) : Response readiness * Session :=
  try_close (get_supplies_for_project_try F medium style) (SessionLocal db).

(** [column.ilike(pattern)]: NULL matches nothing. *)
Definition ilike (pattern : string) (column : option string) : bool :=
  match column with
  | Some text => Py.like (Py.lower pattern) (Py.lower text)
  | None => false
  end.

Record search := mk_search {
  search_query : string;
  search_count : nat;
  search_supplies_found : list Supply.dict
}.

(** The [try] block of [search_supplies]. *)
Definition search_supplies_try (F : Faults) (query : string)
    : M (Response search) :=
  let search_term := ("%" ++ query ++ "%")%string in
  supplies <- query_all F QuerySupply supplies
                (fun s => ilike search_term (Some (Supply.name s))
                          || ilike search_term (Supply.brand s)
                          || ilike search_term (Supply.category s)
                          || ilike search_term (Supply.color s)) ;;
  ret (Success (mk_search query (length supplies)
                          (map Supply.to_dict supplies))).

(** [search_supplies] *)
Definition search_supplies (F : Faults) (query : string) (db : DB)
    : Response search * Session :=
  try_close (search_supplies_try F query) (SessionLocal db).

End supply_inventory.

(** ** app/tools/project_filesaver.py *)

Module project_filesaver.

Definition has_id (project_id : Z) (p : Project.t) : bool :=
  (Project.id p =? project_id)%Z.

Definition write_project (row : Project.t) (d : DB) : DB :=
  mkDB (supplies d) (supply_usage d)
       (replace_row Project.id row (projects d))
       (portfolio_pieces d) (style_preferences d).

(** The keyword arguments of [update_project] that name a column and are
    no parameter of their own. *)
Record project_kwargs := mk_kwargs {
  kw_medium : option string;
  kw_style : option string;
  kw_estimated_budget : option Q;
  kw_file_path : option string;
  kw_created_at : option Time;
  kw_completed_at : option Time
}.

Definition no_kwargs : project_kwargs :=
  mk_kwargs None None None None None None.

(** The assignments of [update_project], in the order of the source. *)
Definition updated_project (now : Time)
    (title description status : option string)
    (materials_list : option (list Material)) (steps : option (list string))
    (notes : option string) (actual_budget : option Q)
    (kw : project_kwargs) (project : Project.t) : Project.t :=
  let completed :=
    match status with
    | Some status =>
        let old_status := Project.status project in
        if String.eqb status "completed"
           && negb (String.eqb old_status "completed")
        then Some now
        else Project.completed_at project
    | None => Project.completed_at project
    end in
  Project.mk (Project.id project)
    (patch title (Project.title project))
    (patch_opt description (Project.description project))
    (patch status (Project.status project))
    (patch_opt (kw_medium kw) (Project.medium project))
    (patch_opt (kw_style kw) (Project.style project))
    (patch_opt (kw_estimated_budget kw) (Project.estimated_budget project))
    (patch_opt actual_budget (Project.actual_budget project))
    (match materials_list with
     | Some l => JList l
     | None => Project.materials_list project
     end)
    (match steps with
     | Some l => JList l
     | None => Project.steps project
     end)
    (patch_opt notes (Project.notes project))
    (patch_opt (kw_file_path kw) (Project.file_path project))
    (patch (kw_created_at kw) (Project.created_at project))
    now
    (patch_opt (kw_completed_at kw) completed).

(** The [try] block of [update_project]. *)
Definition update_project_try (F : Faults) (now : Time) (project_id : Z)
    (title description status : option string)
    (materials_list : option (list Material)) (steps : option (list string))
    (notes : option string) (actual_budget : option Q)
    (kw : project_kwargs)
    : M (Response (string * Project.dict)) :=
  found <- query_first F QueryProject projects (has_id project_id) ;;
  match found with
  | None => ret (Failure "Project not found"%string)
  | Some project =>
      let project' :=
        updated_project now title description status materials_list
                        steps notes actual_budget kw project in
      modify (write_project project') ;;;
      db_commit F ;;;
      db_refresh F ;;;
      ret (Success (("Updated project: " ++ Project.title project')%string,
                    Project.to_dict project'))
  end.

(** [update_project] *)
Definition update_project (F : Faults) (now : Time) (project_id : Z)
    (title description status : option string)
    (materials_list : option (list Material)) (steps : option (list string))
    (notes : option string) (actual_budget : option Q)
    (kw : project_kwargs) (db : DB)
    : Response (string * Project.dict) * Session :=
  try_rollback_close
    (update_project_try F now project_id title description status
       materials_list steps notes actual_budget kw)
    (SessionLocal db).

(** The key of a supply in [supply_map]. *)
Definition supply_key (s : Supply.t) : string :=
  if Py.truthy (Supply.brand s)
  then Py.lower (Supply.name s ++ "_" ++ default ""%string (Supply.brand s))
  else Py.lower (Supply.name s).

(** The loop that fills [supply_map]. *)
Definition build_supply_map (inventory : list Supply.t)
    : PyDict.t Supply.t :=
  fold_left (fun supply_map s => PyDict.set (supply_key s) s supply_map)
            inventory [].

(** [material_lower in key or key in material_lower] *)
Definition matches (material_lower key : string) : bool :=
  Py.contains material_lower key || Py.contains key material_lower.

(** The inner loop: the first item of the map that matches. *)
Fixpoint find_supply (material_lower : string) (items : PyDict.t Supply.t)
    : option Supply.t :=
  match items with
  | [] => None
  | (key, supply) :: rest =>
      if matches material_lower key then Some supply
      else find_supply material_lower rest
  end.

Definition material_name (material : Material) : string :=
  match material with
  | MDict (Some name) _ => name
  | MDict None _ => ""%string
  | MValue str => str
  end.

(** An entry of ["shopping_list"]; the "brand" key is present for a low
    stock entry only. *)
Record to_buy := mk_to_buy {
  item : string;
  reason : string;
  current_quantity : Q;
  brand : option (option string)
}.

(** An entry of ["already_have"]. *)
Record have := mk_have {
  have_item : string;
  have_quantity : Q;
  have_brand : option string
}.

(** One round of the loop over the materials. *)
Definition check_material (supply_map : PyDict.t Supply.t)
    (lists : list to_buy * list have) (material : Material)
    : list to_buy * list have :=
  let (shopping_list, have_list) := lists in
  let material_name := material_name material in
  let material_lower := Py.lower material_name in
  match find_supply material_lower supply_map with
  | Some found =>
      if Py.Qlt_bool (Supply.quantity found) 0.25
      then (shopping_list ++
              [mk_to_buy material_name "low stock" (Supply.quantity found)
                         (Some (Supply.brand found))],
            have_list)
      else (shopping_list,
            have_list ++
              [mk_have material_name (Supply.quantity found)
                       (Supply.brand found)])
  | None =>
      (shopping_list ++ [mk_to_buy material_name "not in inventory" 0 None],
       have_list)
  end.

Definition check_materials (inventory : list Supply.t)
    (materials : list Material) : list to_buy * list have :=
  fold_left (check_material (build_supply_map inventory)) materials ([], []).

(** The contract of the reconciler, in the words of the specification: a
    material goes to the shopping list with the reason "low stock" when the
    record matched for it is below 0.25, and with the reason "not in
    inventory" and the quantity 0 when no record matches; it goes to the
    list of what is there when the record matched is at 0.25 or above. *)
Definition to_buy_for (supply_map : PyDict.t Supply.t) (material : Material)
    : list to_buy :=
  let name := material_name material in
  match find_supply (Py.lower name) supply_map with
  | Some found =>
      if Py.Qlt_bool (Supply.quantity found) 0.25
      then [mk_to_buy name "low stock" (Supply.quantity found)
                      (Some (Supply.brand found))]
      else []
  | None => [mk_to_buy name "not in inventory" 0 None]
  end.

Definition have_for (supply_map : PyDict.t Supply.t) (material : Material)
    : list have :=
  let name := material_name material in
  match find_supply (Py.lower name) supply_map with
  | Some found =>
      if Py.Qlt_bool (Supply.quantity found) 0.25
      then []
      else [mk_have name (Supply.quantity found) (Supply.brand found)]
  | None => []
  end.

Inductive shopping : Type :=
| NoMaterials (project : string) (shopping_list : list to_buy)
| Shopping (project : string) (shopping_list : list to_buy)
           (already_have : list have) (items_to_buy items_available : nat)
           (estimated_budget : option Q).

(** The [try] block of [generate_shopping_list]. *)
Definition generate_shopping_list_try (F : Faults) (project_id : Z)
    : M (Response shopping) :=
  found <- query_first F QueryProject projects (has_id project_id) ;;
  match found with
  | None => ret (Failure "Project not found"%string)
  | Some project =>
      match Project.materials_list project with
      | JNull => ret (Success (NoMaterials (Project.title project) []))
      | column =>
          inventory <- query_all F QuerySupply supplies (fun _ => true) ;;
          match column with
          | JOther type_name None =>
              raise ("'" ++ type_name ++ "' object is not iterable")%string
          | _ =>
              let materials :=
                match column with
                | JList l => l
                | JOther _ (Some keys) => map MValue keys
                | _ => []
                end in
              let (shopping_list, have_list) :=
                check_materials inventory materials in
              ret (Success (Shopping (Project.title project)
                              shopping_list have_list
                              (length shopping_list) (length have_list)
                              (Project.estimated_budget project)))
          end
      end
  end.

(** [generate_shopping_list] *)
Definition generate_shopping_list (F : Faults) (project_id : Z) (db : DB)
    : Response shopping * Session :=
  try_close
    (generate_shopping_list_try F project_id)
    (SessionLocal db).

Definition insert_project (row : Project.t) (d : DB) : DB :=
  mkDB (supplies d) (supply_usage d) (projects d ++ [row])
       (portfolio_pieces d) (style_preferences d).

(** [json.dumps(value) if value else None] for a list. *)
Definition dumps_if {A} (value : option (list A)) : JsonColumn A :=
  match value with
  | Some (x :: l) => JList (x :: l)
  | _ => JNull
  end.

(** The [try] block of [create_project]. *)
Definition create_project_try (F : Faults) (now : Time) (title : string)
    (description medium style : option string) (estimated_budget : option Q)
    (materials_list : option (list Material)) (steps : option (list string))
    (notes : option string) : M (Response (string * Project.dict)) :=
  d <- snapshot ;;
  let project :=
    Project.mk (next_id Project.id (projects d)) title description "planned"
               medium style estimated_budget None (dumps_if materials_list)
               (dumps_if steps) notes None now now None in
  modify (insert_project project) ;;;
  db_commit F ;;;
  db_refresh F ;;;
  ret (Success (("Created project: " ++ title)%string,
                Project.to_dict project)).

(** [create_project] *)
Definition create_project (F : Faults) (now : Time) (title : string)
    (description medium style : option string) (estimated_budget : option Q)
    (materials_list : option (list Material)) (steps : option (list string))
    (notes : option string) (db : DB)
    : Response (string * Project.dict) * Session :=
  try_rollback_close
    (create_project_try F now title description medium style estimated_budget
       materials_list steps notes)
    (SessionLocal db).

(** The [try] block of [get_project]: text that is no JSON stays as it
    is. *)
Definition get_project_try (F : Faults) (project_id : Z)
    : M (Response Project.dict) :=
  found <- query_first F QueryProject projects (has_id project_id) ;;
  match found with
  | None => ret (Failure "Project not found"%string)
  | Some project =>
      let project_dict := Project.to_dict project in
      ret (Success
             (Project.mk_dict
                (Project.dict_id project_dict)
                (Project.dict_title project_dict)
                (Project.dict_description project_dict)
                (Project.dict_status project_dict)
                (Project.dict_medium project_dict)
                (Project.dict_style project_dict)
                (Project.dict_estimated_budget project_dict)
                (loaded (Project.dict_materials_list project_dict)
                        (Project.materials_list project))
                (loaded (Project.dict_steps project_dict)
                        (Project.steps project))
                (Project.dict_notes project_dict)
                (Project.dict_created_at project_dict)
                (Project.dict_updated_at project_dict)))
  end.

(** [get_project] *)
Definition get_project (F : Faults) (project_id : Z) (db : DB)
    : Response Project.dict * Session :=
  try_close (get_project_try F project_id) (SessionLocal db).

(** Order of [ORDER BY updated_at DESC]. *)
Definition latest_first (a b : Project.t) : bool :=
  (Project.updated_at b <=? Project.updated_at a)%Z.

(** The [try] block of [get_all_projects]; [limit] has the default 50 and
    is a natural number. *)
Definition get_all_projects_try (F : Faults) (status : option string)
    (limit : option nat) : M (Response (nat * list Project.dict)) :=
  rows <- query_all F QueryProject projects
            (fun p => if Py.truthy status
                      then String.eqb (Project.status p)
                                      (default ""%string status)
                      else true) ;;
  let projects := firstn (default 50%nat limit) (order_by latest_first rows) in
  ret (Success (length projects, map Project.to_dict projects)).

(** [get_all_projects] *)
Definition get_all_projects (F : Faults) (status : option string)
    (limit : option nat) (db : DB)
    : Response (nat * list Project.dict) * Session :=
  try_close (get_all_projects_try F status limit) (SessionLocal db).

(** The three scans of [create_project_from_query]: the first keyword of
    the list that is in the query. *)
Fixpoint first_keyword (keywords : list string) (query_lower : string)
    : option string :=
  match keywords with
  | [] => None
  | k :: rest =>
      if Py.contains k query_lower then Some k
      else first_keyword rest query_lower
  end.

Definition mediums : list string :=
  ["watercolor"; "oil"; "acrylic"; "pencil"; "ink"; "pastel"; "charcoal";
   "mixed media"]%string.

Definition styles : list string :=
  ["landscape"; "portrait"; "still life"; "abstract"; "botanical";
   "seascape"; "cityscape"]%string.

Definition subjects : list string :=
  ["sunflower"; "flower"; "mountain"; "ocean"; "tree"; "bird"; "sunset";
   "forest"]%string.

Definition named (name category : string) : Material :=
  MDict (Some name) (Some category).

(** The materials suggested for a medium. *)
Definition suggested_materials (medium : option string) : list Material :=
  match medium with
  | Some m =>
      if String.eqb m "watercolor"
      then [named "Watercolor paper" "paper";
            named "Round brush #6" "brush";
            named "Flat brush 1 inch" "brush";
            named "Primary colors set" "paint"]
      else if String.eqb m "oil"
      then [named "Stretched canvas" "canvas";
            named "Oil paint set" "paint";
            named "Linseed oil" "medium";
            named "Filbert brush set" "brush"]
      else if String.eqb m "acrylic"
      then [named "Canvas board" "canvas";
            named "Acrylic paint set" "paint";
            named "Flat brush set" "brush"]
      else []
  | None => []
  end.

Definition suggested_steps : list (nat * string) :=
  [(1%nat, "Gather reference images and plan composition");
   (2%nat, "Sketch initial composition");
   (3%nat, "Block in main shapes and values");
   (4%nat, "Add details and refine");
   (5%nat, "Final touches and evaluation")]%string.

(** The parts of the title, in the order subject, style, medium. *)
Definition title_parts (medium style subject : option string) : list string :=
  (match subject with Some s => [Py.title s] | None => [] end)
  ++ (match style with Some s => [Py.title s] | None => [] end)
  ++ (match medium with
      | Some m => [("in " ++ Py.title m)%string]
      | None => []
      end).

Record suggestion := mk_suggestion {
  sg_title : string;
  sg_description : string;
  sg_medium : option string;
  sg_style : option string;
  sg_subject : option string;
  sg_materials_list : list Material;
  sg_steps : list (nat * string);
  sg_estimated_budget : option Q
}.

(** [create_project_from_query]; [available_supplies] and
    [style_preferences] are not read.  The key "parsed_from_query" of the
    result repeats the medium, the style, the subject and the budget. *)
Definition create_project_from_query (query : string)
    (available_supplies : option (list Supply.dict))
    (budget : option Q) (style_preferences : option (PyDict.t string))
    : suggestion :=
  let query_lower := Py.lower query in
  let medium := first_keyword mediums query_lower in
  let style := first_keyword styles query_lower in
  let subject := first_keyword subjects query_lower in
  let materials := suggested_materials medium in
  let parts := title_parts medium style subject in
  let title :=
    match parts with
    | [] => "New Art Project"%string
    | _ => Py.join " " parts
    end in
  mk_suggestion title query medium style subject materials suggested_steps
                budget.

(** The note [add_session_notes] writes: the time stamp in brackets, a line
    feed and the notes, after two line feeds when notes are there. *)
Definition with_note (timestamp notes : string) (old : option string)
    : string :=
  if Py.truthy old
  then (default "" old
        ++ (Py.nl ++ Py.nl ++ "[" ++ timestamp ++ "]" ++ Py.nl ++ notes))%string
  else ("[" ++ timestamp ++ "]" ++ Py.nl ++ notes)%string.

Definition noted_project (now : Time) (timestamp notes : string)
    (project : Project.t) : Project.t :=
  Project.mk (Project.id project) (Project.title project)
    (Project.description project) (Project.status project)
    (Project.medium project) (Project.style project)
    (Project.estimated_budget project) (Project.actual_budget project)
    (Project.materials_list project) (Project.steps project)
    (Some (with_note timestamp notes (Project.notes project)))
    (Project.file_path project) (Project.created_at project)
    now (Project.completed_at project).

(** The [try] block of [add_session_notes]; [timestamp] is what [strftime]
    gives for the local time of the call. *)
Definition add_session_notes_try (F : Faults) (now : Time)
    (timestamp : string) (project_id : Z) (notes : string)
    : M (Response (string * Project.dict)) :=
  found <- query_first F QueryProject projects (has_id project_id) ;;
  match found with
  | None => ret (Failure "Project not found"%string)
  | Some project =>
      let project' := noted_project now timestamp notes project in
      modify (write_project project') ;;;
      db_commit F ;;;
      db_refresh F ;;;
      ret (Success ("Added session notes"%string, Project.to_dict project'))
  end.

(** [add_session_notes] *)
Definition add_session_notes (F : Faults) (now : Time) (timestamp : string)
    (project_id : Z) (notes : string) (db : DB)
    : Response (string * Project.dict) * Session :=
  try_rollback_close
    (add_session_notes_try F now timestamp project_id notes)
    (SessionLocal db).

(** The name of the file in [save_project_to_file]: the title without the
    characters that are neither letters, digits, spaces, hyphens nor
    underscores, stripped, with underscores for spaces, cut at 50
    characters; then the date and the extension.  [isalnum] is
    [str.isalnum] on one character. *)
Definition safe_title (isalnum : ascii -> bool) (title : string) : string :=
  let kept :=
    Py.filter_chars
      (fun c => isalnum c
                || existsb (Ascii.eqb c) (list_ascii_of_string " -_"))
      title in
  Py.take 50 (Py.replace_char " " "_" (Py.strip kept)).

Definition export_filename (isalnum : ascii -> bool) (title : string)
    (timestamp : string) : string :=
  (safe_title isalnum title ++ "_" ++ timestamp ++ ".json")%string.

(** [_ensure_projects_dir] *)
Definition _ensure_projects_dir (F : Faults) : M unit :=
  external F Makedirs.

Definition PROJECTS_DIR : string := "data/projects".

(** The row after [project.file_path = filepath]: the time of the last
    update moves when the path is a new one. *)
Definition saved_project (now : Time) (filepath : string)
    (project : Project.t) : Project.t :=
  let unchanged :=
    match Project.file_path project with
    | Some old => String.eqb old filepath
    | None => false
    end in
  Project.mk (Project.id project) (Project.title project)
    (Project.description project) (Project.status project)
    (Project.medium project) (Project.style project)
    (Project.estimated_budget project) (Project.actual_budget project)
    (Project.materials_list project) (Project.steps project)
    (Project.notes project) (Some filepath) (Project.created_at project)
    (if unchanged then Project.updated_at project else now)
    (Project.completed_at project).

Record saved := mk_saved {
  saved_message : string;
  saved_file_path : string;
  saved_project_dict : Project.dict
}.

(** The [try] block of [save_project_to_file].  [timestamp] is what
    [strftime] gives for the day of the call; [materials_error] and
    [steps_error] are the texts of the [JSONDecodeError] that [json.loads]
    raises on what the two columns hold.  The writing of the file is one
    step; what it writes is no part of the database. *)
Definition save_project_to_file_try (F : Faults) (isalnum : ascii -> bool)
    (now : Time) (timestamp : string) (materials_error steps_error : Exn)
    (project_id : Z) : M (Response saved) :=
  found <- query_first F QueryProject projects (has_id project_id) ;;
  match found with
  | None => ret (Failure "Project not found"%string)
  | Some project =>
      let filename :=
        export_filename isalnum (Project.title project) timestamp in
      let filepath := (PROJECTS_DIR ++ "/" ++ filename)%string in
      match Project.materials_list project with
      | JInvalid => raise materials_error
      | _ => ret tt
      end ;;;
      match Project.steps project with
      | JInvalid => raise steps_error
      | _ => ret tt
      end ;;;
      external F WriteFile ;;;
      let project' := saved_project now filepath project in
      modify (write_project project') ;;;
      db_commit F ;;;
      ret (Success (mk_saved ("Saved project to " ++ filepath)%string
                             filepath (Project.to_dict project')))
  end.

(** [save_project_to_file]; the directory is made before the [try]. *)
Definition save_project_to_file (F : Faults) (isalnum : ascii -> bool)
    (now : Time) (timestamp : string) (materials_error steps_error : Exn)
    (project_id : Z) (db : DB) : Outcome (Response saved * Session) :=
  match _ensure_projects_dir F (SessionLocal db) with
  | (Raised e, _) => Raised e
  | (Returned _, s) =>
      Returned
        (try_rollback_close
           (save_project_to_file_try F isalnum now timestamp materials_error
              steps_error project_id)
           s)
  end.

End project_filesaver.

(** ** app/tools/portfolio_storehouse.py *)

(** The file system as the portfolio functions see it: [os.path.exists],
    and the path under which a copied image is stored (directory, time
    stamp and [secure_filename] of the base name). *)
Record FileSystem := mkFS {
  path_exists : string -> bool;
  portfolio_path : Time -> string -> string;
  thumbnail_path : Time -> string -> string;
  progress_path : Z -> Time -> string -> string
}.

Module portfolio_storehouse.

Definition has_id (piece_id : Z) (p : PortfolioPiece.t) : bool :=
  (PortfolioPiece.id p =? piece_id)%Z.

Definition write_piece (row : PortfolioPiece.t) (d : DB) : DB :=
  mkDB (supplies d) (supply_usage d) (projects d)
       (replace_row PortfolioPiece.id row (portfolio_pieces d))
       (style_preferences d).

(** [_ensure_portfolio_dir] *)
Definition _ensure_portfolio_dir (F : Faults) : M unit :=
  external F Makedirs.

(** The keyword arguments of [update_portfolio_piece] that name a column
    and are no parameter of their own. *)
Record piece_kwargs := mk_kwargs {
  kw_project_id : option Z;
  kw_medium : option string;
  kw_dimensions : option string;
  kw_thumbnail_path : option string;
  kw_progress_images : option (JsonColumn ProgressImage.t);
  kw_created_at : option Time;
  kw_completed_at : option Time
}.

Definition no_kwargs : piece_kwargs :=
  mk_kwargs None None None None None None None.

(** The assignments of [update_portfolio_piece]; [new_image] is the path
    of the copied image when one was copied. *)
Definition updated_piece (now : Time) (title description status : option string)
    (new_image : option string) (kw : piece_kwargs)
    (piece : PortfolioPiece.t) : PortfolioPiece.t :=
  let completed :=
    match status with
    | Some status =>
        let old_status := PortfolioPiece.status piece in
        if String.eqb status "completed"
           && negb (String.eqb old_status "completed")
        then Some now
        else PortfolioPiece.completed_at piece
    | None => PortfolioPiece.completed_at piece
    end in
  PortfolioPiece.mk (PortfolioPiece.id piece)
    (patch title (PortfolioPiece.title piece))
    (patch_opt description (PortfolioPiece.description piece))
    (patch_opt (kw_project_id kw) (PortfolioPiece.project_id piece))
    (patch status (PortfolioPiece.status piece))
    (patch_opt (kw_medium kw) (PortfolioPiece.medium piece))
    (patch_opt (kw_dimensions kw) (PortfolioPiece.dimensions piece))
    (patch_opt new_image (PortfolioPiece.image_path piece))
    (patch_opt (kw_thumbnail_path kw) (PortfolioPiece.thumbnail_path piece))
    (patch (kw_progress_images kw) (PortfolioPiece.progress_images piece))
    (patch (kw_created_at kw) (PortfolioPiece.created_at piece))
    now
    (patch_opt (kw_completed_at kw) completed).

(** The [try] block of [update_portfolio_piece]. *)
Definition update_portfolio_piece_try (F : Faults) (fs : FileSystem) (now : Time)
    (piece_id : Z) (title description status image_path : option string)
    (kw : piece_kwargs)
    : M (Response (string * PortfolioPiece.dict)) :=
  found <- query_first F QueryPiece portfolio_pieces (has_id piece_id) ;;
  match found with
  | None => ret (Failure "Portfolio piece not found"%string)
  | Some piece =>
      new_image <-
        (if Py.truthy image_path
            && path_exists fs (default ""%string image_path)
         then
           _ensure_portfolio_dir F ;;;
           external F CopyFile ;;;
           ret (Some (portfolio_path fs now (default ""%string image_path)))
         else ret None) ;;
      let piece' :=
        updated_piece now title description status new_image kw piece in
      modify (write_piece piece') ;;;
      db_commit F ;;;
      db_refresh F ;;;
      ret (Success (("Updated '" ++ PortfolioPiece.title piece' ++ "'")%string,
                    PortfolioPiece.to_dict piece'))
  end.

(** [update_portfolio_piece] *)
Definition update_portfolio_piece (F : Faults) (fs : FileSystem) (now : Time)
    (piece_id : Z) (title description status image_path : option string)
    (kw : piece_kwargs) (db : DB)
    : Response (string * PortfolioPiece.dict) * Session :=
  try_rollback_close
    (update_portfolio_piece_try F fs now piece_id title description status
       image_path kw)
    (SessionLocal db).

Record progress_report := mk_report {
  piece : PortfolioPiece.dict;
  progress_count : nat
}.

(** The list that [add_progress_image] decodes from the column before it
    appends: empty for NULL and for text that is no JSON. *)
Definition progress_list (column : JsonColumn ProgressImage.t)
    : list ProgressImage.t :=
  match column with
  | JList l => l
  | _ => []
  end.

Definition with_progress (now : Time) (images : list ProgressImage.t)
    (piece : PortfolioPiece.t) : PortfolioPiece.t :=
  PortfolioPiece.mk (PortfolioPiece.id piece) (PortfolioPiece.title piece)
    (PortfolioPiece.description piece)
    (PortfolioPiece.project_id piece)
    (if String.eqb (PortfolioPiece.status piece) "sketch"
     then "wip"%string else PortfolioPiece.status piece)
    (PortfolioPiece.medium piece)
    (PortfolioPiece.dimensions piece)
    (PortfolioPiece.image_path piece)
    (PortfolioPiece.thumbnail_path piece)
    (JList images)
    (PortfolioPiece.created_at piece)
    now
    (PortfolioPiece.completed_at piece).

(** The [try] block of [add_progress_image]. *)
Definition add_progress_image_try (F : Faults) (fs : FileSystem) (now : Time)
    (piece_id : Z) (image_path : string) (description : option string)
    : M (Response progress_report) :=
  found <- query_first F QueryPiece portfolio_pieces (has_id piece_id) ;;
  match found with
  | None => ret (Failure "Portfolio piece not found"%string)
  | Some piece =>
      external F CopyFile ;;;
      progress_images <-
        match PortfolioPiece.progress_images piece with
        | JList l => ret l
        | JOther type_name _ =>
            raise ("'" ++ type_name
                   ++ "' object has no attribute 'append'")%string
        | _ => ret []
        end ;;
      let progress_images :=
        progress_images ++
          [ProgressImage.mk (progress_path fs piece_id now image_path)
                            description now] in
      let piece' := with_progress now progress_images piece in
      modify (write_piece piece') ;;;
      db_commit F ;;;
      db_refresh F ;;;
      ret (Success (mk_report (PortfolioPiece.to_dict piece')
                              (length progress_images)))
  end.

(** [add_progress_image]; the check of the path and the making of the
    directories stand before the [try], so what the latter raises leaves
    the function. *)
Definition add_progress_image (F : Faults) (fs : FileSystem) (now : Time)
    (piece_id : Z) (image_path : string) (description : option string)
    (db : DB) : Outcome (Response progress_report * Session) :=
  if negb (path_exists fs image_path)
  then Returned (Failure ("Image file not found: " ++ image_path)%string,
                 SessionLocal db)
  else
    match _ensure_portfolio_dir F (SessionLocal db) with
    | (Raised e, _) => Raised e
    | (Returned _, s) =>
        Returned
          (try_rollback_close
             (add_progress_image_try F fs now piece_id image_path description)
             s)
    end.

Definition ALLOWED_EXTENSIONS : list string :=
  ["png"; "jpg"; "jpeg"; "gif"; "webp"]%string.

(** [_allowed_file], which is also [allowed_file] of [app/routes.py]. *)
Definition _allowed_file (filename : string) : bool :=
  Py.contains "." filename
  && match Py.rsplit_dot filename with
     | Some (_, extension) =>
         existsb (String.eqb (Py.lower extension)) ALLOWED_EXTENSIONS
     | None => false
     end.

(** The [try] block of [get_portfolio_piece]: text that is no JSON is given
    as the empty list, text that is JSON as its value. *)
Definition get_portfolio_piece_try (F : Faults) (piece_id : Z)
    : M (Response PortfolioPiece.dict) :=
  found <- query_first F QueryPiece portfolio_pieces (has_id piece_id) ;;
  match found with
  | None => ret (Failure "Portfolio piece not found"%string)
  | Some piece =>
      let piece_dict := PortfolioPiece.to_dict piece in
      ret (Success
             (PortfolioPiece.mk_dict
                (PortfolioPiece.dict_id piece_dict)
                (PortfolioPiece.dict_title piece_dict)
                (PortfolioPiece.dict_description piece_dict)
                (PortfolioPiece.dict_project_id piece_dict)
                (PortfolioPiece.dict_status piece_dict)
                (PortfolioPiece.dict_medium piece_dict)
                (PortfolioPiece.dict_dimensions piece_dict)
                (PortfolioPiece.dict_image_path piece_dict)
                (PortfolioPiece.dict_thumbnail_path piece_dict)
                (loaded (AsValue (JList []))
                        (PortfolioPiece.progress_images piece))
                (PortfolioPiece.dict_created_at piece_dict)
                (PortfolioPiece.dict_completed_at piece_dict)))
  end.

(** [get_portfolio_piece] *)
Definition get_portfolio_piece (F : Faults) (piece_id : Z) (db : DB)
    : Response PortfolioPiece.dict * Session :=
  try_close (get_portfolio_piece_try F piece_id) (SessionLocal db).

Definition insert_piece (row : PortfolioPiece.t) (d : DB) : DB :=
  mkDB (supplies d) (supply_usage d) (projects d)
       (portfolio_pieces d ++ [row]) (style_preferences d).

Definition remove_piece (piece_id : Z) (d : DB) : DB :=
  mkDB (supplies d) (supply_usage d) (projects d)
       (filter (fun p => negb (has_id piece_id p)) (portfolio_pieces d))
       (style_preferences d).

(** The [try] block of [add_portfolio_piece]; [status] has the default
    "sketch".  The path of the thumbnail is stored with that of the copied
    image; no thumbnail is made. *)
Definition add_portfolio_piece_try (F : Faults) (fs : FileSystem) (now : Time)
    (title : string) (description : option string) (project_id : option Z)
    (status : option string) (medium dimensions image_path : option string)
    : M (Response (string * PortfolioPiece.dict)) :=
  paths <-
    (if Py.truthy image_path
        && path_exists fs (default ""%string image_path)
     then
       external F CopyFile ;;;
       ret (Some (portfolio_path fs now (default ""%string image_path)),
            Some (thumbnail_path fs now (default ""%string image_path)))
     else ret (None, None)) ;;
  d <- snapshot ;;
  let piece :=
    PortfolioPiece.mk (next_id PortfolioPiece.id (portfolio_pieces d)) title
                      description project_id (default "sketch"%string status)
                      medium dimensions (fst paths) (snd paths) (JList [])
                      now now None in
  modify (insert_piece piece) ;;;
  db_commit F ;;;
  db_refresh F ;;;
  ret (Success (("Added '" ++ title ++ "' to portfolio")%string,
                PortfolioPiece.to_dict piece)).

(** [add_portfolio_piece]; the directories are made before the [try]. *)
Definition add_portfolio_piece (F : Faults) (fs : FileSystem) (now : Time)
    (title : string) (description : option string) (project_id : option Z)
    (status : option string) (medium dimensions image_path : option string)
    (db : DB) : Outcome (Response (string * PortfolioPiece.dict) * Session) :=
  match _ensure_portfolio_dir F (SessionLocal db) with
  | (Raised e, _) => Raised e
  | (Returned _, s) =>
      Returned
        (try_rollback_close
           (add_portfolio_piece_try F fs now title description project_id
              status medium dimensions image_path)
           s)
  end.

(** The [try] block of [delete_portfolio_piece].  The removal of the files
    of the piece changes no table: it is one step, done when [delete_files]
    is set, that raises [removal] when that is an exception. *)
Definition delete_portfolio_piece_try (F : Faults) (removal : option Exn)
    (piece_id : Z) (delete_files : bool) : M (Response string) :=
  found <- query_first F QueryPiece portfolio_pieces (has_id piece_id) ;;
  match found with
  | None => ret (Failure "Portfolio piece not found"%string)
  | Some piece =>
      let title := PortfolioPiece.title piece in
      (if delete_files
       then match removal with
            | Some e => raise e
            | None => ret tt
            end
       else ret tt) ;;;
      modify (remove_piece (PortfolioPiece.id piece)) ;;;
      db_commit F ;;;
      ret (Success ("Deleted '" ++ title ++ "' from portfolio")%string)
  end.

(** [delete_portfolio_piece]; [delete_files] has the default [False]. *)
Definition delete_portfolio_piece (F : Faults) (removal : option Exn)
    (piece_id : Z) (delete_files : option bool) (db : DB)
    : Response string * Session :=
  try_rollback_close
    (delete_portfolio_piece_try F removal piece_id
       (default false delete_files))
    (SessionLocal db).

(** Order of [ORDER BY updated_at DESC]. *)
Definition latest_first (a b : PortfolioPiece.t) : bool :=
  (PortfolioPiece.updated_at b <=? PortfolioPiece.updated_at a)%Z.

(** [PortfolioPiece.medium == medium] in a filter: NULL is equal to
    nothing. *)
Definition of_medium (medium : string) (p : PortfolioPiece.t) : bool :=
  match PortfolioPiece.medium p with
  | Some m => String.eqb m medium
  | None => false
  end.

Record portfolio := mk_portfolio {
  portfolio_total : nat;
  portfolio_list : list PortfolioPiece.dict;
  portfolio_by_status : PyDict.t (list PortfolioPiece.dict);
  sketches : nat;
  works_in_progress : nat;
  completed : nat
}.

(** The loop of [get_portfolio]: each dictionary goes to the list, and to
    the group of its status when there is one. *)
Definition group_pieces (pieces : list PortfolioPiece.t)
    : list PortfolioPiece.dict * PyDict.t (list PortfolioPiece.dict) :=
  fold_left
    (fun acc piece =>
       let piece_dict := PortfolioPiece.to_dict piece in
       (fst acc ++ [piece_dict],
        match PyDict.get (PortfolioPiece.status piece) (snd acc) with
        | Some group =>
            PyDict.set (PortfolioPiece.status piece) (group ++ [piece_dict])
                       (snd acc)
        | None => snd acc
        end))
    pieces
    ([], [("sketch"%string, []); ("wip"%string, []);
          ("completed"%string, [])]).

(** [len(by_status[status])] *)
Definition group_size {V} (status : string) (grouped : PyDict.t (list V))
    : M nat :=
  match PyDict.get status grouped with
  | Some group => ret (length group)
  | None => raise ("'" ++ status ++ "'")%string
  end.

(** The [try] block of [get_portfolio]; [limit] has the default 50 and is
    a natural number. *)
Definition get_portfolio_try (F : Faults) (status medium : option string)
    (limit : option nat) : M (Response portfolio) :=
  rows <- query_all F QueryPiece portfolio_pieces
            (fun p =>
               (if Py.truthy status
                then String.eqb (PortfolioPiece.status p)
                                (default ""%string status)
                else true)
               && (if Py.truthy medium
                   then of_medium (default ""%string medium) p
                   else true)) ;;
  let pieces := firstn (default 50%nat limit) (order_by latest_first rows) in
  let grouped := group_pieces pieces in
  n_sketch <- group_size "sketch" (snd grouped) ;;
  n_wip <- group_size "wip" (snd grouped) ;;
  n_completed <- group_size "completed" (snd grouped) ;;
  ret (Success (mk_portfolio (length pieces) (fst grouped) (snd grouped)
                             n_sketch n_wip n_completed)).

(** [get_portfolio] *)
Definition get_portfolio (F : Faults) (status medium : option string)
    (limit : option nat) (db : DB) : Response portfolio * Session :=
  try_close (get_portfolio_try F status medium limit) (SessionLocal db).

Record recent := mk_recent {
  recent_id : Z;
  recent_title : string;
  recent_completed_at : Time
}.

Record active := mk_active {
  active_id : Z;
  active_title : string;
  active_updated_at : option Time
}.

Record stats := mk_stats {
  total_pieces : nat;
  stats_by_status : PyDict.t nat;
  by_medium : PyDict.t nat;
  recent_completed : list recent;
  active_wips : list active
}.

(** One round of the loop of [get_portfolio_stats]. *)
Definition count_piece (acc : stats) (piece : PortfolioPiece.t) : stats :=
  let status := PortfolioPiece.status piece in
  let medium :=
    if Py.truthy (PortfolioPiece.medium piece)
    then default ""%string (PortfolioPiece.medium piece)
    else "unspecified"%string in
  mk_stats
    (total_pieces acc)
    (match PyDict.get status (stats_by_status acc) with
     | Some n => PyDict.set status (n + 1)%nat (stats_by_status acc)
     | None => stats_by_status acc
     end)
    (PyDict.set medium
       (default 0%nat (PyDict.get medium (by_medium acc)) + 1)%nat
       (by_medium acc))
    (match PortfolioPiece.completed_at piece with
     | Some completed_at =>
         if String.eqb status "completed"
         then recent_completed acc
              ++ [mk_recent (PortfolioPiece.id piece)
                            (PortfolioPiece.title piece) completed_at]
         else recent_completed acc
     | None => recent_completed acc
     end)
    (if String.eqb status "wip"
     then active_wips acc
          ++ [mk_active (PortfolioPiece.id piece)
                        (PortfolioPiece.title piece)
                        (Some (PortfolioPiece.updated_at piece))]
     else active_wips acc).

(** [sort(key=lambda x: x["completed_at"], reverse=True)]: the texts that
    [isoformat] gives stand in the order of the times; entries of one time
    keep their order. *)
Definition last_completed_first (a b : recent) : bool :=
  (recent_completed_at b <=? recent_completed_at a)%Z.

(** The [try] block of [get_portfolio_stats]. *)
Definition get_portfolio_stats_try (F : Faults) : M (Response stats) :=
  pieces <- query_all F QueryPiece portfolio_pieces (fun _ => true) ;;
  let counted :=
    fold_left count_piece pieces
      (mk_stats (length pieces)
                [("sketch"%string, 0%nat); ("wip"%string, 0%nat);
                 ("completed"%string, 0%nat)]
                [] [] []) in
  ret (Success
         (mk_stats (total_pieces counted) (stats_by_status counted)
                   (by_medium counted)
                   (firstn 5 (order_by last_completed_first
                                       (recent_completed counted)))
                   (active_wips counted))).

(** [get_portfolio_stats] *)
Definition get_portfolio_stats (F : Faults) (db : DB)
    : Response stats * Session :=
  try_close (get_portfolio_stats_try F) (SessionLocal db).

End portfolio_storehouse.

(** ** app/tools/pinterest_inspiration.py *)

Module pinterest_inspiration.

Definition same_preference (category value : string)
    (p : StylePreference.t) : bool :=
  String.eqb (StylePreference.category p) category
  && String.eqb (StylePreference.value p) value.

Definition insert_preference (row : StylePreference.t) (d : DB) : DB :=
  mkDB (supplies d) (supply_usage d) (projects d) (portfolio_pieces d)
       (style_preferences d ++ [row]).

Definition write_preference (row : StylePreference.t) (d : DB) : DB :=
  mkDB (supplies d) (supply_usage d) (projects d) (portfolio_pieces d)
       (replace_row StylePreference.id row (style_preferences d)).

Definition more_confident (p : StylePreference.t) : StylePreference.t :=
  StylePreference.mk (StylePreference.id p) (StylePreference.category p)
    (StylePreference.value p)
    (Py.min 1.0 (StylePreference.confidence p + 0.1))
    (StylePreference.source p).

(** The [try] block of [save_style_preference]; [confidence] and [source]
    have the defaults 0.5 and "chat". *)
Definition save_style_preference_try (F : Faults) (category value : string)
    (confidence : option Q) (source : option string)
    : M (Response (string * StylePreference.t)) :=
  existing <- query_first F QueryPreference style_preferences
                (same_preference category value) ;;
  match existing with
  | Some existing =>
      let existing' := more_confident existing in
      modify (write_preference existing') ;;;
      db_commit F ;;;
      ret (Success ("updated"%string, StylePreference.to_dict existing'))
  | None =>
      d <- snapshot ;;
      let pref :=
        StylePreference.mk
          (next_id StylePreference.id (style_preferences d))
          category value (default 0.5 confidence)
          (default "chat"%string source) in
      modify (insert_preference pref) ;;;
      db_commit F ;;;
      db_refresh F ;;;
      ret (Success ("created"%string, StylePreference.to_dict pref))
  end.

(** [save_style_preference] *)
Definition save_style_preference (F : Faults) (category value : string)
    (confidence : option Q) (source : option string) (db : DB)
    : Response (string * StylePreference.t) * Session :=
  try_rollback_close
    (save_style_preference_try F category value confidence source)
    (SessionLocal db).

(** The number of rows that hold a given pair. *)
Definition count_preference (category value : string) (db : DB) : nat :=
  length (filter (same_preference category value) (style_preferences db)).

(** The confidence of the first row that holds a given pair. *)
Definition confidence_of (category value : string) (db : DB) : option Q :=
  option_map StylePreference.confidence
    (find (same_preference category value) (style_preferences db)).

Record preference_entry := mk_entry {
  entry_value : string;
  entry_confidence : Q;
  entry_source : string
}.

(** The dictionary made of one preference. *)
Definition entry_of (pref : StylePreference.t) : preference_entry :=
  mk_entry (StylePreference.value pref) (StylePreference.confidence pref)
           (StylePreference.source pref).

(** One round of the first loop of [analyze_style_preferences]: a key for
    the category when it is met first, and the preference at the end of
    the list of its category. *)
Definition file_preference (organized : PyDict.t (list preference_entry))
    (pref : StylePreference.t) : PyDict.t (list preference_entry) :=
  let category := StylePreference.category pref in
  let organized :=
    match PyDict.get category organized with
    | Some _ => organized
    | None => PyDict.set category [] organized
    end in
  PyDict.set category
    (default [] (PyDict.get category organized) ++ [entry_of pref])
    organized.

Definition organize (preferences : list StylePreference.t)
    : PyDict.t (list preference_entry) :=
  fold_left file_preference preferences [].

(** The preferences of one category, in row order. *)
Definition in_category (category : string)
    (preferences : list StylePreference.t) : list StylePreference.t :=
  filter (fun p => String.eqb (StylePreference.category p) category)
         preferences.

(** [sort(key=lambda x: x["confidence"], reverse=True)], which keeps the
    order of entries of equal confidence. *)
Definition more_confident_first (a b : preference_entry) : bool :=
  Qle_bool (entry_confidence b) (entry_confidence a).

(** The [try] block of [analyze_style_preferences]; [save_to_db] is not
    read. *)
Definition analyze_style_preferences_try (F : Faults) (save_to_db : bool)
    : M (Response (PyDict.t (list preference_entry) * nat)) :=
  preferences <- query_all F QueryPreference style_preferences
                   (fun _ => true) ;;
  let organized :=
    map (fun item => (fst item, order_by more_confident_first (snd item)))
        (organize preferences) in
  ret (Success (organized, length preferences)).

(** [analyze_style_preferences] *)
Definition analyze_style_preferences (F : Faults) (save_to_db : bool)
    (db : DB) : Response (PyDict.t (list preference_entry) * nat) * Session :=
  try_close (analyze_style_preferences_try F save_to_db) (SessionLocal db).

Record inspiration := mk_inspiration {
  insp_title : string;
  insp_description : string;
  style_tags : list string
}.

(** The [while] loop of [_generate_mock_inspiration]; it gives nothing when
    the fuel ends before the loop does. *)
Fixpoint pad_inspiration (fuel : nat) (query : string) (limit : Z)
    (results : list inspiration) : option (list inspiration) :=
  if (Z.of_nat (length results) <? limit)%Z
  then match fuel with
       | O => None
       | S fuel =>
           pad_inspiration fuel query limit
             (results ++
                [mk_inspiration
                   ("Art Inspiration #"
                    ++ Py.str_of_nat (length results + 1))%string
                   ("Curated inspiration for: " ++ query)%string
                   ["inspiration"; "art"; "creative"]%string])
       end
  else Some results.

(** The results that the words of the query bring. *)
Definition themed_inspiration (query_lower : string) : list inspiration :=
  (if Py.contains "watercolor" query_lower
   then [mk_inspiration "Loose Watercolor Landscape"
           "Soft washes with wet-on-wet technique"
           ["loose"; "wet-on-wet"; "atmospheric"]%string;
         mk_inspiration "Watercolor Sunset Study" "Warm gradient washes"
           ["gradient"; "warm colors"; "sky"]%string]
   else [])
  ++ (if Py.contains "landscape" query_lower
      then [mk_inspiration "Mountain Vista"
              "Layered mountain ranges with atmospheric perspective"
              ["depth"; "atmospheric"; "nature"]%string;
            mk_inspiration "Coastal Scene" "Ocean waves and rocky shoreline"
              ["seascape"; "texture"; "movement"]%string]
      else [])
  ++ (if Py.contains "sunflower" query_lower
         || Py.contains "flower" query_lower
      then [mk_inspiration "Sunflower Field" "Bold yellows against blue sky"
              ["botanical"; "bright"; "contrast"]%string;
            mk_inspiration "Floral Study"
              "Detailed petal work with soft shadows"
              ["botanical"; "detailed"; "realistic"]%string]
      else []).

(** [_generate_mock_inspiration] *)
Definition _generate_mock_inspiration (fuel : nat) (query : string)
    (limit : Z) : option (list inspiration) :=
  match pad_inspiration fuel query limit
          (themed_inspiration (Py.lower query)) with
  | Some results => Some (Py.slice_to limit results)
  | None => None
  end.

End pinterest_inspiration.

(** A block of session operations stores nothing unless it commits: what it
    adds to the journal is known, and without a commit in it the stored
    database is the one before. *)
Definition transactional {A} (m : M A) : Prop :=
  forall s,
    exists ops,
      journal (snd (m s)) = journal s ++ ops /\
      (~ In DidCommit ops -> stored (snd (m s)) = stored s).

(** A store function [f] is the frame [frame] around the block [body]. *)
Definition framed_by {A}
    (frame : M (Response A) -> Session -> Response A * Session)
    (f : DB -> Response A * Session) (body : M (Response A)) : Prop :=
  (forall db, f db = frame body (SessionLocal db)) /\ transactional body.

(** A block that leaves the session as it found it. *)
Definition reads {A} (m : M A) : Prop := forall s, snd (m s) = s.

(** ** Sample data *)

Module Samples.

Definition supply (id : Z) (name : string) (brand : option string)
    (quantity : Q) : Supply.t :=
  Supply.mk id name brand (Some "paint"%string) None None quantity
            (Some "tube"%string) None 0%Z.

Definition inventory (rows : list Supply.t) : DB := mkDB rows [] [] [] [].

(** A studio with one tube of ochre, a third full. *)
Definition ochre : Supply.t := supply 1 "Yellow Ochre" None 0.3.

Definition studio : DB := inventory [ochre].

(** A shelf with one tube of red, half full. *)
Definition red : Supply.t := supply 1 "Cadmium Red" None 0.5.

Definition shelf : DB := inventory [red].

(** A planned project, and its status set three times: completed at 10,
    back in progress at 20, completed again at 30. *)
Definition sunflowers : Project.t :=
  Project.mk 1 "Sunflowers" None "planned" None None None None JNull JNull
             None None 0%Z 0%Z None.

Definition plans : DB := mkDB [] [] [sunflowers] [] [].

Definition set_status (now : Time) (status : string) (db : DB) : DB :=
  db_after
    (project_filesaver.update_project no_faults now 1%Z None None
       (Some status) None None None None project_filesaver.no_kwargs db).

Definition plans_completed : DB := set_status 10%Z "completed" plans.

Definition plans_reopened : DB :=
  set_status 20%Z "in_progress" plans_completed.

Definition plans_completed_again : DB :=
  set_status 30%Z "completed" plans_reopened.

Definition completed_at_in (db : DB) : option (option Time) :=
  option_map Project.completed_at
             (find (project_filesaver.has_id 1) (projects db)).

(** The materials of the example of the specification, a project that
    asks for them, and two inventories with a tube of cadmium yellow at
    0.05: one that holds nothing else, and one with a full tube named
    "Yellow" before it. *)
Definition materials : list Material :=
  [MValue "Cadmium Yellow"; MValue "Round Brush"].

Definition still_life : Project.t :=
  Project.mk 1 "Still life" None "planned" None None (Some 40) None
             (JList materials) JNull None None 0%Z 0%Z None.

Definition cadmium : Supply.t := supply 2 "Cadmium Yellow" None 0.05.

Definition yellow : Supply.t := supply 1 "Yellow" None 1.0.

Definition atelier : DB := mkDB [cadmium] [] [still_life] [] [].

Definition atelier_with_yellow : DB :=
  mkDB [yellow; cadmium] [] [still_life] [] [].

(** Three fault tables: the directories cannot be made; the commit fails;
    the refresh after the commit fails. *)
Definition makedirs_fails : Faults :=
  fun c => match c with
           | Makedirs => Some "Permission denied"%string
           | _ => None
           end.

Definition commit_fails : Faults :=
  fun c => match c with
           | Commit => Some "database is locked"%string
           | _ => None
           end.

Definition refresh_fails : Faults :=
  fun c => match c with
           | Refresh => Some "connection lost"%string
           | _ => None
           end.

(** A sketch in the portfolio. *)
Definition study : PortfolioPiece.t :=
  PortfolioPiece.mk 1 "Study" None None "sketch" None None None None
                    (JList []) 0%Z 0%Z None.

Definition portfolio : DB := mkDB [] [] [] [study] [].

(** A file system in which every path exists. *)
Definition disk : FileSystem :=
  mkFS (fun _ => true)
       (fun _ name => ("data/portfolio/" ++ name)%string)
       (fun _ name => ("data/portfolio/thumbnails/" ++ name)%string)
       (fun _ _ name => ("data/portfolio/progress/" ++ name)%string).

(** The atelier before any supply was entered, and a project with a
    material that has no name. *)
Definition bare_atelier : DB := mkDB [] [] [still_life] [] [].

Definition untitled : Project.t :=
  Project.mk 1 "Untitled" None "planned" None None None None
             (JList [MDict None (Some "paint"%string)]) JNull None None
             0%Z 0%Z None.

Definition atelier_untitled : DB := mkDB [cadmium] [] [untitled] [] [].

(** Two projects, the second one touched later and under way. *)
Definition irises : Project.t :=
  Project.mk 2 "Irises" None "in_progress" (Some "oil"%string) None None
             None JNull JNull (Some "Blocked in the sky"%string) None
             7%Z 7%Z None.

Definition plans_and_irises : DB := mkDB [] [] [sunflowers; irises] [] [].

(** A portfolio with the sketch and a finished piece. *)
Definition harbour : PortfolioPiece.t :=
  PortfolioPiece.mk 2 "Harbour" None None "completed"
                    (Some "oil"%string) None
                    (Some "data/portfolio/harbour.png"%string) None
                    (JList []) 5%Z 5%Z (Some 5%Z).

Definition portfolio_of_two : DB := mkDB [] [] [] [study; harbour] [].

(** Preferences in two categories, the more confident one entered last. *)
Definition tastes : DB :=
  mkDB [] [] [] []
       [StylePreference.mk 1 "mood" "serene" 0.5 "chat";
        StylePreference.mk 2 "subject" "harbours" 0.6 "chat";
        StylePreference.mk 3 "mood" "stormy" 0.8 "pinterest"].

End Samples.

(** * Properties *)

(** Comparison of two literals. *)
Ltac literal := unfold Qle, Qlt, Qeq; simpl; lia.

(** ** Comparisons of rationals *)

Lemma Qlt_bool_iff (a b : Q) : Py.Qlt_bool a b = true <-> a < b.
Proof.
  unfold Py.Qlt_bool. rewrite negb_true_iff.
  split; intro H.
  - apply Qnot_le_lt. intro Hle. apply Qle_bool_iff in Hle. congruence.
  - destruct (Qle_bool b a) eqn:E; [ | reflexivity ].
    apply Qle_bool_iff in E. exfalso. apply (Qlt_not_le _ _ H E).
Qed.

Lemma Qlt_bool_false_iff (a b : Q) : Py.Qlt_bool a b = false <-> b <= a.
Proof.
  unfold Py.Qlt_bool. rewrite negb_false_iff. apply Qle_bool_iff.
Qed.

Lemma Qle_bool_false_iff (a b : Q) : Qle_bool a b = false <-> b < a.
Proof.
  rewrite <- Qlt_bool_iff. unfold Py.Qlt_bool.
  destruct (Qle_bool a b); simpl; intuition congruence.
Qed.

Lemma py_max_lower (a b : Q) : a <= Py.max a b.
Proof.
  unfold Py.max. destruct (Py.Qlt_bool a b) eqn:E.
  - apply Qlt_bool_iff in E. apply Qlt_le_weak, E.
  - apply Qle_refl.
Qed.

Lemma py_max_upper (a b c : Q) : a <= c -> b <= c -> Py.max a b <= c.
Proof. unfold Py.max. destruct (Py.Qlt_bool a b); auto. Qed.

Lemma py_min_upper (a b : Q) : Py.min a b <= a.
Proof.
  unfold Py.min. destruct (Py.Qlt_bool b a) eqn:E.
  - apply Qlt_bool_iff in E. apply Qlt_le_weak, E.
  - apply Qle_refl.
Qed.

Lemma py_min_lower (a b c : Q) : c <= a -> c <= b -> c <= Py.min a b.
Proof. unfold Py.min. destruct (Py.Qlt_bool b a); auto. Qed.

Lemma py_max_Qmax (a b : Q) : Py.max a b = Qmax a b.
Proof.
  unfold Py.max, Qmax, GenericMinMax.gmax.
  destruct (Py.Qlt_bool a b) eqn:E.
  - apply Qlt_bool_iff in E. rewrite Qlt_alt in E. now rewrite E.
  - apply Qlt_bool_false_iff in E.
    destruct (a ?= b) eqn:C; try reflexivity.
    apply Qlt_alt in C. exfalso. apply (Qlt_not_le _ _ C E).
Qed.

Lemma py_min_Qmin (a b : Q) : Py.min a b == Qmin a b.
Proof.
  unfold Py.min. destruct (Py.Qlt_bool b a) eqn:E.
  - apply Qlt_bool_iff in E. symmetry. apply Q.min_r. apply Qlt_le_weak, E.
  - apply Qlt_bool_false_iff in E. symmetry. apply Q.min_l, E.
Qed.

(** ** The status of a supply *)

Lemma get_status_green (s : Supply.t) :
  Supply.get_status s = "green"%string <-> 0.5 <= Supply.quantity s.
Proof.
  unfold Supply.get_status.
  destruct (Qle_bool 0.5 (Supply.quantity s)) eqn:E.
  - apply Qle_bool_iff in E. tauto.
  - apply Qle_bool_false_iff in E.
    split; intro H.
    + destruct (Qle_bool 0.25 (Supply.quantity s)); discriminate.
    + exfalso. apply (Qlt_not_le _ _ E H).
Qed.

Lemma get_status_yellow (s : Supply.t) :
  Supply.get_status s = "yellow"%string <->
  0.25 <= Supply.quantity s /\ Supply.quantity s < 0.5.
Proof.
  unfold Supply.get_status.
  destruct (Qle_bool 0.5 (Supply.quantity s)) eqn:E.
  - apply Qle_bool_iff in E. split; [ discriminate | ].
    intros [_ H]. exfalso. apply (Qlt_not_le _ _ H E).
  - apply Qle_bool_false_iff in E.
    destruct (Qle_bool 0.25 (Supply.quantity s)) eqn:E'.
    + apply Qle_bool_iff in E'. tauto.
    + apply Qle_bool_false_iff in E'. split; [ discriminate | ].
      intros [H _]. exfalso. apply (Qlt_not_le _ _ E' H).
Qed.

Lemma get_status_red (s : Supply.t) :
  Supply.get_status s = "red"%string <-> Supply.quantity s < 0.25.
Proof.
  unfold Supply.get_status.
  destruct (Qle_bool 0.5 (Supply.quantity s)) eqn:E.
  - apply Qle_bool_iff in E. split; [ discriminate | ].
    intro H. exfalso. apply (Qlt_not_le _ _ H). 
    apply Qle_trans with (2 := E). literal.
  - destruct (Qle_bool 0.25 (Supply.quantity s)) eqn:E'.
    + apply Qle_bool_iff in E'. split; [ discriminate | ].
      intro H. exfalso. apply (Qlt_not_le _ _ H E').
    + apply Qle_bool_false_iff in E'. tauto.
Qed.

(** C4. The status is a function of the quantity alone, with exact
    boundaries: green (plenty) exactly from 0.5 up, yellow (low) exactly
    from 0.25 up to but excluding 0.5, red (critical) exactly below 0.25;
    so 0.5 is green, 0.49 yellow and 0.24 red. *)
Theorem get_status_boundaries (s : Supply.t) :
  (Supply.get_status s = "green"%string <-> 0.5 <= Supply.quantity s) /\
  (Supply.get_status s = "yellow"%string <->
     0.25 <= Supply.quantity s /\ Supply.quantity s < 0.5) /\
  (Supply.get_status s = "red"%string <-> Supply.quantity s < 0.25) /\
  (Supply.quantity s == 0.5 -> Supply.get_status s = "green"%string) /\
  (Supply.quantity s == 0.49 -> Supply.get_status s = "yellow"%string) /\
  (Supply.quantity s == 0.24 -> Supply.get_status s = "red"%string) /\
  (forall s' : Supply.t,
      Supply.quantity s' == Supply.quantity s ->
      Supply.get_status s' = Supply.get_status s).
Proof.
  split; [ apply get_status_green | ].
  split; [ apply get_status_yellow | ].
  split; [ apply get_status_red | ].
  split; [ | split; [ | split ] ].
  - intro H. apply get_status_green. rewrite H. apply Qle_refl.
  - intro H. apply get_status_yellow. rewrite H. split; literal.
  - intro H. apply get_status_red. rewrite H. literal.
  - intros s' H. unfold Supply.get_status.
    assert (E : forall c, Qle_bool c (Supply.quantity s')
                          = Qle_bool c (Supply.quantity s))
      by (intro c; rewrite H; reflexivity).
    rewrite !E. reflexivity.
Qed.

Lemma get_status_boundaries_witness :
  Supply.get_status Samples.ochre = "yellow"%string.
Proof.
  apply (get_status_boundaries Samples.ochre). split; literal.
Defined.

(** ** Running a store function *)

(** A branch in which the call did not return what is assumed. *)
Ltac failed := simpl; intros; discriminate.

Ltac run :=
  unfold try_rollback_close, try_close, db_commit, db_refresh, query_first,
    query_all, external, modify, snapshot, bind, ret, raise, SessionLocal,
    db_after in *;
  simpl in *.

Lemma In_insert_row {R} (leb : R -> R -> bool) (x y : R) (l : list R) :
  In y (insert_row leb x l) <-> y = x \/ In y l.
Proof.
  induction l as [ | z l IH ]; simpl.
  - intuition.
  - destruct (leb x z); simpl; [ intuition | ].
    rewrite IH. intuition.
Qed.

Lemma In_order_by {R} (leb : R -> R -> bool) (y : R) (l : list R) :
  In y (order_by leb l) <-> In y l.
Proof.
  induction l as [ | x l IH ]; simpl; [ tauto | ].
  rewrite In_insert_row, IH. intuition.
Qed.

Lemma In_to_dict (s : Supply.t) (rows : list Supply.t) :
  In (Supply.to_dict s) (map Supply.to_dict rows) <-> In s rows.
Proof.
  rewrite in_map_iff. split.
  - intros [s' [E H]]. apply (f_equal Supply.columns) in E. simpl in E.
    now subst.
  - intro H. now exists s.
Qed.

(** ** The low-stock query *)

Lemma low_stock_run (F : Faults) (threshold : option Q) (db : DB) :
  F QuerySupply = None ->
  let rows :=
    order_by supply_inventory.low_stock_leb
      (filter (fun s => Qle_bool (Supply.quantity s) (default 0.25 threshold))
              (supplies db)) in
  supply_inventory.get_low_stock_supplies F threshold db =
  (Success (supply_inventory.mk_low_stock (length rows)
              (map Supply.to_dict rows)
              (supply_inventory.group_by_category rows)
              (map supply_inventory.suggest rows)),
   db_close (SessionLocal db)).
Proof.
  intro HF. unfold supply_inventory.get_low_stock_supplies,
    supply_inventory.get_low_stock_supplies_try.
  run. rewrite HF. reflexivity.
Qed.

(** C9, as amended.  The low-stock query returns exactly the supplies whose
    quantity is at most the threshold, 0.25 unless the caller gives another.
    With the default every supply returned is low or critical, never plenty,
    and every critical supply is returned; a low supply above 0.25 is not. *)
Theorem low_stock_selects_by_threshold
    (F : Faults) (threshold : option Q) (db : DB) :
  F QuerySupply = None ->
  exists r s',
    supply_inventory.get_low_stock_supplies F threshold db = (Success r, s') /\
    stored s' = db /\
    supply_inventory.total_low_stock r
      = length (supply_inventory.ls_supplies r) /\
    (forall s,
        In (Supply.to_dict s) (supply_inventory.ls_supplies r) <->
        In s (supplies db) /\ Supply.quantity s <= default 0.25 threshold) /\
    (threshold = None ->
     forall s,
       In s (supplies db) ->
       (In (Supply.to_dict s) (supply_inventory.ls_supplies r) ->
        Supply.get_status s <> "green"%string) /\
       (Supply.get_status s = "red"%string ->
        In (Supply.to_dict s) (supply_inventory.ls_supplies r)) /\
       (0.25 < Supply.quantity s ->
        ~ In (Supply.to_dict s) (supply_inventory.ls_supplies r))).
Proof.
  intro HF. do 2 eexists. split; [ apply low_stock_run, HF | ].
  simpl.
  assert (Hin : forall s,
    In (Supply.to_dict s)
       (map Supply.to_dict
          (order_by supply_inventory.low_stock_leb
             (filter (fun s => Qle_bool (Supply.quantity s)
                                        (default 0.25 threshold))
                     (supplies db)))) <->
    In s (supplies db) /\ Supply.quantity s <= default 0.25 threshold).
  { intro s. rewrite In_to_dict, In_order_by, filter_In, Qle_bool_iff.
    reflexivity. }
  split; [ reflexivity | ].
  split; [ now rewrite length_map | ].
  split; [ exact Hin | ].
  intros -> s Hs. simpl in Hin. repeat split.
  - intros H E. apply Hin in H. apply get_status_green in E.
    destruct H as [_ H]. assert (0.5 <= 0.25) by (eapply Qle_trans; eauto).
    revert H0. literal.
  - intro E. apply Hin. split; [ exact Hs | ].
    apply get_status_red in E. apply Qlt_le_weak, E.
  - intros H H'. apply Hin in H'. destruct H' as [_ H'].
    apply (Qlt_not_le _ _ H H').
Qed.

Lemma low_stock_selects_by_threshold_witness :
  exists r s',
    supply_inventory.get_low_stock_supplies no_faults (Some 0.4)
      Samples.studio = (Success r, s') /\
    In (Supply.to_dict Samples.ochre) (supply_inventory.ls_supplies r).
Proof.
  destruct (low_stock_selects_by_threshold no_faults (Some 0.4) Samples.studio
              eq_refl) as [r [s' [E [_ [_ [H _]]]]]].
  exists r, s'. split; [ exact E | ].
  apply H. split; [ left; reflexivity | literal ].
Defined.

(** C9, as stated, fails: with the default threshold a supply at 0.3 is low
    by its status and yet is not returned by the low-stock query. *)
Lemma low_stock_misses_low_status :
  Supply.get_status Samples.ochre = "yellow"%string /\
  fst (supply_inventory.get_low_stock_supplies no_faults None Samples.studio)
  = Success (supply_inventory.mk_low_stock 0 [] [] []).
Proof. split; reflexivity. Qed.

(** ** Rows and keys *)

Lemma find_replace_row {R} (id : R -> Z) (i : Z) (row r : R) (table : list R) :
  find (fun x => (id x =? i)%Z) table = Some r ->
  id row = i ->
  find (fun x => (id x =? i)%Z) (replace_row id row table) = Some row.
Proof.
  intros Hfind Hid. subst i. unfold replace_row.
  induction table as [ | a table IH ]; simpl in *.
  - discriminate.
  - destruct (id a =? id row)%Z eqn:E; simpl.
    + rewrite Z.eqb_refl. reflexivity.
    + rewrite E. apply IH, Hfind.
Qed.

Lemma find_has_id {R} (id : R -> Z) (i : Z) (r : R) (table : list R) :
  find (fun x => (id x =? i)%Z) table = Some r -> id r = i.
Proof.
  intro H. apply find_some in H. destruct H as [_ H]. now apply Z.eqb_eq.
Qed.

(** ** Using a supply *)

Lemma use_supply_run (F : Faults) (now : Time) (supply_id : Z)
    (amount_used : Q) (project_id : option Z) (db : DB)
    (r : supply_inventory.usage_report) (s' : Session) :
  supply_inventory.use_supply F now supply_id amount_used project_id db
  = (Success r, s') ->
  exists old,
    find (supply_inventory.has_id supply_id) (supplies db) = Some old /\
    F QuerySupply = None /\ F Commit = None /\
    stored s' =
      supply_inventory.insert_usage
        (SupplyUsage.mk (next_id SupplyUsage.id (supply_usage db))
                        supply_id project_id amount_used now)
        (supply_inventory.write_supply
           (supply_inventory.used_supply now amount_used old) db) /\
    supply_inventory.previous_quantity r = Supply.quantity old /\
    supply_inventory.usage_recorded r = amount_used /\
    supply_inventory.supply r =
      Supply.to_dict (supply_inventory.used_supply now amount_used old).
Proof.
  unfold supply_inventory.use_supply, supply_inventory.use_supply_try. run.
  destruct (F QuerySupply); simpl; [ failed | ].
  destruct (find (supply_inventory.has_id supply_id) (supplies db))
    as [ old | ]; simpl; [ | failed ].
  destruct (F Commit); simpl; [ failed | ].
  intro H. inversion H; subst; clear H.
  exists old. simpl. repeat split; reflexivity.
Qed.

(** C10. For an existing supply, [use_supply] succeeds whenever the query
    and the commit do not raise; a successful call stores the quantity
    max(0, old - amount_used), which is not negative, appends a usage row
    that carries [amount_used], and reports the old quantity. *)
Theorem use_supply_stores_remaining
    (F : Faults) (now : Time) (supply_id : Z) (amount_used : Q)
    (project_id : option Z) (db : DB) (old : Supply.t) :
  find (supply_inventory.has_id supply_id) (supplies db) = Some old ->
  (F QuerySupply = None -> F Commit = None ->
   success (fst (supply_inventory.use_supply F now supply_id amount_used
                   project_id db)) = true) /\
  (forall r s',
      supply_inventory.use_supply F now supply_id amount_used project_id db
      = (Success r, s') ->
      exists new usage,
        find (supply_inventory.has_id supply_id) (supplies (stored s'))
        = Some new /\
        Supply.quantity new = Qmax 0 (Supply.quantity old - amount_used) /\
        0 <= Supply.quantity new /\
        supply_usage (stored s') = supply_usage db ++ [usage] /\
        SupplyUsage.supply_id usage = supply_id /\
        SupplyUsage.project_id usage = project_id /\
        SupplyUsage.quantity_used usage = amount_used /\
        supply_inventory.usage_recorded r = amount_used /\
        supply_inventory.previous_quantity r = Supply.quantity old).
Proof.
  intro Hold. split.
  - intros HQ HC.
    unfold supply_inventory.use_supply, supply_inventory.use_supply_try. run.
    rewrite HQ. simpl. rewrite Hold. simpl. rewrite HC. reflexivity.
  - intros r s' Hrun. apply use_supply_run in Hrun.
    destruct Hrun as [old' [Hold' [_ [_ [Hdb [Hprev [Hrec _]]]]]]].
    rewrite Hold in Hold'. inversion Hold'; subst old'; clear Hold'.
    exists (supply_inventory.used_supply now amount_used old).
    eexists. rewrite Hdb. simpl.
    split.
    { apply find_replace_row with (r := old); [ exact Hold | ].
      simpl. apply (find_has_id Supply.id _ _ _ Hold). }
    split; [ apply py_max_Qmax | ].
    split; [ apply py_max_lower | ].
    split; [ reflexivity | ].
    simpl. repeat split; assumption.
Qed.

Lemma use_supply_stores_remaining_witness :
  success (fst (supply_inventory.use_supply no_faults 7%Z 1%Z 0.2 None
                  Samples.shelf)) = true.
Proof.
  apply (use_supply_stores_remaining no_faults 7%Z 1%Z 0.2 None Samples.shelf
           Samples.red); reflexivity.
Defined.

(** ** The range of a stored quantity *)

Lemma update_supply_run (F : Faults) (now : Time) (supply_id : Z)
    (name : option string) (quantity : option Q) (notes : option string)
    (kw : supply_inventory.supply_kwargs) (db : DB)
    (r : string * Supply.dict) (s' : Session) :
  supply_inventory.update_supply F now supply_id name quantity notes kw db
  = (Success r, s') ->
  exists old,
    find (supply_inventory.has_id supply_id) (supplies db) = Some old /\
    stored s' =
      supply_inventory.write_supply
        (supply_inventory.updated_supply now name quantity notes kw old) db.
Proof.
  unfold supply_inventory.update_supply, supply_inventory.update_supply_try.
  run.
  destruct (F QuerySupply); simpl; [ failed | ].
  destruct (find (supply_inventory.has_id supply_id) (supplies db))
    as [ old | ]; simpl; [ | failed ].
  destruct (F Commit); simpl; [ failed | ].
  destruct (F Refresh); simpl; [ failed | ].
  intro H. inversion H; subst; clear H.
  exists old. split; reflexivity.
Qed.

(** [update_supply] does clamp: whatever quantity it is given, the one it
    stores lies between 0 and 1. *)
Lemma update_supply_clamps (F : Faults) (now : Time) (supply_id : Z)
    (name : option string) (quantity : Q) (notes : option string)
    (kw : supply_inventory.supply_kwargs) (db : DB)
    (r : string * Supply.dict) (s' : Session) :
  supply_inventory.update_supply F now supply_id name (Some quantity) notes
    kw db = (Success r, s') ->
  exists new,
    find (supply_inventory.has_id supply_id) (supplies (stored s'))
    = Some new /\
    0 <= Supply.quantity new <= 1.
Proof.
  intro Hrun. apply update_supply_run in Hrun.
  destruct Hrun as [old [Hold Hdb]].
  eexists. rewrite Hdb. simpl. split.
  - apply find_replace_row with (r := old); [ exact Hold | ].
    simpl. apply (find_has_id Supply.id _ _ _ Hold).
  - simpl. split.
    + apply py_max_lower.
    + apply py_max_upper; [ literal | apply py_min_upper ].
Qed.

(** C3 is not met by the code.  [use_supply] bounds the new quantity from
    below only: taking -1 from a supply that is half full stores 1.5.
    [add_supply] stores the quantity it is given: 5 is stored as 5. *)
Theorem quantity_leaves_unit_interval :
  (exists new,
      find (supply_inventory.has_id 1)
           (supplies (db_after (supply_inventory.use_supply no_faults 7%Z 1%Z
                                  (-1) None Samples.shelf)))
      = Some new /\
      Supply.quantity new == 1.5 /\ ~ Supply.quantity new <= 1) /\
  (exists new,
      find (supply_inventory.has_id 1)
           (supplies (db_after (supply_inventory.add_supply no_faults 7%Z
                                  "Canvas" "canvas" None None None (Some 5)
                                  None None empty_db)))
      = Some new /\
      Supply.quantity new == 5 /\ ~ Supply.quantity new <= 1).
Proof.
  split; eexists; (split; [ reflexivity | ]); simpl; split; literal.
Qed.

(** ** The time of completion *)

Lemma update_project_run (F : Faults) (now : Time) (project_id : Z)
    (title description status : option string)
    (materials_list : option (list Material)) (steps : option (list string))
    (notes : option string) (actual_budget : option Q)
    (kw : project_filesaver.project_kwargs) (db : DB)
    (r : string * Project.dict) (s' : Session) :
  project_filesaver.update_project F now project_id title description status
    materials_list steps notes actual_budget kw db = (Success r, s') ->
  exists old,
    find (project_filesaver.has_id project_id) (projects db) = Some old /\
    stored s' =
      project_filesaver.write_project
        (project_filesaver.updated_project now title description status
           materials_list steps notes actual_budget kw old) db.
Proof.
  unfold project_filesaver.update_project,
    project_filesaver.update_project_try.
  run.
  destruct (F QueryProject); simpl; [ failed | ].
  destruct (find (project_filesaver.has_id project_id) (projects db))
    as [ old | ]; simpl; [ | failed ].
  destruct (F Commit); simpl; [ failed | ].
  destruct (F Refresh); simpl; [ failed | ].
  intro H. inversion H; subst; clear H.
  exists old. split; reflexivity.
Qed.

Lemma update_portfolio_piece_run (F : Faults) (fs : FileSystem) (now : Time)
    (piece_id : Z) (title description status image_path : option string)
    (kw : portfolio_storehouse.piece_kwargs) (db : DB)
    (r : string * PortfolioPiece.dict) (s' : Session) :
  portfolio_storehouse.update_portfolio_piece F fs now piece_id title
    description status image_path kw db = (Success r, s') ->
  exists old new_image,
    find (portfolio_storehouse.has_id piece_id) (portfolio_pieces db)
    = Some old /\
    stored s' =
      portfolio_storehouse.write_piece
        (portfolio_storehouse.updated_piece now title description status
           new_image kw old) db.
Proof.
  unfold portfolio_storehouse.update_portfolio_piece,
    portfolio_storehouse.update_portfolio_piece_try,
    portfolio_storehouse._ensure_portfolio_dir.
  run.
  destruct (F QueryPiece); simpl; [ failed | ].
  destruct (find (portfolio_storehouse.has_id piece_id) (portfolio_pieces db))
    as [ old | ]; simpl; [ | failed ].
  destruct (Py.truthy image_path && path_exists fs (default ""%string image_path));
    simpl.
  - destruct (F Makedirs); simpl; [ failed | ].
    destruct (F CopyFile); simpl; [ failed | ].
    destruct (F Commit); simpl; [ failed | ].
    destruct (F Refresh); simpl; [ failed | ].
    intro H. inversion H; subst; clear H.
    do 2 eexists. split; reflexivity.
  - destruct (F Commit); simpl; [ failed | ].
    destruct (F Refresh); simpl; [ failed | ].
    intro H. inversion H; subst; clear H.
    do 2 eexists. split; reflexivity.
Qed.

(** What the status assignment does to [completed_at], for both tables: the
    value is the time of the call when the status becomes "completed" and
    was not before, and the old value otherwise. *)
Lemma completion_cases (now : Time) (status : option string)
    (old_status : string) (old_completed : option Time) :
  let completed :=
    match status with
    | Some status =>
        if String.eqb status "completed"
           && negb (String.eqb old_status "completed")
        then Some now else old_completed
    | None => old_completed
    end in
  (status = Some "completed"%string ->
   old_status <> "completed"%string -> completed = Some now) /\
  (status = Some "completed"%string ->
   old_status = "completed"%string -> completed = old_completed) /\
  (status <> Some "completed"%string -> completed = old_completed).
Proof.
  simpl. repeat split.
  - intros -> H. apply String.eqb_neq in H. rewrite H. reflexivity.
  - intros -> ->. reflexivity.
  - intro H. destruct status as [ st | ]; [ | reflexivity ].
    destruct (String.eqb st "completed") eqn:E; [ | reflexivity ].
    apply String.eqb_eq in E. congruence.
Qed.

(** C5, as amended.  A successful update of a project or of a portfolio
    piece that passes no [completed_at] of its own sets [completed_at] to the
    time of the call whenever it changes the status from something else to
    "completed", on the first such change and on every later one; an update
    to "completed" of an entity that is completed already, and an update
    that sets another status or none, leave [completed_at] as it was. *)
Theorem completed_at_follows_transitions :
  (forall F now project_id title description status materials_list steps
          notes actual_budget kw db r s',
      project_filesaver.update_project F now project_id title description
        status materials_list steps notes actual_budget kw db
      = (Success r, s') ->
      project_filesaver.kw_completed_at kw = None ->
      exists old new,
        find (project_filesaver.has_id project_id) (projects db) = Some old /\
        find (project_filesaver.has_id project_id) (projects (stored s'))
        = Some new /\
        (status = Some "completed"%string ->
         Project.status old <> "completed"%string ->
         Project.completed_at new = Some now) /\
        (status = Some "completed"%string ->
         Project.status old = "completed"%string ->
         Project.completed_at new = Project.completed_at old) /\
        (status <> Some "completed"%string ->
         Project.completed_at new = Project.completed_at old)) /\
  (forall F fs now piece_id title description status image_path kw db r s',
      portfolio_storehouse.update_portfolio_piece F fs now piece_id title
        description status image_path kw db = (Success r, s') ->
      portfolio_storehouse.kw_completed_at kw = None ->
      exists old new,
        find (portfolio_storehouse.has_id piece_id) (portfolio_pieces db)
        = Some old /\
        find (portfolio_storehouse.has_id piece_id)
             (portfolio_pieces (stored s')) = Some new /\
        (status = Some "completed"%string ->
         PortfolioPiece.status old <> "completed"%string ->
         PortfolioPiece.completed_at new = Some now) /\
        (status = Some "completed"%string ->
         PortfolioPiece.status old = "completed"%string ->
         PortfolioPiece.completed_at new = PortfolioPiece.completed_at old) /\
        (status <> Some "completed"%string ->
         PortfolioPiece.completed_at new = PortfolioPiece.completed_at old)).
Proof.
  split.
  - intros F now project_id title description status materials_list steps
      notes actual_budget kw db r s' Hrun Hkw.
    apply update_project_run in Hrun. destruct Hrun as [old [Hold Hdb]].
    exists old. eexists. rewrite Hdb. simpl.
    split; [ exact Hold | ].
    split.
    { apply find_replace_row with (r := old); [ exact Hold | ].
      simpl. apply (find_has_id Project.id _ _ _ Hold). }
    simpl. rewrite Hkw. simpl.
    apply (completion_cases now status (Project.status old)
             (Project.completed_at old)).
  - intros F fs now piece_id title description status image_path kw db r s'
      Hrun Hkw.
    apply update_portfolio_piece_run in Hrun.
    destruct Hrun as [old [new_image [Hold Hdb]]].
    exists old. eexists. rewrite Hdb. simpl.
    split; [ exact Hold | ].
    split.
    { apply find_replace_row with (r := old); [ exact Hold | ].
      simpl. apply (find_has_id PortfolioPiece.id _ _ _ Hold). }
    simpl. rewrite Hkw. simpl.
    apply (completion_cases now status (PortfolioPiece.status old)
             (PortfolioPiece.completed_at old)).
Qed.

(** C5, as stated, fails: a project completed at 10 and taken back into
    progress is completed again at 30, and [completed_at] moves from 10 to
    30. *)
Lemma completed_at_set_again :
  Samples.completed_at_in Samples.plans = Some None /\
  Samples.completed_at_in Samples.plans_completed = Some (Some 10%Z) /\
  Samples.completed_at_in Samples.plans_reopened = Some (Some 10%Z) /\
  Samples.completed_at_in Samples.plans_completed_again = Some (Some 30%Z).
Proof. repeat split. Qed.

Lemma completed_at_follows_transitions_witness :
  exists old new,
    find (project_filesaver.has_id 1) (projects Samples.plans) = Some old /\
    find (project_filesaver.has_id 1) (projects Samples.plans_completed)
    = Some new /\
    Project.completed_at new = Some 10%Z.
Proof.
  destruct (proj1 completed_at_follows_transitions no_faults 10%Z 1%Z None
              None (Some "completed"%string) None None None None
              project_filesaver.no_kwargs Samples.plans _ _ eq_refl eq_refl)
    as [old [new [Hold [Hnew [Hset _]]]]].
  exists old, new. split; [ exact Hold | ]. split; [ exact Hnew | ].
  apply Hset; [ reflexivity | ].
  vm_compute in Hold. inversion Hold. discriminate.
Defined.

(** ** Progress images *)

Lemma add_progress_image_run (F : Faults) (fs : FileSystem) (now : Time)
    (piece_id : Z) (image_path : string) (description : option string)
    (db : DB) (r : portfolio_storehouse.progress_report) (s' : Session) :
  portfolio_storehouse.add_progress_image F fs now piece_id image_path
    description db = Returned (Success r, s') ->
  exists old,
    find (portfolio_storehouse.has_id piece_id) (portfolio_pieces db)
    = Some old /\
    let images :=
      portfolio_storehouse.progress_list (PortfolioPiece.progress_images old)
      ++ [ProgressImage.mk (progress_path fs piece_id now image_path)
                           description now] in
    stored s' =
      portfolio_storehouse.write_piece
        (portfolio_storehouse.with_progress now images old) db /\
    portfolio_storehouse.progress_count r = length images.
Proof.
  unfold portfolio_storehouse.add_progress_image,
    portfolio_storehouse.add_progress_image_try,
    portfolio_storehouse._ensure_portfolio_dir.
  run.
  destruct (path_exists fs image_path); simpl; [ | failed ].
  destruct (F Makedirs); simpl; [ failed | ].
  destruct (F QueryPiece); simpl; [ failed | ].
  destruct (find (portfolio_storehouse.has_id piece_id) (portfolio_pieces db))
    as [ old | ]; simpl; [ | failed ].
  destruct (F CopyFile); simpl; [ failed | ].
  destruct (PortfolioPiece.progress_images old) eqn:Hcol; simpl;
    try failed;
    (destruct (F Commit); simpl; [ failed | ]);
    (destruct (F Refresh); simpl; [ failed | ]);
    intro H; inversion H; subst; clear H;
    exists old; rewrite Hcol; simpl; repeat split; reflexivity.
Qed.

(** C7. For an existing piece [add_progress_image] succeeds when the image
    exists, no external call raises and the stored list is not some other
    JSON value; a successful call stores the old list with one entry
    appended, turns the status "sketch" into "wip" and leaves any other
    status as it was. *)
Theorem add_progress_image_appends
    (F : Faults) (fs : FileSystem) (now : Time) (piece_id : Z)
    (image_path : string) (description : option string) (db : DB)
    (old : PortfolioPiece.t) :
  find (portfolio_storehouse.has_id piece_id) (portfolio_pieces db)
  = Some old ->
  (path_exists fs image_path = true ->
   F Makedirs = None -> F QueryPiece = None -> F CopyFile = None ->
   F Commit = None -> F Refresh = None ->
   (forall type_name iter,
       PortfolioPiece.progress_images old <> JOther type_name iter) ->
   exists r s',
     portfolio_storehouse.add_progress_image F fs now piece_id image_path
       description db = Returned (Success r, s')) /\
  (forall r s',
      portfolio_storehouse.add_progress_image F fs now piece_id image_path
        description db = Returned (Success r, s') ->
      exists new entry,
        find (portfolio_storehouse.has_id piece_id)
             (portfolio_pieces (stored s')) = Some new /\
        PortfolioPiece.progress_images new =
          JList (portfolio_storehouse.progress_list
                   (PortfolioPiece.progress_images old) ++ [entry]) /\
        ProgressImage.description entry = description /\
        portfolio_storehouse.progress_count r =
          S (length (portfolio_storehouse.progress_list
                       (PortfolioPiece.progress_images old))) /\
        (PortfolioPiece.status old = "sketch"%string ->
         PortfolioPiece.status new = "wip"%string) /\
        (PortfolioPiece.status old <> "sketch"%string ->
         PortfolioPiece.status new = PortfolioPiece.status old)).
Proof.
  intro Hold. split.
  - intros Hexists HM HQ HC HCommit HR Hcol.
    unfold portfolio_storehouse.add_progress_image,
      portfolio_storehouse.add_progress_image_try,
      portfolio_storehouse._ensure_portfolio_dir.
    run. rewrite Hexists, HM. simpl. rewrite HQ. simpl. rewrite Hold. simpl.
    rewrite HC. simpl.
    destruct (PortfolioPiece.progress_images old) eqn:E; simpl;
      try (rewrite HCommit; simpl; rewrite HR; simpl; eauto).
    exfalso. eapply Hcol. reflexivity.
  - intros r s' Hrun. apply add_progress_image_run in Hrun.
    destruct Hrun as [old' [Hold' [Hdb Hcount]]].
    rewrite Hold in Hold'. inversion Hold'; subst old'; clear Hold'.
    do 2 eexists. rewrite Hdb, Hcount. simpl.
    split.
    { apply find_replace_row with (r := old); [ exact Hold | ].
      simpl. apply (find_has_id PortfolioPiece.id _ _ _ Hold). }
    simpl. split; [ reflexivity | ]. split; [ reflexivity | ].
    split; [ rewrite length_app, Nat.add_comm; reflexivity | ].
    split.
    + intros ->. reflexivity.
    + intro H. apply String.eqb_neq in H. rewrite H. reflexivity.
Qed.

Lemma add_progress_image_appends_witness :
  exists r s',
    portfolio_storehouse.add_progress_image no_faults Samples.disk 5%Z 1%Z
      "wash.png" None Samples.portfolio = Returned (Success r, s').
Proof.
  apply (add_progress_image_appends no_faults Samples.disk 5%Z 1%Z "wash.png"
           None Samples.portfolio Samples.study);
    try reflexivity.
  intros type_name iter. discriminate.
Defined.

(** ** Style preferences *)

Lemma next_id_above {R} (id : R -> Z) (table : list R) (r : R) :
  In r table -> (id r < next_id id table)%Z.
Proof.
  unfold next_id. induction table as [ | a table IH ]; cbn [fold_right map In].
  - tauto.
  - intros [ -> | H ]; [ lia | ]. specialize (IH H). lia.
Qed.

Lemma find_none_filter {R} (p : R -> bool) (table : list R) :
  find p table = None <-> length (filter p table) = 0%nat.
Proof.
  induction table as [ | a table IH ]; simpl.
  - tauto.
  - destruct (p a); simpl; [ split; discriminate | exact IH ].
Qed.

Lemma find_insert_none {R} (p : R -> bool) (row : R) (table : list R) :
  find p table = None -> p row = true ->
  find p (table ++ [row]) = Some row /\
  length (filter p (table ++ [row])) = 1%nat.
Proof.
  intros Hnone Hp. split.
  - induction table as [ | a table IH ]; simpl in *.
    + now rewrite Hp.
    + destruct (p a); [ discriminate | auto ].
  - rewrite filter_app, length_app. simpl. rewrite Hp. simpl.
    apply find_none_filter in Hnone. lia.
Qed.

(** C6.  The claim holds of the rows and fails of the confidence: a first
    call with a confidence above 1.0 stores it as given, and the call that
    repeats the pair keeps the one row and sets its confidence to
    min(1.0, 5 + 0.1), which is 1.0: the confidence stored goes beyond 1.0
    and the repeated call lowers it. *)
Theorem first_confidence_is_not_capped :
  let save :=
    pinterest_inspiration.save_style_preference no_faults "mood" "serene"
      (Some 5) None in
  let first := db_after (save empty_db) in
  let second := db_after (save first) in
  success (fst (save empty_db)) = true /\
  success (fst (save first)) = true /\
  pinterest_inspiration.count_preference "mood" "serene" first = 1%nat /\
  pinterest_inspiration.confidence_of "mood" "serene" first = Some 5 /\
  1.0 < 5 /\
  pinterest_inspiration.count_preference "mood" "serene" second = 1%nat /\
  pinterest_inspiration.confidence_of "mood" "serene" second = Some 1.0 /\
  1.0 < 5 + 0.1.
Proof.
  cbv zeta. repeat split.
Qed.

(** ** Substrings *)

Lemma prefix_spec (a b : string) :
  String.prefix a b = true <-> exists post, b = (a ++ post)%string.
Proof.
  revert b. induction a as [ | c a IH ]; intro b.
  - destruct b; simpl; (split; [ intros _; eauto | reflexivity ]).
  - destruct b as [ | d b ]; simpl.
    + split; [ discriminate | intros [post H]; discriminate ].
    + destruct (ascii_dec c d) as [ -> | N ].
      * rewrite IH. split; intros [post H]; exists post; congruence.
      * split; [ discriminate | ]. intros [post H]. congruence.
Qed.

Lemma contains_spec (needle hay : string) :
  Py.contains needle hay = true <->
  exists pre post, hay = (pre ++ needle ++ post)%string.
Proof.
  induction hay as [ | c hay IH ]; cbn [Py.contains]; rewrite orb_true_iff.
  - rewrite prefix_spec. split.
    + intros [ [post H] | H ]; [ | discriminate ]. now exists ""%string, post.
    + intros [pre [post H]]. left. exists post.
      destruct pre; [ exact H | discriminate ].
  - rewrite prefix_spec, IH. split.
    + intros [ [post H] | [pre [post H]] ].
      * now exists ""%string, post.
      * exists (String c pre), post. simpl. now rewrite H.
    + intros [pre [post H]]. destruct pre as [ | d pre ]; simpl in H.
      * left. now exists post.
      * right. exists pre, post. congruence.
Qed.

Lemma matches_spec (material_lower key : string) :
  project_filesaver.matches material_lower key = true <->
  (exists pre post, key = (pre ++ material_lower ++ post)%string) \/
  (exists pre post, material_lower = (pre ++ key ++ post)%string).
Proof.
  unfold project_filesaver.matches.
  now rewrite orb_true_iff, !contains_spec.
Qed.

(** ** The supply map *)

Lemma PyDict_set_In {V} (k k' : string) (v v' : V) (d : PyDict.t V) :
  In (k', v') (PyDict.set k v d) -> (k', v') = (k, v) \/ In (k', v') d.
Proof.
  induction d as [ | [k0 v0] d IH ]; simpl.
  - intuition congruence.
  - destruct (String.eqb k0 k) eqn:E; simpl.
    + apply String.eqb_eq in E. subst k0. intuition congruence.
    + intros [ H | H ]; [ tauto | ]. apply IH in H. tauto.
Qed.

Lemma PyDict_set_keys {V} (k k' : string) (v : V) (d : PyDict.t V) :
  In k' (PyDict.keys (PyDict.set k v d)) <-> k' = k \/ In k' (PyDict.keys d).
Proof.
  unfold PyDict.keys. induction d as [ | [k0 v0] d IH ]; simpl.
  - intuition.
  - destruct (String.eqb k0 k) eqn:E; simpl.
    + apply String.eqb_eq in E. subst k0. intuition.
    + rewrite IH. intuition.
Qed.

Lemma supply_map_items (inventory : list Supply.t) (acc : PyDict.t Supply.t)
    (key : string) (supply : Supply.t) :
  In (key, supply)
     (fold_left (fun supply_map s =>
                   PyDict.set (project_filesaver.supply_key s) s supply_map)
                inventory acc) ->
  In (key, supply) acc \/
  (In supply inventory /\ key = project_filesaver.supply_key supply).
Proof.
  revert acc. induction inventory as [ | s inventory IH ]; simpl; intro acc.
  - tauto.
  - intro H. apply IH in H. destruct H as [ H | [H1 H2] ]; [ | tauto ].
    apply PyDict_set_In in H. destruct H as [ H | H ]; [ | tauto ].
    inversion H; subst. tauto.
Qed.

Lemma supply_map_keys (inventory : list Supply.t) (acc : PyDict.t Supply.t)
    (key : string) :
  In key (PyDict.keys acc) \/
  In key (map project_filesaver.supply_key inventory) ->
  In key
     (PyDict.keys
        (fold_left (fun supply_map s =>
                      PyDict.set (project_filesaver.supply_key s) s supply_map)
                   inventory acc)).
Proof.
  revert acc. induction inventory as [ | s inventory IH ]; simpl; intro acc.
  - tauto.
  - intro H. apply IH. rewrite PyDict_set_keys. intuition.
Qed.

Lemma PyDict_get_set {V} (k k' : string) (v : V) (d : PyDict.t V) :
  PyDict.get k' (PyDict.set k v d)
  = if String.eqb k k' then Some v else PyDict.get k' d.
Proof.
  induction d as [ | [k0 v0] d IH ]; simpl.
  - reflexivity.
  - destruct (String.eqb k0 k) eqn:E; simpl.
    + apply String.eqb_eq in E. subst k0.
      destruct (String.eqb k k'); reflexivity.
    + rewrite IH. destruct (String.eqb k0 k') eqn:E'; [ | reflexivity ].
      apply String.eqb_eq in E'. subst k0. now rewrite String.eqb_sym, E.
Qed.

(** Of the records that share a key the map holds the last one. *)
Lemma supply_map_holds_last (inventory : list Supply.t)
    (acc : PyDict.t Supply.t) (key : string) :
  PyDict.get key
    (fold_left (fun supply_map s =>
                  PyDict.set (project_filesaver.supply_key s) s supply_map)
               inventory acc)
  = match find (fun s => String.eqb (project_filesaver.supply_key s) key)
               (rev inventory) with
    | Some s => Some s
    | None => PyDict.get key acc
    end.
Proof.
  revert acc. induction inventory as [ | s inventory IH ]; intro acc; simpl.
  - reflexivity.
  - rewrite IH, PyDict_get_set.
    assert (E : forall (p : Supply.t -> bool) l x,
               find p (l ++ [x])
               = match find p l with
                 | Some y => Some y
                 | None => if p x then Some x else None
                 end).
    { intros p l x. induction l as [ | a l IHl ]; simpl.
      - reflexivity.
      - destruct (p a); [ reflexivity | exact IHl ]. }
    rewrite E.
    destruct (find _ (rev inventory)); [ reflexivity | ].
    destruct (String.eqb (project_filesaver.supply_key s) key); reflexivity.
Qed.

Lemma find_supply_first (material_lower : string)
    (items : PyDict.t Supply.t) (found : Supply.t) :
  project_filesaver.find_supply material_lower items = Some found <->
  exists before key after,
    items = before ++ (key, found) :: after /\
    project_filesaver.matches material_lower key = true /\
    forall k s, In (k, s) before ->
                project_filesaver.matches material_lower k = false.
Proof.
  induction items as [ | [k0 s0] items IH ]; simpl.
  - split; [ discriminate | ].
    intros [before [key [after [H _]]]]. destruct before; discriminate.
  - destruct (project_filesaver.matches material_lower k0) eqn:E.
    + split.
      * intro H. inversion H; subst. exists [], k0, items. simpl. tauto.
      * intros [before [key [after [H [Hm Hb]]]]].
        destruct before as [ | [k1 s1] before ]; simpl in H.
        -- congruence.
        -- inversion H; subst. rewrite (Hb k1 s1) in E; [ discriminate | ].
           now left.
    + rewrite IH. split.
      * intros [before [key [after [H [Hm Hb]]]]].
        exists ((k0, s0) :: before), key, after. simpl. rewrite H.
        split; [ reflexivity | ]. split; [ exact Hm | ].
        intros k s [ Hin | Hin ]; [ congruence | eauto ].
      * intros [before [key [after [H [Hm Hb]]]]].
        destruct before as [ | [k1 s1] before ]; simpl in H.
        -- inversion H; subst. congruence.
        -- inversion H; subst. exists before, key, after.
           split; [ reflexivity | ]. split; [ exact Hm | ].
           intros k s Hin. apply (Hb k s). now right.
Qed.

Lemma find_supply_none (material_lower : string)
    (items : PyDict.t Supply.t) :
  project_filesaver.find_supply material_lower items = None <->
  forall k s, In (k, s) items ->
              project_filesaver.matches material_lower k = false.
Proof.
  induction items as [ | [k0 s0] items IH ]; simpl.
  - split; [ intros _ k s [] | reflexivity ].
  - destruct (project_filesaver.matches material_lower k0) eqn:E.
    + split; [ discriminate | ]. intro H.
      rewrite (H k0 s0) in E; [ discriminate | now left ].
    + rewrite IH. split.
      * intros H k s [ Hin | Hin ]; [ congruence | eauto ].
      * intros H k s Hin. apply (H k s). now right.
Qed.

(** ** The shopping list *)

Lemma check_material_spec (supply_map : PyDict.t Supply.t)
    (shopping_list : list project_filesaver.to_buy)
    (have_list : list project_filesaver.have) (material : Material) :
  project_filesaver.check_material supply_map (shopping_list, have_list)
    material
  = (shopping_list ++ project_filesaver.to_buy_for supply_map material,
     have_list ++ project_filesaver.have_for supply_map material).
Proof.
  unfold project_filesaver.check_material, project_filesaver.to_buy_for,
    project_filesaver.have_for. cbv zeta.
  destruct (project_filesaver.find_supply _ supply_map) as [ found | ].
  - destruct (Py.Qlt_bool (Supply.quantity found) 0.25);
      now rewrite app_nil_r.
  - now rewrite app_nil_r.
Qed.

Lemma check_materials_fold (supply_map : PyDict.t Supply.t)
    (materials : list Material)
    (shopping_list : list project_filesaver.to_buy)
    (have_list : list project_filesaver.have) :
  fold_left (project_filesaver.check_material supply_map) materials
            (shopping_list, have_list)
  = (shopping_list
       ++ flat_map (project_filesaver.to_buy_for supply_map) materials,
     have_list ++ flat_map (project_filesaver.have_for supply_map) materials).
Proof.
  revert shopping_list have_list.
  induction materials as [ | material materials IH ];
    intros shopping_list have_list; cbn [fold_left flat_map].
  - now rewrite !app_nil_r.
  - rewrite check_material_spec, IH, <- !app_assoc. reflexivity.
Qed.

Lemma one_class_each (supply_map : PyDict.t Supply.t)
    (materials : list Material) :
  (length (flat_map (project_filesaver.to_buy_for supply_map) materials)
   + length (flat_map (project_filesaver.have_for supply_map) materials)
   = length materials)%nat.
Proof.
  induction materials as [ | material materials IH ]; simpl.
  - reflexivity.
  - rewrite !length_app.
    assert (length (project_filesaver.to_buy_for supply_map material)
            + length (project_filesaver.have_for supply_map material)
            = 1)%nat.
    { unfold project_filesaver.to_buy_for, project_filesaver.have_for.
      cbv zeta.
      destruct (project_filesaver.find_supply _ supply_map) as [ found | ];
        [ destruct (Py.Qlt_bool (Supply.quantity found) 0.25) | ];
        reflexivity. }
    lia.
Qed.

Lemma generate_shopping_list_run (F : Faults) (project_id : Z) (db : DB)
    (project : Project.t) (materials : list Material) :
  find (project_filesaver.has_id project_id) (projects db) = Some project ->
  Project.materials_list project = JList materials ->
  F QueryProject = None -> F QuerySupply = None ->
  let supply_map := project_filesaver.build_supply_map (supplies db) in
  let shopping_list :=
    flat_map (project_filesaver.to_buy_for supply_map) materials in
  let already_have :=
    flat_map (project_filesaver.have_for supply_map) materials in
  project_filesaver.generate_shopping_list F project_id db
  = (Success (project_filesaver.Shopping (Project.title project)
                shopping_list already_have (length shopping_list)
                (length already_have) (Project.estimated_budget project)),
     db_close (SessionLocal db)).
Proof.
  intros Hfind Hlist HP HS. cbv zeta.
  unfold project_filesaver.generate_shopping_list,
    project_filesaver.generate_shopping_list_try.
  run. rewrite HP. simpl. rewrite Hfind. simpl. rewrite Hlist. simpl.
  rewrite HS. simpl.
  unfold project_filesaver.check_materials.
  assert (E : filter (fun _ : Supply.t => true) (supplies db) = supplies db).
  { clear. induction (supplies db); simpl; congruence. }
  rewrite E, check_materials_fold. reflexivity.
Qed.

(** C2.  The map holds records of the inventory, each under the lowercase of
    its name, joined to the brand when there is one; every record's key is
    in the map.  A material matches a key exactly when one of the two
    lowercase strings is a substring of the other, and the record found
    for it is that of the first item of the map, in its order, whose key
    matches; none is found exactly when no key matches.  That record is
    the one [generate_shopping_list] uses for the material: the entries of
    the material in the two lists of the result carry the quantity and
    the brand of that record and of no other, and the material is "not in
    inventory" when no key matches. *)
Theorem first_matching_record_wins
    (inventory : list Supply.t) (material : string) :
  let supply_map := project_filesaver.build_supply_map inventory in
  let material_lower := Py.lower material in
  (forall key supply,
      In (key, supply) supply_map ->
      In supply inventory /\ key = project_filesaver.supply_key supply) /\
  (forall supply,
      In supply inventory ->
      In (project_filesaver.supply_key supply) (PyDict.keys supply_map)) /\
  (forall supply brand,
      Supply.brand supply = Some brand -> brand <> ""%string ->
      project_filesaver.supply_key supply
      = Py.lower (Supply.name supply ++ "_" ++ brand)) /\
  (forall supply,
      Supply.brand supply = None \/ Supply.brand supply = Some ""%string ->
      project_filesaver.supply_key supply = Py.lower (Supply.name supply)) /\
  (forall key,
      project_filesaver.matches material_lower key = true <->
      (exists pre post, key = (pre ++ material_lower ++ post)%string) \/
      (exists pre post, material_lower = (pre ++ key ++ post)%string)) /\
  (forall found,
      project_filesaver.find_supply material_lower supply_map = Some found <->
      exists before key after,
        supply_map = before ++ (key, found) :: after /\
        project_filesaver.matches material_lower key = true /\
        forall k s, In (k, s) before ->
                    project_filesaver.matches material_lower k = false) /\
  (project_filesaver.find_supply material_lower supply_map = None <->
   forall k s, In (k, s) supply_map ->
               project_filesaver.matches material_lower k = false) /\
  (forall F project_id db project materials,
      supplies db = inventory ->
      find (project_filesaver.has_id project_id) (projects db)
      = Some project ->
      Project.materials_list project = JList materials ->
      F QueryProject = None -> F QuerySupply = None ->
      exists shopping_list already_have,
        fst (project_filesaver.generate_shopping_list F project_id db)
        = Success
            (project_filesaver.Shopping (Project.title project)
               shopping_list already_have (length shopping_list)
               (length already_have) (Project.estimated_budget project)) /\
        (forall m,
            In m materials ->
            project_filesaver.material_name m = material ->
            match project_filesaver.find_supply material_lower supply_map
            with
            | Some found =>
                (Supply.quantity found < 0.25 ->
                 In (project_filesaver.mk_to_buy material "low stock"
                       (Supply.quantity found) (Some (Supply.brand found)))
                    shopping_list) /\
                (0.25 <= Supply.quantity found ->
                 In (project_filesaver.mk_have material
                       (Supply.quantity found) (Supply.brand found))
                    already_have)
            | None =>
                In (project_filesaver.mk_to_buy material "not in inventory"
                      0 None)
                   shopping_list
            end) /\
        (forall entry,
            In entry shopping_list ->
            project_filesaver.item entry = material ->
            match project_filesaver.find_supply material_lower supply_map
            with
            | Some found =>
                entry = project_filesaver.mk_to_buy material "low stock"
                          (Supply.quantity found)
                          (Some (Supply.brand found))
            | None =>
                entry = project_filesaver.mk_to_buy material
                          "not in inventory" 0 None
            end) /\
        (forall entry,
            In entry already_have ->
            project_filesaver.have_item entry = material ->
            exists found,
              project_filesaver.find_supply material_lower supply_map
              = Some found /\
              entry = project_filesaver.mk_have material
                        (Supply.quantity found) (Supply.brand found))).
Proof.
  cbv zeta. unfold project_filesaver.build_supply_map.
  split; [ | split; [ | split; [ | split; [ | split; [ | split;
    [ | split ] ] ] ] ] ].
  - intros key supply H. apply supply_map_items in H.
    destruct H as [ [] | H ]. exact H.
  - intros supply H. apply supply_map_keys. right. now apply in_map.
  - intros supply brand Hb Hne. unfold project_filesaver.supply_key.
    rewrite Hb. destruct brand; [ congruence | reflexivity ].
  - intros supply [ Hb | Hb ]; unfold project_filesaver.supply_key;
      now rewrite Hb.
  - intro key. apply matches_spec.
  - intro found. apply find_supply_first.
  - apply find_supply_none.
  - intros F project_id db project materials Hinv Hfind Hlist HP HS.
    do 2 eexists. split.
    { rewrite (generate_shopping_list_run F project_id db project materials
                 Hfind Hlist HP HS). reflexivity. }
    rewrite Hinv.
    change (fold_left
              (fun supply_map s =>
                 PyDict.set (project_filesaver.supply_key s) s supply_map)
              inventory [])
      with (project_filesaver.build_supply_map inventory).
    set (supply_map := project_filesaver.build_supply_map inventory).
    split; [ | split ].
    + intros m Hm Hname.
      destruct (project_filesaver.find_supply (Py.lower material) supply_map)
        as [ found | ] eqn:E.
      * split; intro Hq.
        -- apply in_flat_map. exists m. split; [ exact Hm | ].
           unfold project_filesaver.to_buy_for. cbv zeta.
           rewrite Hname, E. apply Qlt_bool_iff in Hq. rewrite Hq.
           now left.
        -- apply in_flat_map. exists m. split; [ exact Hm | ].
           unfold project_filesaver.have_for. cbv zeta.
           rewrite Hname, E. apply Qlt_bool_false_iff in Hq. rewrite Hq.
           now left.
      * apply in_flat_map. exists m. split; [ exact Hm | ].
        unfold project_filesaver.to_buy_for. cbv zeta.
        rewrite Hname, E. now left.
    + intros entry Hentry Hitem. apply in_flat_map in Hentry.
      destruct Hentry as [m [_ Hentry]].
      unfold project_filesaver.to_buy_for in Hentry. cbv zeta in Hentry.
      destruct (project_filesaver.find_supply
                  (Py.lower (project_filesaver.material_name m)) supply_map)
        as [ found | ] eqn:E.
      * destruct (Py.Qlt_bool (Supply.quantity found) 0.25);
          [ | destruct Hentry ].
        destruct Hentry as [ <- | [] ]. simpl in Hitem.
        rewrite Hitem in E. rewrite E. now rewrite Hitem.
      * destruct Hentry as [ <- | [] ]. simpl in Hitem.
        rewrite Hitem in E. rewrite E. now rewrite Hitem.
    + intros entry Hentry Hitem. apply in_flat_map in Hentry.
      destruct Hentry as [m [_ Hentry]].
      unfold project_filesaver.have_for in Hentry. cbv zeta in Hentry.
      destruct (project_filesaver.find_supply
                  (Py.lower (project_filesaver.material_name m)) supply_map)
        as [ found | ] eqn:E; [ | destruct Hentry ].
      destruct (Py.Qlt_bool (Supply.quantity found) 0.25);
        [ destruct Hentry | ].
      destruct Hentry as [ <- | [] ]. simpl in Hitem.
      rewrite Hitem in E. exists found. split; [ exact E | ].
      now rewrite Hitem.
Qed.

Lemma first_matching_record_wins_witness :
  project_filesaver.find_supply "cadmium yellow"
    (project_filesaver.build_supply_map [Samples.yellow; Samples.cadmium])
  = Some Samples.yellow
  /\ exists shopping_list already_have,
       fst (project_filesaver.generate_shopping_list no_faults 1
              Samples.atelier_with_yellow)
       = Success
           (project_filesaver.Shopping "Still life" shopping_list
              already_have (length shopping_list) (length already_have)
              (Some 40)) /\
       In (project_filesaver.mk_have "Cadmium Yellow" 1.0 None) already_have.
Proof.
  destruct (first_matching_record_wins [Samples.yellow; Samples.cadmium]
              "Cadmium Yellow")
    as [_ [_ [_ [_ [_ [Hfirst [_ Huse]]]]]]].
  cbv zeta in Hfirst, Huse.
  assert (Hfound :
    project_filesaver.find_supply "cadmium yellow"
      (project_filesaver.build_supply_map [Samples.yellow; Samples.cadmium])
    = Some Samples.yellow).
  { apply Hfirst.
    exists [], "yellow"%string, [("cadmium yellow"%string, Samples.cadmium)].
    split; [ reflexivity | ]. split; [ reflexivity | ]. intros k s []. }
  split; [ exact Hfound | ].
  destruct (Huse no_faults 1%Z Samples.atelier_with_yellow
              Samples.still_life Samples.materials
              eq_refl eq_refl eq_refl eq_refl eq_refl)
    as [shopping_list [already_have [Hrun [Hused _]]]].
  exists shopping_list, already_have. split; [ exact Hrun | ].
  assert (H := Hused (MValue "Cadmium Yellow") (or_introl eq_refl) eq_refl).
  change (Py.lower "Cadmium Yellow") with "cadmium yellow"%string in H.
  rewrite Hfound in H. apply H. literal.
Defined.

(** C1, as amended.  For a project whose materials list parses to a list,
    and any inventory, [generate_shopping_list] puts every material in one
    of three classes, in the order of the list: to buy with the reason "low
    stock" when the record matched for it is below 0.25, already there when
    that record is at 0.25 or above, to buy with the reason "not in
    inventory" and the quantity 0 when no record matches.  With the
    materials Cadmium Yellow and Round Brush, Cadmium Yellow is to buy for
    low stock whenever the record matched for it is at 0.05. *)
Theorem shopping_list_partition
    (F : Faults) (project_id : Z) (db : DB) (project : Project.t)
    (materials : list Material) :
  find (project_filesaver.has_id project_id) (projects db) = Some project ->
  Project.materials_list project = JList materials ->
  F QueryProject = None -> F QuerySupply = None ->
  let supply_map := project_filesaver.build_supply_map (supplies db) in
  exists shopping_list already_have,
    project_filesaver.generate_shopping_list F project_id db
    = (Success (project_filesaver.Shopping (Project.title project)
                  shopping_list already_have (length shopping_list)
                  (length already_have) (Project.estimated_budget project)),
       db_close (SessionLocal db)) /\
    shopping_list
    = flat_map (project_filesaver.to_buy_for supply_map) materials /\
    already_have
    = flat_map (project_filesaver.have_for supply_map) materials /\
    (length shopping_list + length already_have = length materials)%nat /\
    (forall material found,
        In material materials ->
        project_filesaver.find_supply
          (Py.lower (project_filesaver.material_name material)) supply_map
        = Some found ->
        (Supply.quantity found < 0.25 ->
         In (project_filesaver.mk_to_buy
               (project_filesaver.material_name material) "low stock"
               (Supply.quantity found) (Some (Supply.brand found)))
            shopping_list) /\
        (0.25 <= Supply.quantity found ->
         In (project_filesaver.mk_have
               (project_filesaver.material_name material)
               (Supply.quantity found) (Supply.brand found))
            already_have)) /\
    (forall material,
        In material materials ->
        project_filesaver.find_supply
          (Py.lower (project_filesaver.material_name material)) supply_map
        = None ->
        In (project_filesaver.mk_to_buy
              (project_filesaver.material_name material) "not in inventory"
              0 None)
           shopping_list) /\
    (materials = Samples.materials ->
     forall found,
       project_filesaver.find_supply "cadmium yellow" supply_map
       = Some found ->
       Supply.quantity found == 0.05 ->
       In (project_filesaver.mk_to_buy "Cadmium Yellow" "low stock"
             (Supply.quantity found) (Some (Supply.brand found)))
          shopping_list).
Proof.
  intros Hfind Hlist HP HS. cbv zeta.
  assert (Hrun := generate_shopping_list_run F project_id db project
                    materials Hfind Hlist HP HS).
  cbv zeta in Hrun.
  set (supply_map := project_filesaver.build_supply_map (supplies db)) in *.
  clearbody supply_map.
  assert (Hlow : forall material found,
    In material materials ->
    project_filesaver.find_supply
      (Py.lower (project_filesaver.material_name material)) supply_map
    = Some found ->
    Supply.quantity found < 0.25 ->
    In (project_filesaver.mk_to_buy
          (project_filesaver.material_name material) "low stock"
          (Supply.quantity found) (Some (Supply.brand found)))
       (flat_map (project_filesaver.to_buy_for supply_map) materials)).
  { intros material found Hin Hf Hq. apply in_flat_map. exists material.
    split; [ exact Hin | ]. unfold project_filesaver.to_buy_for.
    cbv zeta. rewrite Hf. apply Qlt_bool_iff in Hq. rewrite Hq. now left. }
  do 2 eexists.
  split; [ exact Hrun | ].
  split; [ reflexivity | ]. split; [ reflexivity | ].
  split; [ apply one_class_each | ].
  split; [ | split ].
  - intros material found Hin Hf. split; [ now apply Hlow | ].
    intro Hq. apply in_flat_map. exists material.
    split; [ exact Hin | ]. unfold project_filesaver.have_for.
    cbv zeta. rewrite Hf. apply Qlt_bool_false_iff in Hq. rewrite Hq.
    now left.
  - intros material Hin Hf. apply in_flat_map. exists material.
    split; [ exact Hin | ]. unfold project_filesaver.to_buy_for.
    cbv zeta. rewrite Hf. now left.
  - intros -> found Hf Hq.
    apply (Hlow (MValue "Cadmium Yellow") found);
      [ now left | exact Hf | ].
    rewrite Hq. literal.
Qed.

Lemma shopping_list_partition_witness :
  fst (project_filesaver.generate_shopping_list no_faults 1 Samples.atelier)
  = Success
      (project_filesaver.Shopping "Still life"
         [project_filesaver.mk_to_buy "Cadmium Yellow" "low stock" 0.05
            (Some None);
          project_filesaver.mk_to_buy "Round Brush" "not in inventory" 0
            None]
         [] 2 0 (Some 40)).
Proof.
  destruct (shopping_list_partition no_faults 1 Samples.atelier
              Samples.still_life Samples.materials eq_refl eq_refl eq_refl
              eq_refl)
    as [shopping_list [already_have [Hrun [Hbuy [Hhave _]]]]].
  rewrite Hrun, Hbuy, Hhave. reflexivity.
Defined.

(** C1, as stated, fails in its example: an inventory may hold a Cadmium
    Yellow supply at 0.05 and yet Cadmium Yellow is not to buy, because a
    full tube named Yellow stands before it in the map and matches too. *)
Lemma cadmium_yellow_shadowed :
  In Samples.cadmium (supplies Samples.atelier_with_yellow) /\
  Supply.name Samples.cadmium = "Cadmium Yellow"%string /\
  Supply.quantity Samples.cadmium == 0.05 /\
  fst (project_filesaver.generate_shopping_list no_faults 1
         Samples.atelier_with_yellow)
  = Success
      (project_filesaver.Shopping "Still life"
         [project_filesaver.mk_to_buy "Round Brush" "not in inventory" 0
            None]
         [project_filesaver.mk_have "Cadmium Yellow" 1.0 None]
         1 1 (Some 40)).
Proof.
  split; [ right; now left | ]. split; [ reflexivity | ].
  split; reflexivity.
Qed.

(** ** Exceptions *)

Create HintDb transactional.

Lemma transactional_ret {A} (a : A) : transactional (ret a).
Proof. intro s. exists []. simpl. now rewrite app_nil_r. Qed.

Lemma transactional_raise {A} (e : Exn) : transactional (@raise A e).
Proof. intro s. exists []. simpl. now rewrite app_nil_r. Qed.

Lemma transactional_external (F : Faults) (c : Site) :
  transactional (external F c).
Proof.
  intro s. exists []. unfold external.
  destruct (F c); simpl; now rewrite app_nil_r.
Qed.

Lemma transactional_bind {A B} (m : M A) (k : A -> M B) :
  transactional m -> (forall a, transactional (k a)) ->
  transactional (bind m k).
Proof.
  intros Hm Hk s. unfold bind.
  destruct (Hm s) as [ops [Hj Hs]].
  destruct (m s) as [[a | e] s1]; simpl in *.
  - destruct (Hk a s1) as [ops' [Hj' Hs']].
    exists (ops ++ ops'). rewrite Hj', Hj, app_assoc.
    split; [ reflexivity | ]. intro H.
    rewrite Hs', Hs; [ reflexivity | | ];
      intro H'; apply H, in_or_app; tauto.
  - exists ops. tauto.
Qed.

Lemma transactional_query_first {R} (F : Faults) (c : Site)
    (table : DB -> list R) (p : R -> bool) :
  transactional (query_first F c table p).
Proof.
  apply transactional_bind; [ apply transactional_external | ].
  intros _ s. exists []. simpl. now rewrite app_nil_r.
Qed.

Lemma transactional_query_all {R} (F : Faults) (c : Site)
    (table : DB -> list R) (p : R -> bool) :
  transactional (query_all F c table p).
Proof.
  apply transactional_bind; [ apply transactional_external | ].
  intros _ s. exists []. simpl. now rewrite app_nil_r.
Qed.

Lemma transactional_modify (f : DB -> DB) : transactional (modify f).
Proof. intro s. exists []. simpl. now rewrite app_nil_r. Qed.

Lemma transactional_snapshot : transactional snapshot.
Proof. intro s. exists []. simpl. now rewrite app_nil_r. Qed.

Lemma transactional_commit (F : Faults) : transactional (db_commit F).
Proof.
  intro s. unfold db_commit, bind, external.
  destruct (F Commit); simpl.
  - exists []. now rewrite app_nil_r.
  - exists [DidCommit]. split; [ reflexivity | ]. simpl. tauto.
Qed.

Lemma transactional_refresh (F : Faults) : transactional (db_refresh F).
Proof. unfold db_refresh. apply transactional_external. Qed.

#[export] Hint Resolve transactional_ret transactional_raise
  transactional_external transactional_query_first transactional_query_all
  transactional_modify transactional_snapshot transactional_commit
  transactional_refresh : transactional.

(** Goes through a block along its binds and branches. *)
Ltac transactional :=
  repeat first
    [ solve [ auto with transactional ]
    | progress cbv beta zeta
    | apply transactional_bind; [ | intro ]
    | match goal with
      | |- transactional (match ?x with _ => _ end) => destruct x
      | |- transactional (if ?x then _ else _) => destruct x
      end ].

Lemma transactional_get_supply_by_id F supply_id :
  transactional (supply_inventory.get_supply_by_id_try F supply_id).
Proof. unfold supply_inventory.get_supply_by_id_try. transactional. Qed.

Lemma transactional_add_supply F now name category brand color size quantity
    unit notes :
  transactional (supply_inventory.add_supply_try F now name category brand
                   color size quantity unit notes).
Proof. unfold supply_inventory.add_supply_try. transactional. Qed.

Lemma transactional_update_supply F now supply_id name quantity notes kw :
  transactional (supply_inventory.update_supply_try F now supply_id name
                   quantity notes kw).
Proof. unfold supply_inventory.update_supply_try. transactional. Qed.

Lemma transactional_get_low_stock_supplies F threshold :
  transactional (supply_inventory.get_low_stock_supplies_try F threshold).
Proof. unfold supply_inventory.get_low_stock_supplies_try. transactional. Qed.

Lemma transactional_use_supply F now supply_id amount_used project_id :
  transactional (supply_inventory.use_supply_try F now supply_id amount_used
                   project_id).
Proof. unfold supply_inventory.use_supply_try. transactional. Qed.

Lemma transactional_update_project F now project_id title description status
    materials_list steps notes actual_budget kw :
  transactional (project_filesaver.update_project_try F now project_id title
                   description status materials_list steps notes
                   actual_budget kw).
Proof. unfold project_filesaver.update_project_try. transactional. Qed.

Lemma transactional_generate_shopping_list F project_id :
  transactional (project_filesaver.generate_shopping_list_try F project_id).
Proof.
  unfold project_filesaver.generate_shopping_list_try. transactional.
Qed.

Lemma transactional_update_portfolio_piece F fs now piece_id title description
    status image_path kw :
  transactional (portfolio_storehouse.update_portfolio_piece_try F fs now
                   piece_id title description status image_path kw).
Proof.
  unfold portfolio_storehouse.update_portfolio_piece_try,
    portfolio_storehouse._ensure_portfolio_dir.
  transactional.
Qed.

Lemma transactional_add_progress_image F fs now piece_id image_path
    description :
  transactional (portfolio_storehouse.add_progress_image_try F fs now piece_id
                   image_path description).
Proof. unfold portfolio_storehouse.add_progress_image_try. transactional. Qed.

Lemma transactional_save_style_preference F category value confidence source :
  transactional (pinterest_inspiration.save_style_preference_try F category
                   value confidence source).
Proof.
  unfold pinterest_inspiration.save_style_preference_try. transactional.
Qed.

Lemma raised_before_commit {A} (body : M (Response A)) (db : DB) (e : Exn)
    (s1 : Session) :
  transactional body ->
  body (SessionLocal db) = (Raised e, s1) ->
  ~ In DidCommit (journal s1) -> stored s1 = db.
Proof.
  intros Ht Hrun Hno. destruct (Ht (SessionLocal db)) as [ops [Hj Hs]].
  rewrite Hrun in *. simpl in *. subst ops. auto.
Qed.

Lemma frame_rollback {A} (f : DB -> Response A * Session)
    (body : M (Response A)) :
  framed_by try_rollback_close f body ->
  forall db e s1,
    body (SessionLocal db) = (Raised e, s1) ->
    f db = (Failure e, db_close (db_rollback s1)) /\
    journal (snd (f db)) = journal s1 ++ [DidRollback; DidClose] /\
    (~ In DidCommit (journal s1) -> db_after (f db) = db).
Proof.
  intros [Hf Ht] db e s1 Hrun.
  assert (E : f db = (Failure e, db_close (db_rollback s1))).
  { rewrite Hf. unfold try_rollback_close. now rewrite Hrun. }
  rewrite E. unfold db_after. simpl. rewrite <- app_assoc.
  split; [ reflexivity | ]. split; [ reflexivity | ].
  apply (raised_before_commit body db e s1 Ht Hrun).
Qed.

Lemma frame_close {A} (f : DB -> Response A * Session)
    (body : M (Response A)) :
  framed_by try_close f body ->
  forall db e s1,
    body (SessionLocal db) = (Raised e, s1) ->
    f db = (Failure e, db_close s1) /\
    journal (snd (f db)) = journal s1 ++ [DidClose] /\
    (~ In DidCommit (journal s1) -> db_after (f db) = db).
Proof.
  intros [Hf Ht] db e s1 Hrun.
  assert (E : f db = (Failure e, db_close s1)).
  { rewrite Hf. unfold try_close. now rewrite Hrun. }
  rewrite E. unfold db_after. simpl.
  split; [ reflexivity | ]. split; [ reflexivity | ].
  apply (raised_before_commit body db e s1 Ht Hrun).
Qed.

Lemma get_supply_by_id_reads (F : Faults) (supply_id : Z) (db : DB) :
  db_after (supply_inventory.get_supply_by_id F supply_id db) = db.
Proof.
  unfold supply_inventory.get_supply_by_id,
    supply_inventory.get_supply_by_id_try.
  run.
  destruct (F QuerySupply); simpl; [ reflexivity | ].
  destruct (find (supply_inventory.has_id supply_id) (supplies db));
    reflexivity.
Qed.

Lemma get_low_stock_supplies_reads (F : Faults) (threshold : option Q)
    (db : DB) :
  db_after (supply_inventory.get_low_stock_supplies F threshold db) = db.
Proof.
  unfold supply_inventory.get_low_stock_supplies,
    supply_inventory.get_low_stock_supplies_try.
  run. destruct (F QuerySupply); reflexivity.
Qed.

Lemma generate_shopping_list_reads (F : Faults) (project_id : Z) (db : DB) :
  db_after (project_filesaver.generate_shopping_list F project_id db) = db.
Proof.
  unfold project_filesaver.generate_shopping_list,
    project_filesaver.generate_shopping_list_try.
  run.
  destruct (F QueryProject); simpl; [ reflexivity | ].
  destruct (find (project_filesaver.has_id project_id) (projects db))
    as [ project | ]; simpl; [ | reflexivity ].
  destruct (Project.materials_list project) as [ | | l | type_name [ keys | ] ];
    simpl; try reflexivity;
    destruct (F QuerySupply); simpl; try reflexivity;
    destruct (project_filesaver.check_materials _ _); reflexivity.
Qed.

(** * More of the code *)

(** ** Sorting *)

Lemma length_insert_row {R} (leb : R -> R -> bool) (x : R) (l : list R) :
  length (insert_row leb x l) = S (length l).
Proof.
  induction l as [ | y l IH ]; simpl; [ reflexivity | ].
  destruct (leb x y); simpl; [ reflexivity | now rewrite IH ].
Qed.

Lemma length_order_by {R} (leb : R -> R -> bool) (l : list R) :
  length (order_by leb l) = length l.
Proof.
  induction l as [ | x l IH ]; simpl; [ reflexivity | ].
  now rewrite length_insert_row, IH.
Qed.

Lemma filter_insert_row {R} (leb : R -> R -> bool) (p : R -> bool) (x : R)
    (l : list R) :
  length (filter p (insert_row leb x l))
  = ((if p x then 1 else 0) + length (filter p l))%nat.
Proof.
  induction l as [ | y l IH ]; simpl.
  - destruct (p x); reflexivity.
  - destruct (leb x y); simpl.
    + destruct (p x); reflexivity.
    + destruct (p y); simpl; rewrite IH; destruct (p x); simpl; lia.
Qed.

Lemma filter_order_by {R} (leb : R -> R -> bool) (p : R -> bool) (l : list R) :
  length (filter p (order_by leb l)) = length (filter p l).
Proof.
  induction l as [ | x l IH ]; simpl; [ reflexivity | ].
  rewrite filter_insert_row, IH. destruct (p x); reflexivity.
Qed.

Section Sorted.

Variable R : Type.
Variable before : R -> R -> Prop.
Variable leb : R -> R -> bool.
Hypothesis before_trans : forall x y z, before x y -> before y z -> before x z.
Hypothesis leb_before : forall x y, leb x y = true -> before x y.
Hypothesis leb_after : forall x y, leb x y = false -> before y x.

Lemma insert_row_sorted (x : R) (l : list R) :
  StronglySorted before l -> StronglySorted before (insert_row leb x l).
Proof.
  induction 1 as [ | y l Hs IH Hall ]; simpl.
  - repeat constructor.
  - destruct (leb x y) eqn:E.
    + constructor; [ now constructor | ].
      constructor; [ now apply leb_before | ].
      apply Forall_impl with (2 := Hall). intros z Hz.
      apply before_trans with y; [ now apply leb_before | exact Hz ].
    + constructor; [ exact IH | ].
      apply Forall_forall. intros z Hz. apply In_insert_row in Hz.
      destruct Hz as [ -> | Hz ]; [ now apply leb_after | ].
      rewrite Forall_forall in Hall. now apply Hall.
Qed.

Lemma order_by_sorted (l : list R) : StronglySorted before (order_by leb l).
Proof.
  induction l as [ | x l IH ]; simpl; [ constructor | ].
  now apply insert_row_sorted.
Qed.

End Sorted.

Lemma StronglySorted_map {A B} (f : A -> B) (before : B -> B -> Prop)
    (l : list A) :
  StronglySorted (fun x y => before (f x) (f y)) l ->
  StronglySorted before (map f l).
Proof.
  induction 1 as [ | x l Hs IH Hall ]; simpl; constructor; [ exact IH | ].
  apply Forall_forall. intros y Hy. apply in_map_iff in Hy.
  destruct Hy as [z [<- Hz]]. rewrite Forall_forall in Hall. now apply Hall.
Qed.

Lemma In_firstn {A} (n : nat) (l : list A) (x : A) :
  In x (firstn n l) -> In x l.
Proof.
  revert n. induction l as [ | y l IH ]; intros [ | n ]; simpl; try tauto.
  intros [ H | H ]; [ now left | right; eauto ].
Qed.

Lemma StronglySorted_firstn {A} (before : A -> A -> Prop) (n : nat)
    (l : list A) :
  StronglySorted before l -> StronglySorted before (firstn n l).
Proof.
  intro H. revert n. induction H as [ | x l Hs IH Hall ]; intro n.
  - destruct n; constructor.
  - destruct n; simpl; constructor; [ apply IH | ].
    apply Forall_forall. intros y Hy. rewrite Forall_forall in Hall.
    apply Hall. eapply In_firstn; eauto.
Qed.

(** ** The inventory by status *)

Lemma status_cases (s : Supply.t) :
  Supply.get_status s = "green"%string \/
  Supply.get_status s = "yellow"%string \/
  Supply.get_status s = "red"%string.
Proof.
  unfold Supply.get_status.
  destruct (Qle_bool 0.5 (Supply.quantity s)); [ tauto | ].
  destruct (Qle_bool 0.25 (Supply.quantity s)); tauto.
Qed.

Lemma group_by_status_run (rows : list Supply.t)
    (supply_list green yellow red : list Supply.dict) (s : Session) :
  let of_status st :=
    filter (fun d => String.eqb (Supply.status d) st)
           (map Supply.to_dict rows) in
  supply_inventory.group_by_status rows supply_list
    [("green"%string, green); ("yellow"%string, yellow);
     ("red"%string, red)] s
  = (Returned
       (supply_list ++ map Supply.to_dict rows,
        [("green"%string, green ++ of_status "green"%string);
         ("yellow"%string, yellow ++ of_status "yellow"%string);
         ("red"%string, red ++ of_status "red"%string)]),
     s).
Proof.
  cbv zeta. revert supply_list green yellow red.
  induction rows as [ | row rows IH ]; intros supply_list green yellow red.
  - simpl. unfold ret. now rewrite !app_nil_r.
  - cbn [supply_inventory.group_by_status map filter].
    cbn [Supply.status Supply.to_dict].
    destruct (status_cases row) as [ E | [ E | E ] ]; rewrite E; simpl;
      rewrite IH, <- !app_assoc; reflexivity.
Qed.

Lemma three_statuses (rows : list Supply.t) :
  let of_status st :=
    filter (fun d => String.eqb (Supply.status d) st)
           (map Supply.to_dict rows) in
  (length (of_status "green"%string) + length (of_status "yellow"%string)
   + length (of_status "red"%string) = length rows)%nat.
Proof.
  cbv zeta. induction rows as [ | row rows IH ]; simpl; [ reflexivity | ].
  destruct (status_cases row) as [ E | [ E | E ] ]; rewrite E; simpl; lia.
Qed.

Lemma get_all_supplies_run (F : Faults) (category : option string) (db : DB) :
  F QuerySupply = None ->
  let rows :=
    order_by supply_inventory.by_category_name
      (filter (fun s => if Py.truthy category
                        then supply_inventory.in_category
                               (default ""%string category) s
                        else true)
              (supplies db)) in
  let of_status st :=
    filter (fun d => String.eqb (Supply.status d) st)
           (map Supply.to_dict rows) in
  supply_inventory.get_all_supplies F category db
  = (Success
       (supply_inventory.mk_inventory (length rows) (map Supply.to_dict rows)
          [("green"%string, of_status "green"%string);
           ("yellow"%string, of_status "yellow"%string);
           ("red"%string, of_status "red"%string)]
          (length (of_status "green"%string))
          (length (of_status "yellow"%string))
          (length (of_status "red"%string))),
     db_close (SessionLocal db)).
Proof.
  intro HF. cbv zeta.
  unfold supply_inventory.get_all_supplies,
    supply_inventory.get_all_supplies_try, try_close, bind, query_all,
    external, SessionLocal.
  rewrite HF. cbv beta iota zeta delta [bind]. cbn [working].
  rewrite group_by_status_run. reflexivity.
Qed.

Lemma get_all_supplies_queried (F : Faults) (category : option string)
    (db : DB) (r : supply_inventory.inventory) (s' : Session) :
  supply_inventory.get_all_supplies F category db = (Success r, s') ->
  F QuerySupply = None.
Proof.
  unfold supply_inventory.get_all_supplies,
    supply_inventory.get_all_supplies_try, try_close, bind, query_all,
    external, SessionLocal.
  destruct (F QuerySupply); [ intro H; discriminate | reflexivity ].
Qed.

(** X1.  Whenever [get_all_supplies] succeeds, every supply listed is in
    exactly one of the three groups, that of its status, in the order of
    the list, the three counts of the summary add up to the total, and the
    database is the one before.  (A row of the model holds a quantity; on
    a row whose quantity is NULL the source fails in [to_dict], and what
    is said here is about the calls that succeed.) *)
Theorem inventory_groups_partition
    (F : Faults) (category : option string) (db : DB)
    (r : supply_inventory.inventory) (s' : Session) :
  supply_inventory.get_all_supplies F category db = (Success r, s') ->
  stored s' = db /\
  supply_inventory.total r = length (supply_inventory.inv_supplies r) /\
  (supply_inventory.plenty r + supply_inventory.low r
   + supply_inventory.empty r = supply_inventory.total r)%nat /\
  (forall status,
      In status ["green"; "yellow"; "red"]%string ->
      PyDict.get status (supply_inventory.by_status r)
      = Some (filter (fun d => String.eqb (Supply.status d) status)
                     (supply_inventory.inv_supplies r))) /\
  (forall d, In d (supply_inventory.inv_supplies r) ->
             In (Supply.status d) ["green"; "yellow"; "red"]%string) /\
  supply_inventory.plenty r
  = length (filter (fun d => String.eqb (Supply.status d) "green")
                   (supply_inventory.inv_supplies r)) /\
  supply_inventory.low r
  = length (filter (fun d => String.eqb (Supply.status d) "yellow")
                   (supply_inventory.inv_supplies r)) /\
  supply_inventory.empty r
  = length (filter (fun d => String.eqb (Supply.status d) "red")
                   (supply_inventory.inv_supplies r)).
Proof.
  intro Hrun.
  assert (HF := get_all_supplies_queried F category db r s' Hrun).
  rewrite (get_all_supplies_run F category db HF) in Hrun.
  inversion Hrun; subst r s'; clear Hrun.
  cbn [stored db_close SessionLocal supply_inventory.total
       supply_inventory.inv_supplies supply_inventory.plenty
       supply_inventory.low supply_inventory.empty
       supply_inventory.by_status].
  split; [ reflexivity | ]. split; [ now rewrite length_map | ].
  split; [ apply three_statuses | ].
  split.
  { intros status [ <- | [ <- | [ <- | [] ] ] ]; reflexivity. }
  split; [ | repeat split ].
  intros d Hd. apply in_map_iff in Hd. destruct Hd as [row [<- _]].
  simpl. destruct (status_cases row) as [ E | [ E | E ] ]; rewrite E;
    simpl; tauto.
Qed.

Lemma inventory_groups_partition_witness :
  exists r s',
    supply_inventory.get_all_supplies no_faults None Samples.studio
    = (Success r, s') /\
    stored s' = Samples.studio /\
    (supply_inventory.plenty r + supply_inventory.low r
     + supply_inventory.empty r = supply_inventory.total r)%nat.
Proof.
  do 2 eexists. split; [ reflexivity | ].
  match goal with
  | |- stored ?s = _ /\ (supply_inventory.plenty ?r + _ + _ = _)%nat =>
      destruct (inventory_groups_partition no_faults None Samples.studio
                  r s eq_refl) as [Hdb [_ [Hsum _]]]
  end.
  split; [ exact Hdb | exact Hsum ].
Defined.

Lemma filter_all {A} (l : list A) : filter (fun _ => true) l = l.
Proof. induction l; simpl; congruence. Qed.

Lemma filter_to_dict (status : string) (rows : list Supply.t) :
  length (filter (fun d => String.eqb (Supply.status d) status)
                 (map Supply.to_dict rows))
  = length (filter (fun s => String.eqb (Supply.get_status s) status) rows).
Proof.
  induction rows as [ | row rows IH ]; simpl; [ reflexivity | ].
  destruct (String.eqb (Supply.get_status row) status); simpl; now rewrite IH.
Qed.

Lemma filter_length_le {A} (p q : A -> bool) (l : list A) :
  (forall x, p x = true -> q x = true) ->
  (length (filter p l) <= length (filter q l))%nat.
Proof.
  intro H. induction l as [ | x l IH ]; simpl; [ lia | ].
  destruct (p x) eqn:E.
  - rewrite (H x E). simpl. lia.
  - destruct (q x); simpl; lia.
Qed.

Lemma below_half (rows : list Supply.t) :
  (length (filter (fun s => String.eqb (Supply.get_status s) "yellow") rows)
   + length (filter (fun s => String.eqb (Supply.get_status s) "red") rows)
   = length (filter (fun s => Py.Qlt_bool (Supply.quantity s) 0.5) rows))%nat.
Proof.
  induction rows as [ | row rows IH ]; cbn [filter]; [ reflexivity | ].
  assert (H : (String.eqb (Supply.get_status row) "yellow" = false /\
               String.eqb (Supply.get_status row) "red" = false /\
               Py.Qlt_bool (Supply.quantity row) 0.5 = false) \/
              (String.eqb (Supply.get_status row) "yellow" = true /\
               String.eqb (Supply.get_status row) "red" = false /\
               Py.Qlt_bool (Supply.quantity row) 0.5 = true) \/
              (String.eqb (Supply.get_status row) "yellow" = false /\
               String.eqb (Supply.get_status row) "red" = true /\
               Py.Qlt_bool (Supply.quantity row) 0.5 = true)).
  { unfold Supply.get_status, Py.Qlt_bool.
    destruct (Qle_bool 0.5 (Supply.quantity row)); [ now left | ].
    destruct (Qle_bool 0.25 (Supply.quantity row)); simpl; tauto. }
  destruct H as [ [H1 [H2 H3]] | [ [H1 [H2 H3]] | [H1 [H2 H3]] ] ];
    rewrite H1, H2, H3; cbn [length]; lia.
Qed.

(** X2.  The count of low stock on the dashboard, the sum of the groups low
    and empty of [get_all_supplies], is the number of supplies below 0.5;
    the count of [get_low_stock_supplies] with its default threshold is the
    number of supplies at 0.25 or below; so the second count never exceeds
    the first. *)
Theorem dashboard_counts_every_low_stock (F F' : Faults) (db : DB) :
  F QuerySupply = None -> F' QuerySupply = None ->
  exists all low_stock s s',
    supply_inventory.get_all_supplies F None db = (Success all, s) /\
    supply_inventory.get_low_stock_supplies F' None db
    = (Success low_stock, s') /\
    (supply_inventory.low all + supply_inventory.empty all
     = length (filter (fun x => Py.Qlt_bool (Supply.quantity x) 0.5)
                      (supplies db)))%nat /\
    supply_inventory.total_low_stock low_stock
    = length (filter (fun x => Qle_bool (Supply.quantity x) 0.25)
                     (supplies db)) /\
    (supply_inventory.total_low_stock low_stock
     <= supply_inventory.low all + supply_inventory.empty all)%nat.
Proof.
  intros HF HF'. do 4 eexists.
  split; [ apply (get_all_supplies_run F None db HF) | ].
  split; [ apply (low_stock_run F' None db HF') | ].
  cbn [supply_inventory.low supply_inventory.empty
       supply_inventory.total_low_stock Py.truthy default].
  rewrite !filter_to_dict, !filter_order_by, filter_all, below_half,
    length_order_by.
  split; [ reflexivity | ]. split; [ reflexivity | ].
  apply filter_length_le. intros x H.
  apply Qle_bool_iff in H. apply Qlt_bool_iff.
  apply Qle_lt_trans with (1 := H). literal.
Qed.

Lemma dashboard_counts_every_low_stock_witness :
  exists all low_stock s s',
    supply_inventory.get_all_supplies no_faults None Samples.studio
    = (Success all, s) /\
    supply_inventory.get_low_stock_supplies no_faults None Samples.studio
    = (Success low_stock, s') /\
    (supply_inventory.total_low_stock low_stock
     <= supply_inventory.low all + supply_inventory.empty all)%nat.
Proof.
  destruct (dashboard_counts_every_low_stock no_faults no_faults
              Samples.studio eq_refl eq_refl)
    as [all [low_stock [s [s' [H1 [H2 [_ [_ H3]]]]]]]].
  exists all, low_stock, s, s'. repeat split; assumption.
Defined.

(** ** The order of the low-stock list *)

Lemma low_stock_leb_before (a b : Supply.t) :
  supply_inventory.low_stock_leb a b = true ->
  Supply.quantity a <= Supply.quantity b.
Proof.
  unfold supply_inventory.low_stock_leb. rewrite orb_true_iff, andb_true_iff.
  intros [ H | [H _] ].
  - apply Qlt_bool_iff in H. now apply Qlt_le_weak.
  - apply Qeq_bool_iff in H. rewrite H. apply Qle_refl.
Qed.

Lemma low_stock_leb_after (a b : Supply.t) :
  supply_inventory.low_stock_leb a b = false ->
  Supply.quantity b <= Supply.quantity a.
Proof.
  unfold supply_inventory.low_stock_leb. rewrite orb_false_iff.
  intros [H _]. now apply Qlt_bool_false_iff.
Qed.

(** X3.  [get_low_stock_supplies] lists the supplies by rising quantity, the
    emptiest first, and the shopping suggestions follow the same order; a
    suggestion is critical exactly when the quantity is below 0.1, so no
    suggestion that is only low stands before a critical one. *)
Theorem low_stock_emptiest_first
    (F : Faults) (threshold : option Q) (db : DB) :
  F QuerySupply = None ->
  exists r s',
    supply_inventory.get_low_stock_supplies F threshold db = (Success r, s') /\
    StronglySorted
      (fun a b => Supply.quantity (Supply.columns a)
                  <= Supply.quantity (Supply.columns b))
      (supply_inventory.ls_supplies r) /\
    map supply_inventory.sg_current_quantity (supply_inventory.shopping_list r)
    = map (fun d => Supply.quantity (Supply.columns d))
          (supply_inventory.ls_supplies r) /\
    StronglySorted
      (fun a b => supply_inventory.sg_current_quantity a
                  <= supply_inventory.sg_current_quantity b)
      (supply_inventory.shopping_list r) /\
    (forall g, In g (supply_inventory.shopping_list r) ->
               (supply_inventory.sg_urgency g = "critical"%string <->
                supply_inventory.sg_current_quantity g < 0.1) /\
               (supply_inventory.sg_urgency g = "low"%string <->
                0.1 <= supply_inventory.sg_current_quantity g)).
Proof.
  intro HF. do 2 eexists.
  split; [ apply (low_stock_run F threshold db HF) | ].
  cbn [supply_inventory.ls_supplies supply_inventory.shopping_list].
  set (rows := order_by supply_inventory.low_stock_leb _).
  assert (Hsorted :
    StronglySorted (fun a b => Supply.quantity a <= Supply.quantity b) rows).
  { apply order_by_sorted.
    - intros x y z. apply Qle_trans.
    - apply low_stock_leb_before.
    - apply low_stock_leb_after. }
  split; [ | split; [ | split ] ].
  - apply StronglySorted_map
      with (before := fun a b => Supply.quantity (Supply.columns a)
                                 <= Supply.quantity (Supply.columns b)).
    exact Hsorted.
  - rewrite !map_map. reflexivity.
  - apply StronglySorted_map
      with (before := fun a b => supply_inventory.sg_current_quantity a
                                 <= supply_inventory.sg_current_quantity b).
    exact Hsorted.
  - intros g Hg. apply in_map_iff in Hg. destruct Hg as [row [<- _]].
    unfold supply_inventory.suggest. simpl.
    destruct (Py.Qlt_bool (Supply.quantity row) 0.1) eqn:E.
    + apply Qlt_bool_iff in E. split; split; intro H;
        try reflexivity; try exact E; try discriminate.
      exfalso. apply (Qlt_not_le _ _ E H).
    + apply Qlt_bool_false_iff in E. split; split; intro H;
        try reflexivity; try exact E; try discriminate.
      exfalso. apply (Qlt_not_le _ _ H E).
Qed.

Lemma low_stock_emptiest_first_witness :
  exists r s',
    supply_inventory.get_low_stock_supplies no_faults (Some 0.4)
      Samples.studio = (Success r, s') /\
    StronglySorted
      (fun a b => supply_inventory.sg_current_quantity a
                  <= supply_inventory.sg_current_quantity b)
      (supply_inventory.shopping_list r).
Proof.
  destruct (low_stock_emptiest_first no_faults (Some 0.4) Samples.studio
              eq_refl) as [r [s' [Hrun [_ [_ [Hsorted _]]]]]].
  exists r, s'. split; assumption.
Defined.

(** ** The essentials of a medium *)

Lemma missing_items (category : string) (category_supplies : list Supply.t)
    (items : list string) (acc : list supply_inventory.missing_essential)
    (m : supply_inventory.missing_essential) :
  In m (fold_left
          (fun missing item =>
             if existsb (supply_inventory.covers item) category_supplies
             then missing
             else missing ++ [supply_inventory.mk_missing category item])
          items acc) <->
  In m acc \/
  exists item,
    In item items /\
    existsb (supply_inventory.covers item) category_supplies = false /\
    m = supply_inventory.mk_missing category item.
Proof.
  revert acc. induction items as [ | item items IH ]; intro acc; simpl.
  - split; [ tauto | ]. intros [ H | [item [[] _]] ]. exact H.
  - rewrite IH. destruct (existsb _ category_supplies) eqn:E.
    + split.
      * intros [ H | [i [Hi H]] ]; [ tauto | right; exists i; tauto ].
      * intros [ H | [i [[ <- | Hi ] [H1 H2]]] ]; [ tauto | congruence | ].
        right. exists i. tauto.
    + rewrite in_app_iff. simpl. split.
      * intros [ [ H | [ <- | [] ] ] | [i [Hi H]] ]; [ tauto | | ].
        -- right. exists item. tauto.
        -- right. exists i. tauto.
      * intros [ H | [i [[ <- | Hi ] [H1 H2]]] ]; [ tauto | | ].
        -- left. right. left. now rewrite H2.
        -- right. exists i. tauto.
Qed.

Lemma missing_of_fold (medium_essentials : PyDict.t (list string))
    (supplies : list Supply.t)
    (acc : list supply_inventory.missing_essential)
    (m : supply_inventory.missing_essential) :
  In m (fold_left
          (fun missing entry =>
             let category := fst entry in
             let category_supplies :=
               filter (supply_inventory.of_category category) supplies in
             fold_left
               (fun missing item =>
                  if existsb (supply_inventory.covers item) category_supplies
                  then missing
                  else missing
                       ++ [supply_inventory.mk_missing category item])
               (snd entry) missing)
          medium_essentials acc) <->
  In m acc \/
  exists category items item,
    In (category, items) medium_essentials /\ In item items /\
    existsb (supply_inventory.covers item)
            (filter (supply_inventory.of_category category) supplies)
    = false /\
    m = supply_inventory.mk_missing category item.
Proof.
  revert acc.
  induction medium_essentials as [ | [category items] rest IH ]; intro acc;
    cbn [fold_left].
  - split; [ tauto | ]. intros [ H | [c [i [it [[] _]]]] ]. exact H.
  - rewrite IH. cbv zeta. cbn [fst snd]. rewrite missing_items. split.
    + intros [ [ H | [item [Hi [H1 H2]]] ] | [c [i [it [Hin H]]]] ].
      * tauto.
      * right. exists category, items, item. simpl. tauto.
      * right. exists c, i, it. simpl. tauto.
    + intros [ H | [c [i [it [[ Heq | Hin ] H]]]] ].
      * tauto.
      * inversion Heq; subst. left. right. exists it. tauto.
      * right. exists c, i, it. tauto.
Qed.

Lemma uncovered_iff (category item : string) (supplies : list Supply.t) :
  existsb (supply_inventory.covers item)
          (filter (supply_inventory.of_category category) supplies) = false <->
  forall s, In s supplies -> Supply.category s = Some category ->
            supply_inventory.covers item s = false.
Proof.
  split.
  - intros H s Hs Hc.
    destruct (supply_inventory.covers item s) eqn:E; [ | reflexivity ].
    assert (Hex : existsb (supply_inventory.covers item)
                    (filter (supply_inventory.of_category category) supplies)
                  = true).
    { apply existsb_exists. exists s. split; [ | exact E ].
      apply filter_In. split; [ exact Hs | ].
      unfold supply_inventory.of_category. rewrite Hc.
      apply String.eqb_refl. }
    congruence.
  - intro H.
    destruct (existsb _ _) eqn:E; [ | reflexivity ].
    apply existsb_exists in E. destruct E as [s [Hs Hc]].
    apply filter_In in Hs. destruct Hs as [Hs Hcat].
    unfold supply_inventory.of_category in Hcat.
    destruct (Supply.category s) as [ c | ] eqn:Ec; [ | discriminate ].
    apply String.eqb_eq in Hcat. subst c. rewrite (H s Hs Ec) in Hc.
    discriminate.
Qed.

Lemma get_supplies_for_project_run (F : Faults) (medium : string)
    (style : option string) (db : DB) :
  F QuerySupply = None ->
  let available :=
    filter (fun s => Py.Qlt_bool 0.1 (Supply.quantity s)) (supplies db) in
  let missing :=
    supply_inventory.missing_of
      (default [] (PyDict.get (Py.lower medium) supply_inventory.essentials))
      available in
  supply_inventory.get_supplies_for_project F medium style db
  = (Success (supply_inventory.mk_readiness medium
                (map Supply.to_dict available) missing
                (Nat.eqb (length missing) 0)),
     db_close (SessionLocal db)).
Proof.
  intro HF. unfold supply_inventory.get_supplies_for_project,
    supply_inventory.get_supplies_for_project_try, try_close, bind,
    query_all, external, SessionLocal.
  rewrite HF. reflexivity.
Qed.

(** X4.  [get_supplies_for_project] knows the essentials of watercolor, oil
    and acrylic only: for any other medium nothing is missing and the
    project is ready to start, whatever the inventory holds, an empty one
    included.  The medium is compared without regard to case. *)
Theorem unknown_medium_is_ready
    (F : Faults) (medium : string) (style : option string) (db : DB) :
  F QuerySupply = None ->
  Py.lower medium <> "watercolor"%string ->
  Py.lower medium <> "oil"%string ->
  Py.lower medium <> "acrylic"%string ->
  exists r s',
    supply_inventory.get_supplies_for_project F medium style db
    = (Success r, s') /\
    supply_inventory.missing_essentials r = [] /\
    supply_inventory.ready_to_start r = true.
Proof.
  intros HF H1 H2 H3. do 2 eexists.
  split; [ apply (get_supplies_for_project_run F medium style db HF) | ].
  cbn [supply_inventory.missing_essentials supply_inventory.ready_to_start].
  assert (E : PyDict.get (Py.lower medium) supply_inventory.essentials = None).
  { unfold supply_inventory.essentials. cbn [PyDict.get].
    apply String.eqb_neq in H1, H2, H3.
    rewrite (String.eqb_sym "watercolor"), H1.
    rewrite (String.eqb_sym "oil"), H2.
    rewrite (String.eqb_sym "acrylic"), H3. reflexivity. }
  rewrite E. split; reflexivity.
Qed.

Lemma unknown_medium_is_ready_witness :
  exists r s',
    supply_inventory.get_supplies_for_project no_faults "Charcoal" None
      empty_db = (Success r, s') /\
    supply_inventory.missing_essentials r = [] /\
    supply_inventory.ready_to_start r = true.
Proof.
  apply (unknown_medium_is_ready no_faults "Charcoal" None empty_db);
    [ reflexivity | discriminate | discriminate | discriminate ].
Defined.

Lemma missing_essentials_are_uncovered_aux
    (F : Faults) (medium : string) (style : option string) (db : DB) :
  F QuerySupply = None ->
  exists r s',
    supply_inventory.get_supplies_for_project F medium style db
    = (Success r, s') /\
    (forall m,
        In m (supply_inventory.missing_essentials r) <->
        exists items,
          In (supply_inventory.missing_category m, items)
             (default [] (PyDict.get (Py.lower medium)
                                     supply_inventory.essentials)) /\
          In (supply_inventory.missing_item m) items /\
          forall s,
            In s (supplies db) -> 0.1 < Supply.quantity s ->
            Supply.category s = Some (supply_inventory.missing_category m) ->
            supply_inventory.covers (supply_inventory.missing_item m) s
            = false) /\
    (supply_inventory.ready_to_start r = true <->
     supply_inventory.missing_essentials r = []).
Proof.
  intro HF. do 2 eexists.
  split; [ apply (get_supplies_for_project_run F medium style db HF) | ].
  cbn [supply_inventory.missing_essentials supply_inventory.ready_to_start].
  split.
  - intro m. unfold supply_inventory.missing_of. rewrite missing_of_fold.
    split.
    + intros [ [] | [category [items [item [Hin [Hitem [Hun ->]]]]]] ].
      exists items. simpl. split; [ exact Hin | ]. split; [ exact Hitem | ].
      intros s Hs Hq Hc. rewrite uncovered_iff in Hun. apply Hun; [ | exact Hc ].
      apply filter_In. split; [ exact Hs | ]. now apply Qlt_bool_iff.
    + intros [items [Hin [Hitem Hun]]]. right.
      exists (supply_inventory.missing_category m), items,
        (supply_inventory.missing_item m).
      split; [ exact Hin | ]. split; [ exact Hitem | ].
      split; [ | now destruct m ].
      apply uncovered_iff. intros s Hs Hc. apply filter_In in Hs.
      destruct Hs as [Hs Hq]. apply Qlt_bool_iff in Hq. now apply Hun.
  - rewrite Nat.eqb_eq. split.
    + intro H. now apply length_zero_iff_nil.
    + intros ->. reflexivity.
Qed.



(** X6.  More supplies never make an essential missing: when every supply
    of one inventory is also in another, everything that
    [get_supplies_for_project] reports missing for the larger one it
    reports missing for the smaller one, so a project that is ready stays
    ready. *)
Theorem more_supplies_less_missing
    (F F' : Faults) (medium : string) (style : option string) (db db' : DB) :
  F QuerySupply = None -> F' QuerySupply = None ->
  (forall s, In s (supplies db) -> In s (supplies db')) ->
  exists r r' s s',
    supply_inventory.get_supplies_for_project F medium style db
    = (Success r, s) /\
    supply_inventory.get_supplies_for_project F' medium style db'
    = (Success r', s') /\
    (forall m, In m (supply_inventory.missing_essentials r') ->
               In m (supply_inventory.missing_essentials r)) /\
    (supply_inventory.ready_to_start r = true ->
     supply_inventory.ready_to_start r' = true).
Proof.
  intros HF HF' Hincl.
  destruct (missing_essentials_are_uncovered_aux F medium style db HF)
    as [r [s [Hrun [Hmiss Hready]]]].
  destruct (missing_essentials_are_uncovered_aux F' medium style db' HF')
    as [r' [s' [Hrun' [Hmiss' Hready']]]].
  exists r, r', s, s'. split; [ exact Hrun | ]. split; [ exact Hrun' | ].
  assert (Hsub : forall m, In m (supply_inventory.missing_essentials r') ->
                           In m (supply_inventory.missing_essentials r)).
  { intros m Hm. apply Hmiss' in Hm. apply Hmiss.
    destruct Hm as [items [Hin [Hitem Hun]]]. exists items.
    split; [ exact Hin | ]. split; [ exact Hitem | ].
    intros x Hx. apply Hun. now apply Hincl. }
  split; [ exact Hsub | ].
  intro H. apply Hready in H. apply Hready'.
  destruct (supply_inventory.missing_essentials r') as [ | m l ];
    [ reflexivity | ].
  exfalso. assert (Hm := Hsub m (or_introl eq_refl)). now rewrite H in Hm.
Qed.

Lemma more_supplies_less_missing_witness :
  exists r r' s s',
    supply_inventory.get_supplies_for_project no_faults "oil" None empty_db
    = (Success r, s) /\
    supply_inventory.get_supplies_for_project no_faults "oil" None
      Samples.studio = (Success r', s') /\
    (forall m, In m (supply_inventory.missing_essentials r') ->
               In m (supply_inventory.missing_essentials r)).
Proof.
  destruct (more_supplies_less_missing no_faults no_faults "oil" None
              empty_db Samples.studio eq_refl eq_refl)
    as [r [r' [s [s' [H1 [H2 [H3 _]]]]]]].
  - intros x [].
  - exists r, r', s, s'. repeat split; assumption.
Defined.

(** ** The suggestion for a query *)

Lemma first_keyword_some (keywords : list string) (query_lower k : string) :
  project_filesaver.first_keyword keywords query_lower = Some k <->
  exists before after,
    keywords = before ++ k :: after /\
    Py.contains k query_lower = true /\
    forall k', In k' before -> Py.contains k' query_lower = false.
Proof.
  induction keywords as [ | k0 keywords IH ]; simpl.
  - split; [ discriminate | ].
    intros [before [after [H _]]]. destruct before; discriminate.
  - destruct (Py.contains k0 query_lower) eqn:E.
    + split.
      * intro H. inversion H; subst. exists [], keywords. simpl. tauto.
      * intros [before [after [H [Hk Hb]]]].
        destruct before as [ | k1 before ]; simpl in H.
        -- congruence.
        -- inversion H; subst. rewrite (Hb k1) in E; [ discriminate | ].
           now left.
    + rewrite IH. split.
      * intros [before [after [H [Hk Hb]]]].
        exists (k0 :: before), after. simpl. rewrite H.
        split; [ reflexivity | ]. split; [ exact Hk | ].
        intros k' [ <- | Hin ]; [ exact E | eauto ].
      * intros [before [after [H [Hk Hb]]]].
        destruct before as [ | k1 before ]; simpl in H.
        -- inversion H; subst. congruence.
        -- inversion H; subst. exists before, after.
           split; [ reflexivity | ]. split; [ exact Hk | ].
           intros k' Hin. apply Hb. now right.
Qed.

Lemma first_keyword_none (keywords : list string) (query_lower : string) :
  project_filesaver.first_keyword keywords query_lower = None <->
  forall k, In k keywords -> Py.contains k query_lower = false.
Proof.
  induction keywords as [ | k0 keywords IH ]; simpl.
  - split; [ intros _ k [] | reflexivity ].
  - destruct (Py.contains k0 query_lower) eqn:E.
    + split; [ discriminate | ]. intro H.
      rewrite (H k0) in E; [ discriminate | now left ].
    + rewrite IH. split.
      * intros H k [ <- | Hin ]; [ exact E | eauto ].
      * intros H k Hin. apply H. now right.
Qed.

(** X7.  [create_project_from_query] takes as medium, style and subject the
    first keyword of its list, in the order of the list, that is part of
    the query in lower case, and none when no keyword of the list is; the
    place of the words in the query plays no part.  So "sunflower" always
    wins over "flower", and "oil", when part of the query, wins over every
    medium but "watercolor".  The query is the description and the budget
    is passed on. *)
Theorem keywords_in_list_order
    (query : string) (available_supplies : option (list Supply.dict))
    (budget : option Q) (style_preferences : option (PyDict.t string)) :
  let r :=
    project_filesaver.create_project_from_query query available_supplies
      budget style_preferences in
  let found keywords (result : option string) :=
    (forall k,
        result = Some k <->
        exists before after,
          keywords = before ++ k :: after /\
          Py.contains k (Py.lower query) = true /\
          forall k', In k' before ->
                     Py.contains k' (Py.lower query) = false) /\
    (result = None <->
     forall k, In k keywords -> Py.contains k (Py.lower query) = false) in
  found project_filesaver.mediums (project_filesaver.sg_medium r) /\
  found project_filesaver.styles (project_filesaver.sg_style r) /\
  found project_filesaver.subjects (project_filesaver.sg_subject r) /\
  (Py.contains "sunflower" (Py.lower query) = true ->
   project_filesaver.sg_subject r = Some "sunflower"%string) /\
  (Py.contains "oil" (Py.lower query) = true ->
   project_filesaver.sg_medium r = Some "watercolor"%string \/
   project_filesaver.sg_medium r = Some "oil"%string) /\
  project_filesaver.sg_description r = query /\
  project_filesaver.sg_estimated_budget r = budget.
Proof.
  cbv zeta. unfold project_filesaver.create_project_from_query.
  cbn [project_filesaver.sg_medium project_filesaver.sg_style
       project_filesaver.sg_subject project_filesaver.sg_description
       project_filesaver.sg_estimated_budget].
  split; [ split; [ intro k; apply first_keyword_some
                  | apply first_keyword_none ] | ].
  split; [ split; [ intro k; apply first_keyword_some
                  | apply first_keyword_none ] | ].
  split; [ split; [ intro k; apply first_keyword_some
                  | apply first_keyword_none ] | ].
  split; [ | split; [ | split; reflexivity ] ].
  - intro H. unfold project_filesaver.subjects.
    cbn [project_filesaver.first_keyword]. now rewrite H.
  - intro H. unfold project_filesaver.mediums.
    cbn [project_filesaver.first_keyword].
    destruct (Py.contains "watercolor" (Py.lower query)); [ now left | ].
    rewrite H. now right.
Qed.

Lemma keywords_in_list_order_witness :
  project_filesaver.sg_medium
    (project_filesaver.create_project_from_query
       "Pencil sketch of a boiling kettle" None None None)
  = Some "watercolor"%string \/
  project_filesaver.sg_medium
    (project_filesaver.create_project_from_query
       "Pencil sketch of a boiling kettle" None None None)
  = Some "oil"%string.
Proof.
  apply (keywords_in_list_order "Pencil sketch of a boiling kettle" None None
           None).
  reflexivity.
Defined.

(** ** The shopping list at the edges *)

Lemma matches_empty (key : string) : project_filesaver.matches "" key = true.
Proof.
  unfold project_filesaver.matches.
  destruct key; reflexivity.
Qed.

Lemma PyDict_set_head {V} (k k0 : string) (v v0 : V) (d : PyDict.t V) :
  exists v' d', PyDict.set k v ((k0, v0) :: d) = (k0, v') :: d'.
Proof. simpl. destruct (String.eqb k0 k); eauto. Qed.

Lemma supply_map_head (inventory : list Supply.t) (k0 : string)
    (v0 : Supply.t) (d : PyDict.t Supply.t) :
  exists v' d',
    fold_left (fun supply_map s =>
                 PyDict.set (project_filesaver.supply_key s) s supply_map)
              inventory ((k0, v0) :: d)
    = (k0, v') :: d'.
Proof.
  revert v0 d. induction inventory as [ | s inventory IH ]; intros v0 d.
  - simpl. eauto.
  - cbn [fold_left].
    destruct (PyDict_set_head (project_filesaver.supply_key s) k0 s v0 d)
      as [v' [d' E]].
    rewrite E. apply IH.
Qed.

Lemma nameless_finds_first (first : Supply.t) (rest : list Supply.t) :
  exists found,
    project_filesaver.find_supply ""
      (project_filesaver.build_supply_map (first :: rest)) = Some found /\
    In found (first :: rest) /\
    project_filesaver.supply_key found = project_filesaver.supply_key first.
Proof.
  unfold project_filesaver.build_supply_map. cbn [fold_left PyDict.set].
  destruct (supply_map_head rest (project_filesaver.supply_key first) first [])
    as [v' [d' E]].
  exists v'. rewrite E. cbn [project_filesaver.find_supply].
  rewrite matches_empty. split; [ reflexivity | ].
  assert (Hin : In (project_filesaver.supply_key first, v')
                   (fold_left
                      (fun supply_map s =>
                         PyDict.set (project_filesaver.supply_key s) s
                                    supply_map)
                      rest [(project_filesaver.supply_key first, first)]))
    by (rewrite E; now left).
  apply supply_map_items in Hin.
  destruct Hin as [ [ Hin | [] ] | [Hin Hkey] ].
  - inversion Hin; subst. split; [ now left | reflexivity ].
  - split; [ now right | now rewrite Hkey ].
Qed.

(** X8.  With no supply in the inventory [generate_shopping_list] puts
    every material of the project on the shopping list, in the order of the
    materials, each with the reason "not in inventory" and the quantity 0,
    and nothing on the list of what is there. *)
Theorem empty_inventory_buys_everything
    (F : Faults) (project_id : Z) (db : DB) (project : Project.t)
    (materials : list Material) :
  find (project_filesaver.has_id project_id) (projects db) = Some project ->
  Project.materials_list project = JList materials ->
  F QueryProject = None -> F QuerySupply = None ->
  supplies db = [] ->
  fst (project_filesaver.generate_shopping_list F project_id db)
  = Success
      (project_filesaver.Shopping (Project.title project)
         (map (fun m =>
                 project_filesaver.mk_to_buy
                   (project_filesaver.material_name m) "not in inventory" 0
                   None)
              materials)
         [] (length materials) 0 (Project.estimated_budget project)).
Proof.
  intros Hfind Hlist HP HS Hempty.
  rewrite (generate_shopping_list_run F project_id db project materials
             Hfind Hlist HP HS).
  cbn [fst]. rewrite Hempty. unfold project_filesaver.build_supply_map.
  cbn [fold_left].
  assert (Hbuy : flat_map (project_filesaver.to_buy_for []) materials
                 = map (fun m =>
                          project_filesaver.mk_to_buy
                            (project_filesaver.material_name m)
                            "not in inventory" 0 None) materials).
  { clear. induction materials as [ | m l IH ]; simpl; [ reflexivity | ].
    now rewrite IH. }
  assert (Hhave : flat_map (project_filesaver.have_for []) materials = []).
  { clear. induction materials as [ | m l IH ]; simpl; [ reflexivity | ].
    exact IH. }
  rewrite Hbuy, Hhave, length_map. reflexivity.
Qed.

Lemma empty_inventory_buys_everything_witness :
  fst (project_filesaver.generate_shopping_list no_faults 1
         Samples.bare_atelier)
  = Success
      (project_filesaver.Shopping "Still life"
         [project_filesaver.mk_to_buy "Cadmium Yellow" "not in inventory" 0
            None;
          project_filesaver.mk_to_buy "Round Brush" "not in inventory" 0
            None]
         [] 2 0 (Some 40)).
Proof.
  apply (empty_inventory_buys_everything no_faults 1 Samples.bare_atelier
           Samples.still_life Samples.materials); reflexivity.
Defined.

(** X9.  A material without a name, or with the empty name, matches every
    key, so in an inventory that is not empty it is never reported as "not
    in inventory": [generate_shopping_list] judges it by the record that
    the map holds under the key of the first supply. *)
Theorem nameless_material_takes_first_record
    (F : Faults) (project_id : Z) (db : DB) (project : Project.t)
    (materials : list Material) (first : Supply.t) (rest : list Supply.t) :
  find (project_filesaver.has_id project_id) (projects db) = Some project ->
  Project.materials_list project = JList materials ->
  F QueryProject = None -> F QuerySupply = None ->
  supplies db = first :: rest ->
  exists found shopping_list already_have,
    In found (supplies db) /\
    project_filesaver.supply_key found = project_filesaver.supply_key first /\
    fst (project_filesaver.generate_shopping_list F project_id db)
    = Success
        (project_filesaver.Shopping (Project.title project) shopping_list
           already_have (length shopping_list) (length already_have)
           (Project.estimated_budget project)) /\
    (forall material,
        In material materials ->
        project_filesaver.material_name material = ""%string ->
        (Supply.quantity found < 0.25 ->
         In (project_filesaver.mk_to_buy "" "low stock"
               (Supply.quantity found) (Some (Supply.brand found)))
            shopping_list) /\
        (0.25 <= Supply.quantity found ->
         In (project_filesaver.mk_have "" (Supply.quantity found)
               (Supply.brand found))
            already_have)) /\
    ~ In (project_filesaver.mk_to_buy "" "not in inventory" 0 None)
         shopping_list.
Proof.
  intros Hfind Hlist HP HS Hsupplies.
  destruct (nameless_finds_first first rest) as [found [Hfound [Hin Hkey]]].
  exists found. do 2 eexists.
  split; [ now rewrite Hsupplies | ]. split; [ exact Hkey | ].
  split.
  { rewrite (generate_shopping_list_run F project_id db project materials
               Hfind Hlist HP HS). reflexivity. }
  rewrite Hsupplies. split.
  - intros material Hm Hname. split; intro Hq.
    + apply in_flat_map. exists material. split; [ exact Hm | ].
      unfold project_filesaver.to_buy_for. cbv zeta. rewrite Hname.
      cbn [Py.lower]. rewrite Hfound. apply Qlt_bool_iff in Hq.
      rewrite Hq. now left.
    + apply in_flat_map. exists material. split; [ exact Hm | ].
      unfold project_filesaver.have_for. cbv zeta. rewrite Hname.
      cbn [Py.lower]. rewrite Hfound. apply Qlt_bool_false_iff in Hq.
      rewrite Hq. now left.
  - intro H. apply in_flat_map in H. destruct H as [material [_ H]].
    unfold project_filesaver.to_buy_for in H. cbv zeta in H.
    destruct (project_filesaver.find_supply
                (Py.lower (project_filesaver.material_name material)) _)
      as [ f | ] eqn:E.
    + destruct (Py.Qlt_bool (Supply.quantity f) 0.25);
        [ destruct H as [ H | [] ]; discriminate | destruct H ].
    + destruct H as [ H | [] ]. inversion H as [Hname].
      rewrite Hname in E. cbn [Py.lower] in E. congruence.
Qed.

Lemma nameless_material_takes_first_record_witness :
  exists found shopping_list already_have,
    In found (supplies Samples.atelier_untitled) /\
    project_filesaver.supply_key found
    = project_filesaver.supply_key Samples.cadmium /\
    fst (project_filesaver.generate_shopping_list no_faults 1
           Samples.atelier_untitled)
    = Success
        (project_filesaver.Shopping (Project.title Samples.untitled)
           shopping_list already_have (length shopping_list)
           (length already_have)
           (Project.estimated_budget Samples.untitled)) /\
    (forall material,
        In material [MDict None (Some "paint"%string)] ->
        project_filesaver.material_name material = ""%string ->
        (Supply.quantity found < 0.25 ->
         In (project_filesaver.mk_to_buy "" "low stock"
               (Supply.quantity found) (Some (Supply.brand found)))
            shopping_list) /\
        (0.25 <= Supply.quantity found ->
         In (project_filesaver.mk_have "" (Supply.quantity found)
               (Supply.brand found))
            already_have)) /\
    ~ In (project_filesaver.mk_to_buy "" "not in inventory" 0 None)
         shopping_list.
Proof.
  exact (nameless_material_takes_first_record no_faults 1
           Samples.atelier_untitled Samples.untitled
           [MDict None (Some "paint"%string)] Samples.cadmium []
           eq_refl eq_refl eq_refl eq_refl eq_refl).
Defined.

(** ** Creating a project and reading it back *)

Lemma find_app_some {R} (p : R -> bool) (l l' : list R) (x : R) :
  find p l = Some x -> find p (l ++ l') = Some x.
Proof.
  induction l as [ | a l IH ]; simpl; [ discriminate | ].
  destruct (p a); auto.
Qed.

Lemma find_fresh_id {R} (id : R -> Z) (table : list R) :
  find (fun x => (id x =? next_id id table)%Z) table = None.
Proof.
  destruct (find (fun x => (id x =? next_id id table)%Z) table)
    as [ r | ] eqn:E; [ | reflexivity ].
  apply find_some in E. destruct E as [Hin E].
  apply (next_id_above id) in Hin. apply Z.eqb_eq in E. lia.
Qed.

Lemma find_appended {R} (id : R -> Z) (i : Z) (row : R) (table : list R) :
  id row = i -> i = next_id id table ->
  find (fun x => (id x =? i)%Z) (table ++ [row]) = Some row.
Proof.
  intros Hid Hi. apply find_insert_none.
  - rewrite Hi. apply find_fresh_id.
  - rewrite Hid. apply Z.eqb_refl.
Qed.

Lemma create_project_run (F : Faults) (now : Time) (title : string)
    (description medium style : option string) (estimated_budget : option Q)
    (materials_list : option (list Material)) (steps : option (list string))
    (notes : option string) (db : DB) :
  F Commit = None -> F Refresh = None ->
  let project :=
    Project.mk (next_id Project.id (projects db)) title description "planned"
               medium style estimated_budget None
               (project_filesaver.dumps_if materials_list)
               (project_filesaver.dumps_if steps) notes None now now None in
  let r :=
    project_filesaver.create_project F now title description medium style
      estimated_budget materials_list steps notes db in
  fst r = Success (("Created project: " ++ title)%string,
                   Project.to_dict project)
  /\ db_after r = project_filesaver.insert_project project db.
Proof.
  intros HC HR. cbv zeta.
  unfold project_filesaver.create_project,
    project_filesaver.create_project_try.
  run. rewrite HC. simpl. rewrite HR. simpl. split; reflexivity.
Qed.

(** What [get_project] shows of a row. *)
Lemma get_project_run (F : Faults) (project_id : Z) (db : DB) :
  F QueryProject = None ->
  fst (project_filesaver.get_project F project_id db)
  = match find (project_filesaver.has_id project_id) (projects db) with
    | Some project =>
        Success
          (Project.mk_dict
             (Project.id project) (Project.title project)
             (Project.description project) (Project.status project)
             (Project.medium project) (Project.style project)
             (Project.estimated_budget project)
             (loaded (AsText (Project.materials_list project))
                     (Project.materials_list project))
             (loaded (AsText (Project.steps project))
                     (Project.steps project))
             (Project.notes project) (Project.created_at project)
             (Project.updated_at project))
    | None => Failure "Project not found"%string
    end.
Proof.
  intro HQ.
  unfold project_filesaver.get_project, project_filesaver.get_project_try.
  run. rewrite HQ. simpl.
  destruct (find (project_filesaver.has_id project_id) (projects db));
    reflexivity.
Qed.

Lemma loaded_dumps_if {A} (value : option (list A)) :
  loaded (AsText (project_filesaver.dumps_if value))
         (project_filesaver.dumps_if value)
  = match value with
    | Some (x :: l) => AsValue (JList (x :: l))
    | _ => AsText JNull
    end.
Proof. destruct value as [ [ | x l ] | ]; reflexivity. Qed.

(** X10.  When the commit and the refresh go through, [get_project] reads
    back under the returned id the project that [create_project] returned:
    the same id, title, description, medium, style, budget, notes and
    times, the status "planned", and an id above that of every project
    there was.  The two differ in the materials and the steps:
    [create_project] returns them as the JSON text it stored, or as NULL
    for an empty or missing list, and [get_project] returns the decoded
    list in place of the text.  Every project that could be read before is
    read as before. *)
Theorem created_project_reads_back
    (F F' : Faults) (now : Time) (title : string)
    (description medium style : option string) (estimated_budget : option Q)
    (materials_list : option (list Material)) (steps : option (list string))
    (notes : option string) (db : DB) :
  F Commit = None -> F Refresh = None -> F' QueryProject = None ->
  let r :=
    project_filesaver.create_project F now title description medium style
      estimated_budget materials_list steps notes db in
  let decoded {A} (value : option (list A)) : JsonField A :=
    match value with
    | Some (x :: l) => AsValue (JList (x :: l))
    | _ => AsText JNull
    end in
  exists created,
    fst r = Success (("Created project: " ++ title)%string, created) /\
    Project.dict_title created = title /\
    Project.dict_status created = "planned"%string /\
    Project.dict_medium created = medium /\
    Project.dict_style created = style /\
    Project.dict_materials_list created
    = AsText (project_filesaver.dumps_if materials_list) /\
    Project.dict_steps created
    = AsText (project_filesaver.dumps_if steps) /\
    (forall p, In p (projects db) ->
               (Project.id p < Project.dict_id created)%Z) /\
    fst (project_filesaver.get_project F' (Project.dict_id created)
           (db_after r))
    = Success
        (Project.mk_dict
           (Project.dict_id created) (Project.dict_title created)
           (Project.dict_description created) (Project.dict_status created)
           (Project.dict_medium created) (Project.dict_style created)
           (Project.dict_estimated_budget created)
           (decoded materials_list) (decoded steps)
           (Project.dict_notes created) (Project.dict_created_at created)
           (Project.dict_updated_at created)) /\
    (forall i old,
        find (project_filesaver.has_id i) (projects db) = Some old ->
        fst (project_filesaver.get_project F' i (db_after r))
        = fst (project_filesaver.get_project F' i db)).
Proof.
  intros HC HR HQ. cbv zeta.
  destruct (create_project_run F now title description medium style
              estimated_budget materials_list steps notes db HC HR)
    as [Hfst Hdb].
  cbv zeta in Hfst, Hdb. rewrite Hdb.
  eexists. split; [ exact Hfst | ].
  do 6 (split; [ reflexivity | ]).
  split; [ | split ].
  - intros p Hp. cbn [Project.to_dict Project.dict_id Project.id].
    now apply (next_id_above Project.id).
  - rewrite (get_project_run F' _ _ HQ).
    cbn [Project.to_dict Project.dict_id Project.id
         project_filesaver.insert_project projects].
    unfold project_filesaver.has_id.
    match goal with
    | |- context [ find _ (_ ++ [?row]) ] =>
        rewrite (find_appended Project.id
                   (next_id Project.id (projects db)) row (projects db)
                   eq_refl eq_refl)
    end.
    cbn [Project.id Project.title Project.description Project.status
         Project.medium Project.style Project.estimated_budget
         Project.materials_list Project.steps Project.notes
         Project.created_at Project.updated_at Project.dict_title
         Project.dict_description Project.dict_status Project.dict_medium
         Project.dict_style Project.dict_estimated_budget Project.dict_notes
         Project.dict_created_at Project.dict_updated_at].
    now rewrite !loaded_dumps_if.
  - intros i old Hold. rewrite !(get_project_run F' _ _ HQ).
    cbn [project_filesaver.insert_project projects].
    now rewrite (find_app_some _ _ _ old Hold), Hold.
Qed.

Lemma created_project_reads_back_witness :
  exists created,
    fst (project_filesaver.create_project no_faults 5%Z "Irises" None
           (Some "oil"%string) None None
           (Some [MValue "Linseed oil"%string]) None None Samples.plans)
    = Success ("Created project: Irises"%string, created) /\
    Project.dict_materials_list created
    = AsText (JList [MValue "Linseed oil"%string]) /\
    exists read,
      fst (project_filesaver.get_project no_faults (Project.dict_id created)
             (db_after
                (project_filesaver.create_project no_faults 5%Z "Irises" None
                   (Some "oil"%string) None None
                   (Some [MValue "Linseed oil"%string]) None None
                   Samples.plans)))
      = Success read /\
      Project.dict_materials_list read
      = AsValue (JList [MValue "Linseed oil"%string]) /\
      Project.dict_steps read = AsText JNull /\
      Project.dict_medium read = Some "oil"%string.
Proof.
  destruct (created_project_reads_back no_faults no_faults 5%Z "Irises" None
              (Some "oil"%string) None None
              (Some [MValue "Linseed oil"%string]) None None Samples.plans
              eq_refl eq_refl eq_refl)
    as [created [Hrun [_ [_ [Hmedium [_ [Hlist [_ [_ [Hget _]]]]]]]]]].
  exists created. split; [ exact Hrun | ]. split; [ exact Hlist | ].
  eexists. split; [ exact Hget | ]. cbn [Project.dict_materials_list
    Project.dict_steps Project.dict_medium].
  split; [ reflexivity | ]. split; [ reflexivity | exact Hmedium ].
Defined.

(** ** No materials, and an empty list of materials *)

Lemma update_project_stores (F : Faults) (now : Time) (project_id : Z)
    (title description status : option string)
    (materials_list : option (list Material)) (steps : option (list string))
    (notes : option string) (actual_budget : option Q)
    (kw : project_filesaver.project_kwargs) (db : DB) (old : Project.t) :
  F QueryProject = None -> F Commit = None -> F Refresh = None ->
  find (project_filesaver.has_id project_id) (projects db) = Some old ->
  db_after
    (project_filesaver.update_project F now project_id title description
       status materials_list steps notes actual_budget kw db)
  = project_filesaver.write_project
      (project_filesaver.updated_project now title description status
         materials_list steps notes actual_budget kw old) db.
Proof.
  intros HQ HC HR Hfind.
  unfold project_filesaver.update_project,
    project_filesaver.update_project_try.
  run. rewrite HQ. simpl. rewrite Hfind. simpl. rewrite HC. simpl.
  rewrite HR. reflexivity.
Qed.

(** X11.  An empty list of materials is stored in two ways.
    [create_project] stores NULL for it, and [generate_shopping_list] then
    answers that the project has no materials list; [update_project] stores
    the text of the empty list, and [generate_shopping_list] then answers
    with an empty shopping list, the counts 0 and the budget. *)
Theorem empty_materials_stored_two_ways
    (F F' : Faults) (now : Time) (title : string)
    (description medium style : option string) (estimated_budget : option Q)
    (steps : option (list string)) (notes : option string)
    (project_id : Z) (old : Project.t) (db : DB) :
  F QueryProject = None -> F Commit = None -> F Refresh = None ->
  F' QueryProject = None -> F' QuerySupply = None ->
  find (project_filesaver.has_id project_id) (projects db) = Some old ->
  let created :=
    project_filesaver.create_project F now title description medium style
      estimated_budget (Some []) steps notes db in
  let updated :=
    project_filesaver.update_project F now project_id None None None
      (Some []) None None None project_filesaver.no_kwargs db in
  fst (project_filesaver.generate_shopping_list F'
         (next_id Project.id (projects db)) (db_after created))
  = Success (project_filesaver.NoMaterials title [])
  /\ fst (project_filesaver.generate_shopping_list F' project_id
            (db_after updated))
     = Success (project_filesaver.Shopping (Project.title old) [] []
                  0 0 (Project.estimated_budget old)).
Proof.
  intros HQ HC HR HQ' HS' Hfind. cbv zeta. split.
  - destruct (create_project_run F now title description medium style
                estimated_budget (Some []) steps notes db HC HR)
      as [_ Hdb].
    cbv zeta in Hdb. rewrite Hdb.
    unfold project_filesaver.generate_shopping_list,
      project_filesaver.generate_shopping_list_try.
    run. rewrite HQ'. cbn [fst snd].
    unfold project_filesaver.has_id.
    cbn [working projects project_filesaver.insert_project].
    match goal with
    | |- context [ find _ (_ ++ [?row]) ] =>
        rewrite (find_appended Project.id
                   (next_id Project.id (projects db)) row (projects db)
                   eq_refl eq_refl)
    end.
    reflexivity.
  - rewrite (update_project_stores F now project_id None None None
               (Some []) None None None project_filesaver.no_kwargs db old
               HQ HC HR Hfind).
    set (project' := project_filesaver.updated_project now None None None
                       (Some []) None None None
                       project_filesaver.no_kwargs old).
    assert (Hfind' :
      find (project_filesaver.has_id project_id)
           (projects (project_filesaver.write_project project' db))
      = Some project').
    { apply (find_replace_row Project.id project_id project' old);
        [ exact Hfind | ].
      apply (find_has_id Project.id project_id old (projects db) Hfind). }
    rewrite (generate_shopping_list_run F' project_id _ project' []
               Hfind' eq_refl HQ' HS').
    reflexivity.
Qed.

Lemma empty_materials_stored_two_ways_witness :
  fst (project_filesaver.generate_shopping_list no_faults
         (next_id Project.id (projects Samples.atelier))
         (db_after
            (project_filesaver.create_project no_faults 5%Z "Irises" None
               None None None (Some []) None None Samples.atelier)))
  = Success (project_filesaver.NoMaterials "Irises" [])
  /\ fst (project_filesaver.generate_shopping_list no_faults 1
            (db_after
               (project_filesaver.update_project no_faults 5%Z 1 None None
                  None (Some []) None None None project_filesaver.no_kwargs
                  Samples.atelier)))
     = Success (project_filesaver.Shopping
                  (Project.title Samples.still_life) [] [] 0 0
                  (Project.estimated_budget Samples.still_life)).
Proof.
  exact (empty_materials_stored_two_ways no_faults no_faults 5%Z "Irises"
           None None None None None None 1 Samples.still_life
           Samples.atelier eq_refl eq_refl eq_refl eq_refl eq_refl eq_refl).
Defined.

(** ** Session notes *)

Lemma add_session_notes_run (F : Faults) (now : Time) (timestamp : string)
    (project_id : Z) (notes : string) (db : DB) (project : Project.t) :
  F QueryProject = None -> F Commit = None -> F Refresh = None ->
  find (project_filesaver.has_id project_id) (projects db) = Some project ->
  let project' :=
    project_filesaver.noted_project now timestamp notes project in
  let r :=
    project_filesaver.add_session_notes F now timestamp project_id notes db in
  fst r = Success ("Added session notes"%string, Project.to_dict project')
  /\ db_after r = project_filesaver.write_project project' db
  /\ find (project_filesaver.has_id project_id) (projects (db_after r))
     = Some project'.
Proof.
  intros HQ HC HR Hfind. cbv zeta.
  assert (E : db_after
                (project_filesaver.add_session_notes F now timestamp
                   project_id notes db)
              = project_filesaver.write_project
                  (project_filesaver.noted_project now timestamp notes
                     project) db).
  { unfold project_filesaver.add_session_notes,
      project_filesaver.add_session_notes_try.
    run. rewrite HQ. simpl. rewrite Hfind. simpl. rewrite HC. simpl.
    rewrite HR. reflexivity. }
  split; [ | split; [ exact E | ] ].
  - unfold project_filesaver.add_session_notes,
      project_filesaver.add_session_notes_try.
    run. rewrite HQ. simpl. rewrite Hfind. simpl. rewrite HC. simpl.
    rewrite HR. reflexivity.
  - rewrite E. cbn [project_filesaver.write_project projects].
    apply (find_replace_row Project.id project_id _ project);
      [ exact Hfind | ].
    apply (find_has_id Project.id project_id project (projects db) Hfind).
Qed.

Lemma with_note_appends (timestamp notes timestamp' notes' : string)
    (old : option string) :
  project_filesaver.with_note timestamp' notes'
    (Some (project_filesaver.with_note timestamp notes old))
  = (project_filesaver.with_note timestamp notes old
     ++ (Py.nl ++ Py.nl ++ "[" ++ timestamp' ++ "]" ++ Py.nl ++ notes'))%string.
Proof.
  unfold project_filesaver.with_note at 1.
  assert (H : exists c r,
             project_filesaver.with_note timestamp notes old = String c r).
  { unfold project_filesaver.with_note.
    destruct old as [ [ | c r ] | ]; simpl; eauto. }
  destruct H as [c [r H]]. rewrite H. reflexivity.
Qed.

(** X12.  [add_session_notes] only ever adds to the notes of a project.
    After one call the notes are the old ones, then an empty line when
    there were any, then the time stamp in brackets and the new notes on
    the next line; after a second call they are those of the first call
    with an empty line, the second time stamp and the second notes after
    them.  The title, the status and the materials stay as they were. *)
Theorem session_notes_accumulate
    (F F' : Faults) (now now' : Time) (timestamp timestamp' : string)
    (project_id : Z) (notes notes' : string) (db : DB)
    (project : Project.t) :
  F QueryProject = None -> F Commit = None -> F Refresh = None ->
  F' QueryProject = None -> F' Commit = None -> F' Refresh = None ->
  find (project_filesaver.has_id project_id) (projects db) = Some project ->
  let first :=
    project_filesaver.add_session_notes F now timestamp project_id notes db in
  let second :=
    project_filesaver.add_session_notes F' now' timestamp' project_id notes'
      (db_after first) in
  let entry := ("[" ++ timestamp ++ "]" ++ Py.nl ++ notes)%string in
  let entry' := ("[" ++ timestamp' ++ "]" ++ Py.nl ++ notes')%string in
  exists once twice,
    find (project_filesaver.has_id project_id) (projects (db_after first))
    = Some once /\
    find (project_filesaver.has_id project_id) (projects (db_after second))
    = Some twice /\
    (Py.truthy (Project.notes project) = false ->
     Project.notes once = Some entry) /\
    (forall old, Py.truthy (Project.notes project) = true ->
                 Project.notes project = Some old ->
                 Project.notes once
                 = Some (old ++ Py.nl ++ Py.nl ++ entry)%string) /\
    (forall text, Project.notes once = Some text ->
                  Project.notes twice
                  = Some (text ++ Py.nl ++ Py.nl ++ entry')%string) /\
    Project.title twice = Project.title project /\
    Project.status twice = Project.status project /\
    Project.materials_list twice = Project.materials_list project /\
    Project.updated_at twice = now'.
Proof.
  intros HQ HC HR HQ' HC' HR' Hfind. cbv zeta.
  destruct (add_session_notes_run F now timestamp project_id notes db project
              HQ HC HR Hfind) as [_ [_ Hfirst]].
  cbv zeta in Hfirst.
  destruct (add_session_notes_run F' now' timestamp' project_id notes' _ _
              HQ' HC' HR' Hfirst) as [_ [_ Hsecond]].
  cbv zeta in Hsecond.
  do 2 eexists. split; [ exact Hfirst | ]. split; [ exact Hsecond | ].
  cbn [project_filesaver.noted_project Project.notes Project.title
       Project.status Project.materials_list Project.updated_at].
  repeat split.
  - intro Hold. unfold project_filesaver.with_note. now rewrite Hold.
  - intros old Hold E. unfold project_filesaver.with_note.
    rewrite Hold, E. reflexivity.
  - intros text E. inversion E; subst text. f_equal.
    apply with_note_appends.
Qed.

Lemma session_notes_accumulate_witness :
  exists once twice,
    find (project_filesaver.has_id 1)
         (projects
            (db_after
               (project_filesaver.add_session_notes no_faults 3%Z
                  "2024-05-01 10:00" 1 "Sketched" Samples.plans)))
    = Some once /\
    find (project_filesaver.has_id 1)
         (projects
            (db_after
               (project_filesaver.add_session_notes no_faults 4%Z
                  "2024-05-02 09:30" 1 "First wash"
                  (db_after
                     (project_filesaver.add_session_notes no_faults 3%Z
                        "2024-05-01 10:00" 1 "Sketched" Samples.plans)))))
    = Some twice /\
    Project.notes once
    = Some ("[2024-05-01 10:00]" ++ Py.nl ++ "Sketched")%string /\
    Project.notes twice
    = Some (("[2024-05-01 10:00]" ++ Py.nl ++ "Sketched")
            ++ Py.nl ++ Py.nl
            ++ "[2024-05-02 09:30]" ++ Py.nl ++ "First wash")%string.
Proof.
  destruct (session_notes_accumulate no_faults no_faults 3%Z 4%Z
              "2024-05-01 10:00" "2024-05-02 09:30" 1 "Sketched"
              "First wash" Samples.plans Samples.sunflowers
              eq_refl eq_refl eq_refl eq_refl eq_refl eq_refl eq_refl)
    as [once [twice [H1 [H2 [Hnone [_ [Hnext _]]]]]]].
  exists once, twice. split; [ exact H1 | ]. split; [ exact H2 | ].
  assert (E := Hnone eq_refl). split; [ exact E | ].
  exact (Hnext _ E).
Defined.

(** ** The list of projects *)

Lemma latest_first_before (a b : Project.t) :
  project_filesaver.latest_first a b = true ->
  (Project.updated_at b <= Project.updated_at a)%Z.
Proof. unfold project_filesaver.latest_first. apply Z.leb_le. Qed.

Lemma latest_first_after (a b : Project.t) :
  project_filesaver.latest_first a b = false ->
  (Project.updated_at a <= Project.updated_at b)%Z.
Proof.
  unfold project_filesaver.latest_first. intro H.
  apply Z.leb_gt in H. lia.
Qed.

(** X13.  When the query goes through, [get_all_projects] returns projects
    of the table and no others, at most [limit] of them (50 when no limit
    is given), the one updated last first, and "total" counts those
    returned.  A status that is given and not empty is the status of each
    of them; with no status, or the empty one, no project is left out for
    its status.  When no more than [limit] projects qualify, each of them
    is returned. *)
Theorem get_all_projects_latest_first
    (F : Faults) (status : option string) (limit : option nat) (db : DB) :
  F QueryProject = None ->
  let qualifies (p : Project.t) :=
    if Py.truthy status
    then String.eqb (Project.status p) (default ""%string status)
    else true in
  exists total dicts,
    fst (project_filesaver.get_all_projects F status limit db)
    = Success (total, dicts) /\
    total = length dicts /\
    (total <= default 50%nat limit)%nat /\
    (forall d, In d dicts ->
               exists p, In p (projects db) /\ d = Project.to_dict p /\
                         (Py.truthy status = true ->
                          Some (Project.status p) = status)) /\
    StronglySorted
      (fun a b => (Project.dict_updated_at b <= Project.dict_updated_at a)%Z)
      dicts /\
    ((length (filter qualifies (projects db)) <= default 50%nat limit)%nat ->
     forall p, In p (projects db) -> qualifies p = true ->
               In (Project.to_dict p) dicts).
Proof.
  intro HQ. cbv zeta.
  unfold project_filesaver.get_all_projects,
    project_filesaver.get_all_projects_try.
  run. rewrite HQ. simpl.
  set (qualifies := fun p : Project.t =>
         if Py.truthy status
         then String.eqb (Project.status p) (default ""%string status)
         else true).
  set (rows := order_by project_filesaver.latest_first
                 (filter qualifies (projects db))).
  do 2 eexists. split; [ reflexivity | ].
  split; [ now rewrite length_map | ].
  split; [ apply firstn_le_length | ].
  split; [ | split ].
  - intros d Hd. apply in_map_iff in Hd. destruct Hd as [p [<- Hp]].
    apply In_firstn in Hp. apply In_order_by in Hp.
    apply filter_In in Hp. destruct Hp as [Hin Hq].
    exists p. split; [ exact Hin | ]. split; [ reflexivity | ].
    intro Ht. unfold qualifies in Hq. rewrite Ht in Hq.
    apply String.eqb_eq in Hq. rewrite Hq.
    destruct status as [ st | ]; [ reflexivity | discriminate ].
  - apply StronglySorted_map
      with (before := fun a b => (Project.dict_updated_at b
                                  <= Project.dict_updated_at a)%Z).
    apply StronglySorted_firstn.
    apply order_by_sorted
      with (before := fun a b => (Project.updated_at b
                                  <= Project.updated_at a)%Z).
    + intros x y z. cbn [Project.to_dict Project.dict_updated_at]. lia.
    + apply latest_first_before.
    + apply latest_first_after.
  - intros Hle p Hin Hq. apply in_map.
    rewrite firstn_all2.
    + apply In_order_by. apply filter_In. split; assumption.
    + unfold rows. now rewrite length_order_by.
Qed.

Lemma get_all_projects_latest_first_witness :
  exists total dicts,
    fst (project_filesaver.get_all_projects no_faults None (Some 1%nat)
           Samples.plans_and_irises)
    = Success (total, dicts) /\
    total = length dicts /\
    (total <= 1)%nat /\
    StronglySorted
      (fun a b => (Project.dict_updated_at b <= Project.dict_updated_at a)%Z)
      dicts.
Proof.
  destruct (get_all_projects_latest_first no_faults None (Some 1%nat)
              Samples.plans_and_irises eq_refl)
    as [total [dicts [Hrun [Htotal [Hlimit [_ [Hsorted _]]]]]]].
  exists total, dicts. repeat split; assumption.
Defined.

(** ** The name of an exported file *)

Lemma In_chars_app (c : ascii) (a b : string) :
  In c (list_ascii_of_string (a ++ b))
  <-> In c (list_ascii_of_string a) \/ In c (list_ascii_of_string b).
Proof.
  induction a as [ | d a IH ]; simpl; [ tauto | ]. rewrite IH. tauto.
Qed.

Lemma In_chars_take (c : ascii) (n : nat) (s : string) :
  In c (list_ascii_of_string (Py.take n s)) -> In c (list_ascii_of_string s).
Proof.
  revert s. induction n as [ | n IH ]; intros [ | d s ]; simpl; try tauto.
  intros [ H | H ]; [ now left | right; now apply IH ].
Qed.

Lemma length_take (n : nat) (s : string) :
  (String.length (Py.take n s) <= n)%nat.
Proof.
  revert s. induction n as [ | n IH ]; intros [ | d s ]; simpl; try lia.
  specialize (IH s). lia.
Qed.

Lemma In_chars_replace_char (c old : ascii) (new s : string) :
  In c (list_ascii_of_string (Py.replace_char old new s)) ->
  In c (list_ascii_of_string new)
  \/ (In c (list_ascii_of_string s) /\ c <> old).
Proof.
  induction s as [ | d s IH ]; simpl; [ tauto | ].
  destruct (Ascii.eqb d old) eqn:E.
  - rewrite In_chars_app. intros [ H | H ]; [ now left | ].
    destruct (IH H) as [ H' | [H' N] ]; [ now left | right; tauto ].
  - apply Ascii.eqb_neq in E. simpl. intros [ H | H ].
    + right. subst c. split; [ now left | exact E ].
    + destruct (IH H) as [ H' | [H' N] ]; [ now left | right; tauto ].
Qed.

Lemma In_chars_lstrip (c : ascii) (s : string) :
  In c (list_ascii_of_string (Py.lstrip s)) -> In c (list_ascii_of_string s).
Proof.
  induction s as [ | d s IH ]; simpl; [ tauto | ].
  destruct (Py.isspace d); simpl; tauto.
Qed.

Lemma In_chars_rstrip (c : ascii) (s : string) :
  In c (list_ascii_of_string (Py.rstrip s)) -> In c (list_ascii_of_string s).
Proof.
  induction s as [ | d s IH ]; simpl; [ tauto | ].
  destruct (Py.rstrip s) as [ | e r ].
  - destruct (Py.isspace d); simpl; tauto.
  - simpl in *. tauto.
Qed.

Lemma In_chars_filter_chars (c : ascii) (keep : ascii -> bool) (s : string) :
  In c (list_ascii_of_string (Py.filter_chars keep s)) ->
  In c (list_ascii_of_string s) /\ keep c = true.
Proof.
  induction s as [ | d s IH ]; simpl; [ tauto | ].
  destruct (keep d) eqn:E; simpl.
  - intros [ H | H ]; [ subst; tauto | ]. destruct (IH H). tauto.
  - intro H. destruct (IH H). tauto.
Qed.

(** X14.  The first part of the name under which [save_project_to_file]
    writes a project has at most 50 characters, and each of them is
    alphanumeric, a hyphen or an underscore, whatever the title: no space,
    and no character that divides a path unless [isalnum] holds of it. *)
Theorem safe_title_is_plain (isalnum : ascii -> bool) (title : string) :
  (String.length (project_filesaver.safe_title isalnum title) <= 50)%nat
  /\ forall c,
       In c (list_ascii_of_string
               (project_filesaver.safe_title isalnum title)) ->
       (isalnum c = true \/ c = "-"%char \/ c = "_"%char)
       /\ c <> " "%char.
Proof.
  unfold project_filesaver.safe_title. cbv zeta.
  split; [ apply length_take | ].
  intros c Hc. apply In_chars_take in Hc.
  apply In_chars_replace_char in Hc.
  destruct Hc as [ Hc | [Hc N] ].
  - simpl in Hc. destruct Hc as [ <- | [] ].
    split; [ tauto | discriminate ].
  - split; [ | exact N ].
    unfold Py.strip in Hc. apply In_chars_rstrip, In_chars_lstrip in Hc.
    apply In_chars_filter_chars in Hc. destruct Hc as [_ Hkeep].
    apply orb_true_iff in Hkeep. destruct Hkeep as [ H | H ];
      [ now left | ].
    simpl in H. rewrite !orb_true_iff in H.
    destruct H as [ H | [ H | [ H | H ] ] ];
      try apply Ascii.eqb_eq in H; try discriminate; subst; tauto.
Qed.

(** ** Adding a piece to the portfolio *)

Lemma add_portfolio_piece_run (F : Faults) (fs : FileSystem) (now : Time)
    (title : string) (description : option string) (project_id : option Z)
    (status : option string) (medium dimensions image_path : option string)
    (db : DB) :
  F Makedirs = None -> F CopyFile = None ->
  F Commit = None -> F Refresh = None ->
  let paths :=
    if Py.truthy image_path && path_exists fs (default ""%string image_path)
    then (Some (portfolio_path fs now (default ""%string image_path)),
          Some (thumbnail_path fs now (default ""%string image_path)))
    else (None, None) in
  let piece :=
    PortfolioPiece.mk (next_id PortfolioPiece.id (portfolio_pieces db)) title
                      description project_id (default "sketch"%string status)
                      medium dimensions (fst paths) (snd paths) (JList [])
                      now now None in
  exists s',
    portfolio_storehouse.add_portfolio_piece F fs now title description
      project_id status medium dimensions image_path db
    = Returned (Success (("Added '" ++ title ++ "' to portfolio")%string,
                         PortfolioPiece.to_dict piece), s')
    /\ stored s' = portfolio_storehouse.insert_piece piece db.
Proof.
  intros HM HF HC HR. cbv zeta.
  unfold portfolio_storehouse.add_portfolio_piece,
    portfolio_storehouse.add_portfolio_piece_try,
    portfolio_storehouse._ensure_portfolio_dir.
  run. rewrite HM. simpl.
  destruct (Py.truthy image_path
            && path_exists fs (default ""%string image_path)); simpl.
  - rewrite HF. simpl. rewrite HC. simpl. rewrite HR. simpl.
    eexists. split; reflexivity.
  - rewrite HC. simpl. rewrite HR. simpl.
    eexists. split; reflexivity.
Qed.

(** What [get_portfolio_piece] shows of a row. *)
Lemma get_portfolio_piece_run (F : Faults) (piece_id : Z) (db : DB) :
  F QueryPiece = None ->
  fst (portfolio_storehouse.get_portfolio_piece F piece_id db)
  = match find (portfolio_storehouse.has_id piece_id) (portfolio_pieces db)
    with
    | Some piece =>
        Success
          (PortfolioPiece.mk_dict
             (PortfolioPiece.id piece) (PortfolioPiece.title piece)
             (PortfolioPiece.description piece)
             (PortfolioPiece.project_id piece)
             (PortfolioPiece.status piece)
             (PortfolioPiece.medium piece)
             (PortfolioPiece.dimensions piece)
             (PortfolioPiece.image_path piece)
             (PortfolioPiece.thumbnail_path piece)
             (loaded (AsValue (JList []))
                     (PortfolioPiece.progress_images piece))
             (PortfolioPiece.created_at piece)
             (PortfolioPiece.completed_at piece))
    | None => Failure "Portfolio piece not found"%string
    end.
Proof.
  intro HQ.
  unfold portfolio_storehouse.get_portfolio_piece,
    portfolio_storehouse.get_portfolio_piece_try.
  run. rewrite HQ. simpl.
  destruct (find (portfolio_storehouse.has_id piece_id) (portfolio_pieces db));
    reflexivity.
Qed.

Lemma update_portfolio_piece_stores (F : Faults) (fs : FileSystem)
    (now : Time) (piece_id : Z) (title description status : option string)
    (kw : portfolio_storehouse.piece_kwargs) (db : DB)
    (old : PortfolioPiece.t) :
  F QueryPiece = None -> F Commit = None -> F Refresh = None ->
  find (portfolio_storehouse.has_id piece_id) (portfolio_pieces db)
  = Some old ->
  let piece' :=
    portfolio_storehouse.updated_piece now title description status None kw
      old in
  let r :=
    portfolio_storehouse.update_portfolio_piece F fs now piece_id title
      description status None kw db in
  fst r = Success (("Updated '" ++ PortfolioPiece.title piece' ++ "'")%string,
                   PortfolioPiece.to_dict piece')
  /\ db_after r = portfolio_storehouse.write_piece piece' db.
Proof.
  intros HQ HC HR Hfind. cbv zeta.
  unfold portfolio_storehouse.update_portfolio_piece,
    portfolio_storehouse.update_portfolio_piece_try.
  run. rewrite HQ. simpl. rewrite Hfind. simpl. rewrite HC. simpl.
  rewrite HR. simpl. split; reflexivity.
Qed.

(** X15.  A piece that [add_portfolio_piece] adds with the status
    "completed" has no time of completion, and [update_portfolio_piece]
    does not give it one when it is given the status "completed" again:
    the time is only set on a change to "completed" from another status. *)
Theorem added_as_completed_has_no_time
    (F F' : Faults) (fs : FileSystem) (now now' : Time) (title : string)
    (description : option string) (project_id : option Z)
    (medium dimensions image_path : option string)
    (title' description' : option string) (db : DB) :
  F Makedirs = None -> F CopyFile = None ->
  F Commit = None -> F Refresh = None ->
  F' QueryPiece = None -> F' Commit = None -> F' Refresh = None ->
  exists message added s' message' updated,
    portfolio_storehouse.add_portfolio_piece F fs now title description
      project_id (Some "completed"%string) medium dimensions image_path db
    = Returned (Success (message, added), s') /\
    PortfolioPiece.dict_status added = "completed"%string /\
    PortfolioPiece.dict_completed_at added = None /\
    fst (portfolio_storehouse.update_portfolio_piece F' fs now'
           (PortfolioPiece.dict_id added) title' description'
           (Some "completed"%string) None portfolio_storehouse.no_kwargs
           (stored s'))
    = Success (message', updated) /\
    PortfolioPiece.dict_status updated = "completed"%string /\
    PortfolioPiece.dict_completed_at updated = None.
Proof.
  intros HM HF HC HR HQ' HC' HR'.
  destruct (add_portfolio_piece_run F fs now title description project_id
              (Some "completed"%string) medium dimensions image_path db
              HM HF HC HR) as [s' [Hadd Hstored]].
  cbv zeta in Hadd, Hstored.
  set (piece := PortfolioPiece.mk _ _ _ _ _ _ _ _ _ _ _ _ _)
    in Hadd, Hstored.
  assert (Hfind :
    find (portfolio_storehouse.has_id (PortfolioPiece.id piece))
         (portfolio_pieces (stored s')) = Some piece).
  { rewrite Hstored.
    cbn [portfolio_storehouse.insert_piece portfolio_pieces].
    apply (find_appended PortfolioPiece.id _ piece (portfolio_pieces db)
             eq_refl eq_refl). }
  destruct (update_portfolio_piece_stores F' fs now'
              (PortfolioPiece.id piece) title' description'
              (Some "completed"%string) portfolio_storehouse.no_kwargs
              (stored s') piece HQ' HC' HR' Hfind) as [Hupd _].
  cbv zeta in Hupd.
  do 5 eexists. split; [ exact Hadd | ].
  split; [ reflexivity | ]. split; [ reflexivity | ].
  split; [ exact Hupd | ]. split; reflexivity.
Qed.

Lemma added_as_completed_has_no_time_witness :
  exists message added s' message' updated,
    portfolio_storehouse.add_portfolio_piece no_faults Samples.disk 9%Z
      "Dunes" None None (Some "completed"%string) None None None
      Samples.portfolio
    = Returned (Success (message, added), s') /\
    PortfolioPiece.dict_status added = "completed"%string /\
    PortfolioPiece.dict_completed_at added = None /\
    fst (portfolio_storehouse.update_portfolio_piece no_faults Samples.disk
           12%Z (PortfolioPiece.dict_id added) None None
           (Some "completed"%string) None portfolio_storehouse.no_kwargs
           (stored s'))
    = Success (message', updated) /\
    PortfolioPiece.dict_status updated = "completed"%string /\
    PortfolioPiece.dict_completed_at updated = None.
Proof.
  exact (added_as_completed_has_no_time no_faults no_faults Samples.disk
           9%Z 12%Z "Dunes" None None None None None None None
           Samples.portfolio eq_refl eq_refl eq_refl eq_refl eq_refl eq_refl
           eq_refl).
Defined.

(** X16.  When no external call raises, [get_portfolio_piece] reads back
    under the returned id the piece that [add_portfolio_piece] returned:
    the same id, title, description, project, medium, dimensions, paths
    and times, the status "sketch" unless one is given, and an id above
    that of every piece there was.  The two differ in the progress images:
    [add_portfolio_piece] returns the text it stored, that of the empty
    list, and [get_portfolio_piece] returns the empty list itself.  Every
    piece that was there is found as before. *)
Theorem added_piece_reads_back
    (F F' : Faults) (fs : FileSystem) (now : Time) (title : string)
    (description : option string) (project_id : option Z)
    (status : option string) (medium dimensions image_path : option string)
    (db : DB) :
  F Makedirs = None -> F CopyFile = None ->
  F Commit = None -> F Refresh = None -> F' QueryPiece = None ->
  exists message added s',
    portfolio_storehouse.add_portfolio_piece F fs now title description
      project_id status medium dimensions image_path db
    = Returned (Success (message, added), s') /\
    PortfolioPiece.dict_title added = title /\
    PortfolioPiece.dict_status added = default "sketch"%string status /\
    PortfolioPiece.dict_project_id added = project_id /\
    PortfolioPiece.dict_medium added = medium /\
    PortfolioPiece.dict_dimensions added = dimensions /\
    PortfolioPiece.dict_progress_images added = AsText (JList []) /\
    (forall p, In p (portfolio_pieces db) ->
               (PortfolioPiece.id p < PortfolioPiece.dict_id added)%Z) /\
    fst (portfolio_storehouse.get_portfolio_piece F'
           (PortfolioPiece.dict_id added) (stored s'))
    = Success
        (PortfolioPiece.mk_dict
           (PortfolioPiece.dict_id added) (PortfolioPiece.dict_title added)
           (PortfolioPiece.dict_description added)
           (PortfolioPiece.dict_project_id added)
           (PortfolioPiece.dict_status added)
           (PortfolioPiece.dict_medium added)
           (PortfolioPiece.dict_dimensions added)
           (PortfolioPiece.dict_image_path added)
           (PortfolioPiece.dict_thumbnail_path added)
           (AsValue (JList []))
           (PortfolioPiece.dict_created_at added)
           (PortfolioPiece.dict_completed_at added)) /\
    (forall i,
        find (portfolio_storehouse.has_id i) (portfolio_pieces db) <> None ->
        fst (portfolio_storehouse.get_portfolio_piece F' i (stored s'))
        = fst (portfolio_storehouse.get_portfolio_piece F' i db)).
Proof.
  intros HM HF HC HR HQ'.
  destruct (add_portfolio_piece_run F fs now title description project_id
              status medium dimensions image_path db HM HF HC HR)
    as [s' [Hadd Hstored]].
  cbv zeta in Hadd, Hstored.
  set (piece := PortfolioPiece.mk _ _ _ _ _ _ _ _ _ _ _ _ _)
    in Hadd, Hstored.
  do 3 eexists. split; [ exact Hadd | ].
  do 6 (split; [ reflexivity | ]).
  split; [ | split ].
  - intros p Hp. now apply (next_id_above PortfolioPiece.id).
  - rewrite (get_portfolio_piece_run F' _ _ HQ'), Hstored.
    cbn [portfolio_storehouse.insert_piece portfolio_pieces].
    unfold portfolio_storehouse.has_id.
    cbn [PortfolioPiece.to_dict PortfolioPiece.dict_id].
    rewrite (find_appended PortfolioPiece.id (PortfolioPiece.id piece) piece
               (portfolio_pieces db) eq_refl eq_refl).
    reflexivity.
  - intros i Hi. rewrite !(get_portfolio_piece_run F' _ _ HQ'), Hstored.
    cbn [portfolio_storehouse.insert_piece portfolio_pieces].
    destruct (find (portfolio_storehouse.has_id i) (portfolio_pieces db))
      as [ old | ] eqn:E; [ | congruence ].
    now rewrite (find_app_some _ _ _ old E).
Qed.

Lemma added_piece_reads_back_witness :
  exists message added s',
    portfolio_storehouse.add_portfolio_piece no_faults Samples.disk 9%Z
      "Dunes" None None None (Some "oil"%string) None
      (Some "dunes.png"%string) Samples.portfolio
    = Returned (Success (message, added), s') /\
    PortfolioPiece.dict_status added = "sketch"%string /\
    PortfolioPiece.dict_progress_images added = AsText (JList []) /\
    exists read,
      fst (portfolio_storehouse.get_portfolio_piece no_faults
             (PortfolioPiece.dict_id added) (stored s'))
      = Success read /\
      PortfolioPiece.dict_progress_images read = AsValue (JList []) /\
      PortfolioPiece.dict_medium read = Some "oil"%string.
Proof.
  destruct (added_piece_reads_back no_faults no_faults Samples.disk 9%Z
              "Dunes" None None None (Some "oil"%string) None
              (Some "dunes.png"%string)
              Samples.portfolio eq_refl eq_refl eq_refl eq_refl eq_refl)
    as [message [added [s' [Hadd [_ [Hstatus [_ [Hmedium [_ [Himages
          [_ [Hget _]]]]]]]]]]]].
  exists message, added, s'. split; [ exact Hadd | ].
  split; [ exact Hstatus | ]. split; [ exact Himages | ].
  eexists. split; [ exact Hget | ].
  cbn [PortfolioPiece.dict_progress_images PortfolioPiece.dict_medium].
  split; [ reflexivity | exact Hmedium ].
Defined.

(** ** Deleting a piece *)

Lemma find_filter_out (i j : Z) (pieces : list PortfolioPiece.t) :
  find (portfolio_storehouse.has_id i)
       (filter (fun p => negb (portfolio_storehouse.has_id j p)) pieces)
  = if (i =? j)%Z then None
    else find (portfolio_storehouse.has_id i) pieces.
Proof.
  unfold portfolio_storehouse.has_id.
  induction pieces as [ | p pieces IH ]; simpl.
  - now destruct (i =? j)%Z.
  - destruct (PortfolioPiece.id p =? j)%Z eqn:Ej; simpl.
    + rewrite IH. destruct (i =? j)%Z eqn:Ei; [ reflexivity | ].
      destruct (PortfolioPiece.id p =? i)%Z eqn:Ep; [ | reflexivity ].
      apply Z.eqb_eq in Ej, Ep. apply Z.eqb_neq in Ei. lia.
    + destruct (PortfolioPiece.id p =? i)%Z eqn:Ep.
      * destruct (i =? j)%Z eqn:Ei; [ | reflexivity ].
        apply Z.eqb_eq in Ei, Ep. apply Z.eqb_neq in Ej. lia.
      * exact IH.
Qed.

Lemma delete_portfolio_piece_run (F : Faults) (removal : option Exn)
    (piece_id : Z) (delete_files : option bool) (db : DB)
    (piece : PortfolioPiece.t) :
  F QueryPiece = None -> F Commit = None ->
  find (portfolio_storehouse.has_id piece_id) (portfolio_pieces db)
  = Some piece ->
  (default false delete_files = true -> removal = None) ->
  let r :=
    portfolio_storehouse.delete_portfolio_piece F removal piece_id
      delete_files db in
  fst r = Success ("Deleted '" ++ PortfolioPiece.title piece
                   ++ "' from portfolio")%string
  /\ db_after r = portfolio_storehouse.remove_piece piece_id db.
Proof.
  intros HQ HC Hfind Hremoval. cbv zeta.
  assert (Hid := find_has_id PortfolioPiece.id piece_id piece
                   (portfolio_pieces db) Hfind).
  unfold portfolio_storehouse.delete_portfolio_piece,
    portfolio_storehouse.delete_portfolio_piece_try.
  run. rewrite HQ. simpl. rewrite Hfind. simpl.
  destruct (default false delete_files).
  - rewrite (Hremoval eq_refl). simpl. rewrite HC. simpl.
    rewrite Hid. split; reflexivity.
  - simpl. rewrite HC. simpl. rewrite Hid. split; reflexivity.
Qed.

(** X17.  [delete_portfolio_piece] on a piece that is there, when the
    query, the removal of the files and the commit go through: the piece
    is gone, [get_portfolio_piece] and a second [delete_portfolio_piece]
    answer "Portfolio piece not found", and every other id is answered as
    before.  When the files are to be deleted and their removal raises,
    the answer is that exception and the piece stays in the table. *)
Theorem deleted_piece_is_gone
    (F F' : Faults) (removal : option Exn) (piece_id : Z)
    (delete_files : option bool) (db : DB) (piece : PortfolioPiece.t) :
  F QueryPiece = None -> F Commit = None -> F' QueryPiece = None ->
  find (portfolio_storehouse.has_id piece_id) (portfolio_pieces db)
  = Some piece ->
  ((default false delete_files = true -> removal = None) ->
   let r :=
     portfolio_storehouse.delete_portfolio_piece F removal piece_id
       delete_files db in
   fst r = Success ("Deleted '" ++ PortfolioPiece.title piece
                    ++ "' from portfolio")%string /\
   fst (portfolio_storehouse.get_portfolio_piece F' piece_id (db_after r))
   = Failure "Portfolio piece not found"%string /\
   fst (portfolio_storehouse.delete_portfolio_piece F' removal piece_id
          delete_files (db_after r))
   = Failure "Portfolio piece not found"%string /\
   (forall i, i <> piece_id ->
              fst (portfolio_storehouse.get_portfolio_piece F' i (db_after r))
              = fst (portfolio_storehouse.get_portfolio_piece F' i db)))
  /\ (forall e,
        let r :=
          portfolio_storehouse.delete_portfolio_piece F (Some e) piece_id
            (Some true) db in
        fst r = Failure e /\ db_after r = db).
Proof.
  intros HQ HC HQ' Hfind. split.
  - intro Hremoval. cbv zeta.
    destruct (delete_portfolio_piece_run F removal piece_id delete_files db
                piece HQ HC Hfind Hremoval) as [Hfst Hdb].
    cbv zeta in Hfst, Hdb. rewrite Hdb.
    split; [ exact Hfst | ]. split; [ | split ].
    + rewrite (get_portfolio_piece_run F' _ _ HQ').
      cbn [portfolio_storehouse.remove_piece portfolio_pieces].
      now rewrite find_filter_out, Z.eqb_refl.
    + unfold portfolio_storehouse.delete_portfolio_piece,
        portfolio_storehouse.delete_portfolio_piece_try.
      run. rewrite HQ'. simpl.
      now rewrite find_filter_out, Z.eqb_refl.
    + intros i Hi. rewrite !(get_portfolio_piece_run F' _ _ HQ').
      cbn [portfolio_storehouse.remove_piece portfolio_pieces].
      rewrite find_filter_out.
      apply Z.eqb_neq in Hi. now rewrite Hi.
  - intro e. cbv zeta.
    unfold portfolio_storehouse.delete_portfolio_piece,
      portfolio_storehouse.delete_portfolio_piece_try.
    run. rewrite HQ. simpl. rewrite Hfind. simpl. split; reflexivity.
Qed.

Lemma deleted_piece_is_gone_witness :
  fst (portfolio_storehouse.delete_portfolio_piece no_faults None 1
         (Some true) Samples.portfolio_of_two)
  = Success "Deleted 'Study' from portfolio"%string
  /\ fst (portfolio_storehouse.get_portfolio_piece no_faults 1
            (db_after
               (portfolio_storehouse.delete_portfolio_piece no_faults None 1
                  (Some true) Samples.portfolio_of_two)))
     = Failure "Portfolio piece not found"%string
  /\ fst (portfolio_storehouse.delete_portfolio_piece no_faults
            (Some "Permission denied"%string) 1 (Some true)
            Samples.portfolio_of_two)
     = Failure "Permission denied"%string.
Proof.
  destruct (deleted_piece_is_gone no_faults no_faults None 1 (Some true)
              Samples.portfolio_of_two Samples.study
              eq_refl eq_refl eq_refl eq_refl) as [Hgone _].
  destruct (Hgone (fun _ => eq_refl)) as [Hdel [Hget _]].
  split; [ exact Hdel | ]. split; [ exact Hget | ].
  destruct (deleted_piece_is_gone no_faults no_faults
              (Some "Permission denied"%string) 1 (Some true)
              Samples.portfolio_of_two Samples.study
              eq_refl eq_refl eq_refl eq_refl) as [_ Hfails].
  exact (proj1 (Hfails "Permission denied"%string)).
Defined.

(** ** Style preferences by category *)

Lemma PyDict_set_NoDup {V} (k : string) (v : V) (d : PyDict.t V) :
  NoDup (PyDict.keys d) -> NoDup (PyDict.keys (PyDict.set k v d)).
Proof.
  induction d as [ | [k0 v0] d IH ]; simpl; intro H.
  - repeat constructor. simpl. tauto.
  - inversion H as [ | ? ? Hnotin Hd ]; subst.
    destruct (String.eqb k0 k) eqn:E; simpl.
    + now constructor.
    + constructor; [ | now apply IH ].
      change (~ In k0 (PyDict.keys (PyDict.set k v d))).
      rewrite PyDict_set_keys. apply String.eqb_neq in E. tauto.
Qed.

Lemma PyDict_get_In {V} (k : string) (v : V) (d : PyDict.t V) :
  PyDict.get k d = Some v -> In (k, v) d.
Proof.
  induction d as [ | [k0 v0] d IH ]; simpl; [ discriminate | ].
  destruct (String.eqb k0 k) eqn:E.
  - apply String.eqb_eq in E. intro H. inversion H; subst. now left.
  - intro H. right. now apply IH.
Qed.

Lemma PyDict_In_get {V} (k : string) (v : V) (d : PyDict.t V) :
  NoDup (PyDict.keys d) -> In (k, v) d -> PyDict.get k d = Some v.
Proof.
  induction d as [ | [k0 v0] d IH ]; simpl; [ tauto | ].
  intros Hnd [ H | H ].
  - inversion H; subst. now rewrite String.eqb_refl.
  - inversion Hnd as [ | ? ? Hnotin Hd ]; subst.
    destruct (String.eqb k0 k) eqn:E.
    + apply String.eqb_eq in E. subst k0. exfalso. apply Hnotin.
      unfold PyDict.keys. apply in_map_iff. now exists (k, v).
    + now apply IH.
Qed.

Lemma get_file_preference (k : string)
    (acc : PyDict.t (list pinterest_inspiration.preference_entry))
    (p : StylePreference.t) :
  PyDict.get k (pinterest_inspiration.file_preference acc p)
  = if String.eqb (StylePreference.category p) k
    then Some (default [] (PyDict.get k acc)
               ++ [pinterest_inspiration.entry_of p])
    else PyDict.get k acc.
Proof.
  unfold pinterest_inspiration.file_preference. cbv zeta.
  rewrite PyDict_get_set.
  destruct (String.eqb (StylePreference.category p) k) eqn:E.
  - apply String.eqb_eq in E. subst k.
    destruct (PyDict.get (StylePreference.category p) acc) eqn:G.
    + now rewrite G.
    + now rewrite PyDict_get_set, String.eqb_refl.
  - destruct (PyDict.get (StylePreference.category p) acc);
      [ reflexivity | ].
    now rewrite PyDict_get_set, E.
Qed.

Lemma organize_get (k : string) (preferences : list StylePreference.t)
    (acc : PyDict.t (list pinterest_inspiration.preference_entry)) :
  PyDict.get k (fold_left pinterest_inspiration.file_preference
                          preferences acc)
  = match PyDict.get k acc,
          pinterest_inspiration.in_category k preferences with
    | None, [] => None
    | o, l => Some (default [] o ++ map pinterest_inspiration.entry_of l)
    end.
Proof.
  revert acc. induction preferences as [ | p preferences IH ]; intro acc.
  - simpl. destruct (PyDict.get k acc); [ | reflexivity ].
    simpl. now rewrite app_nil_r.
  - cbn [fold_left]. rewrite IH, get_file_preference.
    unfold pinterest_inspiration.in_category. cbn [filter].
    destruct (String.eqb (StylePreference.category p) k).
    + cbn [map].
      destruct (PyDict.get k acc) as [ l | ]; cbn [default app].
      * rewrite <- app_assoc.
        now destruct (filter _ preferences).
      * now destruct (filter _ preferences).
    + reflexivity.
Qed.

Lemma file_preference_NoDup
    (acc : PyDict.t (list pinterest_inspiration.preference_entry))
    (p : StylePreference.t) :
  NoDup (PyDict.keys acc) ->
  NoDup (PyDict.keys (pinterest_inspiration.file_preference acc p)).
Proof.
  intro H. unfold pinterest_inspiration.file_preference. cbv zeta.
  apply PyDict_set_NoDup.
  destruct (PyDict.get (StylePreference.category p) acc);
    [ exact H | now apply PyDict_set_NoDup ].
Qed.

Lemma organize_NoDup (preferences : list StylePreference.t)
    (acc : PyDict.t (list pinterest_inspiration.preference_entry)) :
  NoDup (PyDict.keys acc) ->
  NoDup (PyDict.keys (fold_left pinterest_inspiration.file_preference
                                preferences acc)).
Proof.
  revert acc. induction preferences as [ | p preferences IH ];
    intros acc H; simpl; [ exact H | ].
  now apply IH, file_preference_NoDup.
Qed.

(** The number of entries in all the lists of a dictionary. *)
Lemma entries_set {V} (k : string) (v : list V) (d : PyDict.t (list V)) :
  (list_sum (map (fun item => length (snd item)) (PyDict.set k v d))
   + length (default [] (PyDict.get k d))
   = list_sum (map (fun item => length (snd item)) d) + length v)%nat.
Proof.
  induction d as [ | [k0 v0] d IH ]; simpl; [ lia | ].
  destruct (String.eqb k0 k); simpl; lia.
Qed.

Lemma entries_file_preference
    (acc : PyDict.t (list pinterest_inspiration.preference_entry))
    (p : StylePreference.t) :
  list_sum (map (fun item => length (snd item))
                (pinterest_inspiration.file_preference acc p))
  = S (list_sum (map (fun item => length (snd item)) acc)).
Proof.
  unfold pinterest_inspiration.file_preference. cbv zeta.
  set (c := StylePreference.category p).
  destruct (PyDict.get c acc) as [ l | ] eqn:G.
  - assert (H := entries_set c (default [] (Some l)
                                ++ [pinterest_inspiration.entry_of p]) acc).
    rewrite G in *. rewrite length_app in H. simpl in *. lia.
  - assert (H0 := entries_set c (@nil pinterest_inspiration.preference_entry)
                    acc).
    rewrite G in H0. simpl in H0.
    assert (G' : PyDict.get c (PyDict.set c [] acc)
                 = Some (@nil pinterest_inspiration.preference_entry)).
    { now rewrite PyDict_get_set, String.eqb_refl. }
    assert (H := entries_set c
                   (default [] (PyDict.get c (PyDict.set c [] acc))
                    ++ [pinterest_inspiration.entry_of p])
                   (PyDict.set c [] acc)).
    rewrite G' in H. simpl in H. rewrite G'. simpl. lia.
Qed.

Lemma entries_organize (preferences : list StylePreference.t)
    (acc : PyDict.t (list pinterest_inspiration.preference_entry)) :
  list_sum (map (fun item => length (snd item))
                (fold_left pinterest_inspiration.file_preference
                           preferences acc))
  = (list_sum (map (fun item => length (snd item)) acc)
     + length preferences)%nat.
Proof.
  revert acc. induction preferences as [ | p preferences IH ]; intro acc;
    simpl; [ lia | ].
  rewrite IH, entries_file_preference. lia.
Qed.

Lemma more_confident_first_before
    (a b : pinterest_inspiration.preference_entry) :
  pinterest_inspiration.more_confident_first a b = true ->
  pinterest_inspiration.entry_confidence b
  <= pinterest_inspiration.entry_confidence a.
Proof.
  unfold pinterest_inspiration.more_confident_first. apply Qle_bool_iff.
Qed.

Lemma more_confident_first_after
    (a b : pinterest_inspiration.preference_entry) :
  pinterest_inspiration.more_confident_first a b = false ->
  pinterest_inspiration.entry_confidence a
  <= pinterest_inspiration.entry_confidence b.
Proof.
  unfold pinterest_inspiration.more_confident_first. intro H.
  apply Qle_bool_false_iff in H. now apply Qlt_le_weak.
Qed.

(** X18.  When the query goes through, [analyze_style_preferences] files
    every stored preference under its category and nowhere else: the
    categories are keys without repetition, the list under a category
    holds the value, the confidence and the source of the preferences of
    that category and of no other, as many entries as there are such
    preferences and at least one, the most confident first; and
    "total_preferences" is the number of stored preferences, which is the
    number of entries in all the lists. *)
Theorem preferences_filed_by_category
    (F : Faults) (save_to_db : bool) (db : DB) :
  F QueryPreference = None ->
  exists organized,
    fst (pinterest_inspiration.analyze_style_preferences F save_to_db db)
    = Success (organized, length (style_preferences db)) /\
    NoDup (PyDict.keys organized) /\
    (forall p, In p (style_preferences db) ->
               In (StylePreference.category p) (PyDict.keys organized)) /\
    (forall category entries,
        In (category, entries) organized ->
        StronglySorted
          (fun a b => pinterest_inspiration.entry_confidence b
                      <= pinterest_inspiration.entry_confidence a)
          entries /\
        (forall e, In e entries <->
                   exists p, In p (style_preferences db) /\
                             StylePreference.category p = category /\
                             e = pinterest_inspiration.entry_of p) /\
        length entries
        = length (pinterest_inspiration.in_category category
                    (style_preferences db)) /\
        entries <> []) /\
    list_sum (map (fun item => length (snd item)) organized)
    = length (style_preferences db).
Proof.
  intro HQ.
  unfold pinterest_inspiration.analyze_style_preferences,
    pinterest_inspiration.analyze_style_preferences_try.
  run. rewrite HQ. simpl. rewrite filter_all.
  set (preferences := style_preferences db).
  eexists. split; [ reflexivity | ].
  assert (Hnd : NoDup (PyDict.keys
                         (pinterest_inspiration.organize preferences))).
  { apply organize_NoDup. constructor. }
  assert (Hget : forall k,
             PyDict.get k (pinterest_inspiration.organize preferences)
             = match pinterest_inspiration.in_category k preferences with
               | [] => None
               | l => Some (map pinterest_inspiration.entry_of l)
               end).
  { intro k. unfold pinterest_inspiration.organize.
    rewrite organize_get. simpl.
    now destruct (pinterest_inspiration.in_category k preferences). }
  assert (Hkeys : forall V W (f : string * V -> W) (d : PyDict.t V),
             PyDict.keys (map (fun item => (fst item, f item)) d)
             = PyDict.keys d).
  { intros V W f d. unfold PyDict.keys. rewrite map_map. reflexivity. }
  split; [ | split; [ | split ] ].
  - now rewrite Hkeys.
  - intros p Hp. rewrite Hkeys.
    assert (G := Hget (StylePreference.category p)).
    destruct (pinterest_inspiration.in_category (StylePreference.category p)
                preferences) as [ | q l ] eqn:E.
    + exfalso.
      assert (Hin : In p (pinterest_inspiration.in_category
                            (StylePreference.category p) preferences)).
      { apply filter_In. split; [ exact Hp | apply String.eqb_refl ]. }
      now rewrite E in Hin.
    + apply PyDict_get_In in G. unfold PyDict.keys. apply in_map_iff.
      eexists. split; [ | exact G ]. reflexivity.
  - intros category entries Hin. apply in_map_iff in Hin.
    destruct Hin as [[k raw] [E Hin]]. simpl in E.
    inversion E; subst; clear E.
    apply (PyDict_In_get _ _ _ Hnd) in Hin. rewrite Hget in Hin.
    assert (Hraw :
      raw = map pinterest_inspiration.entry_of
                (pinterest_inspiration.in_category category preferences)
      /\ raw <> []).
    { destruct (pinterest_inspiration.in_category category preferences)
        as [ | q l ]; [ discriminate | ].
      inversion Hin. split; [ reflexivity | discriminate ]. }
    clear Hin. destruct Hraw as [-> Hsome].
    split; [ | split; [ | split ] ].
    + apply order_by_sorted
        with (before := fun a b => pinterest_inspiration.entry_confidence b
                                   <= pinterest_inspiration.entry_confidence a).
      * intros x y z Hxy Hyz. now apply Qle_trans with
          (pinterest_inspiration.entry_confidence y).
      * apply more_confident_first_before.
      * apply more_confident_first_after.
    + intro e. rewrite In_order_by, in_map_iff.
      split.
      * intros [p [<- Hp]]. apply filter_In in Hp. destruct Hp as [Hp Hc].
        apply String.eqb_eq in Hc. now exists p.
      * intros [p [Hp [Hc ->]]]. exists p. split; [ reflexivity | ].
        apply filter_In. split; [ exact Hp | ]. now apply String.eqb_eq.
    + now rewrite length_order_by, length_map.
    + intro H. apply (f_equal (@length _)) in H.
      rewrite length_order_by in H. apply Hsome.
      now apply length_zero_iff_nil.
  - rewrite map_map. cbn [snd].
    assert (H := entries_organize preferences []). simpl in H.
    rewrite <- H. unfold pinterest_inspiration.organize.
    apply f_equal. apply map_ext. intros [k raw]. simpl.
    apply length_order_by.
Qed.

Lemma preferences_filed_by_category_witness :
  fst (pinterest_inspiration.analyze_style_preferences no_faults true
         Samples.tastes)
  = Success
      ([("mood"%string,
         [pinterest_inspiration.mk_entry "stormy" 0.8 "pinterest";
          pinterest_inspiration.mk_entry "serene" 0.5 "chat"]);
        ("subject"%string,
         [pinterest_inspiration.mk_entry "harbours" 0.6 "chat"])],
       3%nat).
Proof.
  destruct (preferences_filed_by_category no_faults true Samples.tastes
              eq_refl) as [organized [Hrun _]].
  reflexivity.
Defined.

(** ** The extension of an uploaded file *)

Lemma rsplit_dot_none (s : string) :
  Py.rsplit_dot s = None <-> ~ In "."%char (list_ascii_of_string s).
Proof.
  induction s as [ | c s IH ]; simpl.
  - tauto.
  - destruct (Py.rsplit_dot s) as [ [before after] | ].
    + split; [ discriminate | ]. intro H. exfalso.
      assert (N : ~ In "."%char (list_ascii_of_string s)) by tauto.
      apply IH in N. discriminate.
    + destruct (Ascii.eqb c ".") eqn:E.
      * apply Ascii.eqb_eq in E. split; [ discriminate | tauto ].
      * apply Ascii.eqb_neq in E. split; [ | reflexivity ].
        intros _ [ H | H ]; [ congruence | ]. now apply IH.
Qed.

Lemma rsplit_dot_some (s stem extension : string) :
  Py.rsplit_dot s = Some (stem, extension)
  <-> s = (stem ++ "." ++ extension)%string
      /\ ~ In "."%char (list_ascii_of_string extension).
Proof.
  revert stem. induction s as [ | c s IH ]; intro stem; simpl.
  - split; [ discriminate | ]. intros [H _]. destruct stem; discriminate.
  - destruct (Py.rsplit_dot s) as [ [b a] | ] eqn:R.
    + split.
      * intro H. inversion H; subst; clear H.
        destruct (proj1 (IH b) eq_refl) as [-> Hno]. split; [ reflexivity | exact Hno ].
      * intros [H Hno]. destruct stem as [ | d stem ]; simpl in H.
        -- inversion H; subst. apply rsplit_dot_none in Hno. congruence.
        -- inversion H; subst d.
           assert (E : Some (b, a) = Some (stem, extension)).
           { apply IH. split; assumption. }
           inversion E; subst. reflexivity.
    + assert (Hs := proj1 (rsplit_dot_none s) R).
      destruct (Ascii.eqb c ".") eqn:E.
      * apply Ascii.eqb_eq in E. subst c. split.
        -- intro H. inversion H; subst. split; [ reflexivity | exact Hs ].
        -- intros [H Hno]. destruct stem as [ | d stem ]; simpl in H.
           ++ inversion H; subst. reflexivity.
           ++ inversion H; subst. exfalso. apply Hs.
              apply In_chars_app. right. simpl. now left.
      * apply Ascii.eqb_neq in E. split; [ discriminate | ].
        intros [H Hno]. exfalso.
        destruct stem as [ | d stem ]; simpl in H.
        -- inversion H; subst. congruence.
        -- inversion H; subst. apply Hs.
           apply In_chars_app. right. simpl. now left.
Qed.

(** X19.  [_allowed_file] looks at nothing but the text after the last dot
    of the name: a name is allowed exactly when it is a stem, a dot and an
    extension without a dot which, in lower case, is one of png, jpg, jpeg,
    gif and webp.  The stem may be empty and may hold dots. *)
Theorem allowed_file_by_last_extension (filename : string) :
  portfolio_storehouse._allowed_file filename = true
  <-> exists stem extension,
        filename = (stem ++ "." ++ extension)%string /\
        ~ In "."%char (list_ascii_of_string extension) /\
        In (Py.lower extension) portfolio_storehouse.ALLOWED_EXTENSIONS.
Proof.
  unfold portfolio_storehouse._allowed_file. split.
  - intro H. apply andb_true_iff in H. destruct H as [_ H].
    destruct (Py.rsplit_dot filename) as [ [stem extension] | ] eqn:R;
      [ | discriminate ].
    apply rsplit_dot_some in R. destruct R as [-> Hno].
    exists stem, extension. split; [ reflexivity | ].
    split; [ exact Hno | ].
    apply existsb_exists in H. destruct H as [x [Hx E]].
    apply String.eqb_eq in E. now rewrite E.
  - intros [stem [extension [-> [Hno Hin]]]].
    apply andb_true_iff. split.
    + apply contains_spec. now exists stem, extension.
    + rewrite (proj2 (rsplit_dot_some _ stem extension)
                 (conj eq_refl Hno)).
      apply existsb_exists. exists (Py.lower extension).
      split; [ exact Hin | apply String.eqb_refl ].
Qed.

(** ** Inspiration without Pinterest *)

Lemma pad_inspiration_run (query : string) (limit : Z) (fuel : nat)
    (results : list pinterest_inspiration.inspiration) :
  (Z.to_nat limit - length results <= fuel)%nat ->
  exists generic,
    pinterest_inspiration.pad_inspiration fuel query limit results
    = Some (results ++ generic) /\
    length (results ++ generic)
    = Nat.max (length results) (Z.to_nat limit) /\
    Forall (fun g =>
              pinterest_inspiration.insp_description g
              = ("Curated inspiration for: " ++ query)%string /\
              pinterest_inspiration.style_tags g
              = ["inspiration"; "art"; "creative"]%string)
           generic /\
    ((limit <= Z.of_nat (length results))%Z -> generic = []).
Proof.
  revert results. induction fuel as [ | fuel IH ]; intros results Hfuel.
  - cbn [pinterest_inspiration.pad_inspiration].
    destruct (Z.of_nat (length results) <? limit)%Z eqn:E.
    + apply Z.ltb_lt in E. lia.
    + apply Z.ltb_ge in E. exists []. rewrite app_nil_r.
      repeat split; [ lia | constructor ].
  - cbn [pinterest_inspiration.pad_inspiration].
    destruct (Z.of_nat (length results) <? limit)%Z eqn:E.
    + apply Z.ltb_lt in E.
      match goal with
      | |- context [ pinterest_inspiration.pad_inspiration fuel query limit
                       (results ++ [?g]) ] =>
          destruct (IH (results ++ [g])) as [generic [Hrun [Hlen [Hall _]]]];
            [ rewrite length_app; simpl; lia | ];
            exists (g :: generic)
      end.
      rewrite <- app_assoc in Hrun, Hlen. cbn [app] in Hrun, Hlen.
      split; [ exact Hrun | ]. split; [ | split ].
      * rewrite Hlen, length_app. simpl. lia.
      * constructor; [ split; reflexivity | exact Hall ].
      * intro H. lia.
    + apply Z.ltb_ge in E. exists []. rewrite app_nil_r.
      repeat split; [ lia | constructor ].
Qed.

(** X20.  [_generate_mock_inspiration] ends after at most [limit] rounds
    of its loop.  Its results are the themed ones that the words of the
    query bring, then generic ones that repeat the query, cut at [limit]:
    exactly [limit] results when [limit] is not negative, and for a
    negative [limit] the themed results without the last [-limit] of
    them. *)
Theorem mock_inspiration_count (fuel : nat) (query : string) (limit : Z) :
  (Z.to_nat limit <= fuel)%nat ->
  let themed := pinterest_inspiration.themed_inspiration (Py.lower query) in
  exists generic results,
    pinterest_inspiration._generate_mock_inspiration fuel query limit
    = Some results /\
    results = Py.slice_to limit (themed ++ generic) /\
    Forall (fun g =>
              pinterest_inspiration.insp_description g
              = ("Curated inspiration for: " ++ query)%string /\
              pinterest_inspiration.style_tags g
              = ["inspiration"; "art"; "creative"]%string)
           generic /\
    ((0 <= limit)%Z -> length results = Z.to_nat limit) /\
    ((limit < 0)%Z ->
     results = firstn (length themed - Z.to_nat (- limit)) themed).
Proof.
  intro Hfuel. cbv zeta.
  unfold pinterest_inspiration._generate_mock_inspiration.
  set (themed := pinterest_inspiration.themed_inspiration (Py.lower query)).
  destruct (pad_inspiration_run query limit fuel themed)
    as [generic [Hrun [Hlen [Hall Hnone]]]]; [ lia | ].
  rewrite Hrun. exists generic. eexists. split; [ reflexivity | ].
  split; [ reflexivity | ]. split; [ exact Hall | ]. split.
  - intro Hpos. unfold Py.slice_to.
    destruct (limit <? 0)%Z eqn:E; [ apply Z.ltb_lt in E; lia | ].
    rewrite length_firstn, Hlen. lia.
  - intro Hneg. rewrite (Hnone ltac:(lia)), app_nil_r.
    unfold Py.slice_to.
    destruct (limit <? 0)%Z eqn:E; [ | apply Z.ltb_ge in E; lia ].
    f_equal. lia.
Qed.

Lemma mock_inspiration_count_witness :
  exists results,
    pinterest_inspiration._generate_mock_inspiration 3 "Watercolor dunes" 3
    = Some results /\
    length results = 3%nat /\
    map pinterest_inspiration.insp_title results
    = ["Loose Watercolor Landscape"; "Watercolor Sunset Study";
       "Art Inspiration #3"]%string.
Proof.
  destruct (mock_inspiration_count 3 "Watercolor dunes" 3 ltac:(simpl; lia))
    as [generic [results [Hrun [_ [_ [Hlen _]]]]]].
  exists results. split; [ exact Hrun | ].
  split; [ apply Hlen; lia | ].
  vm_compute in Hrun. inversion Hrun. reflexivity.
Defined.

(** ** Functions that only read *)

Lemma reads_ret {A} (a : A) : reads (ret a).
Proof. intro s. reflexivity. Qed.

Lemma reads_raise {A} (e : Exn) : reads (@raise A e).
Proof. intro s. reflexivity. Qed.

Lemma reads_external (F : Faults) (c : Site) : reads (external F c).
Proof. intro s. unfold external. now destruct (F c). Qed.

Lemma reads_bind {A B} (m : M A) (k : A -> M B) :
  reads m -> (forall a, reads (k a)) -> reads (bind m k).
Proof.
  intros Hm Hk s. unfold bind. specialize (Hm s).
  destruct (m s) as [[ a | e ] s1]; simpl in Hm; subst s1.
  - apply Hk.
  - reflexivity.
Qed.

Lemma reads_query_first {R} (F : Faults) (c : Site) (table : DB -> list R)
    (p : R -> bool) :
  reads (query_first F c table p).
Proof.
  apply reads_bind; [ apply reads_external | ]. intros _ s. reflexivity.
Qed.

Lemma reads_query_all {R} (F : Faults) (c : Site) (table : DB -> list R)
    (p : R -> bool) :
  reads (query_all F c table p).
Proof.
  apply reads_bind; [ apply reads_external | ]. intros _ s. reflexivity.
Qed.

Lemma reads_group_by_status (rows : list Supply.t)
    (supply_list : list Supply.dict)
    (grouped : PyDict.t (list Supply.dict)) :
  reads (supply_inventory.group_by_status rows supply_list grouped).
Proof.
  revert supply_list grouped.
  induction rows as [ | supply rows IH ]; intros supply_list grouped;
    cbn [supply_inventory.group_by_status]; cbv zeta.
  - apply reads_ret.
  - destruct (PyDict.get (Supply.status (Supply.to_dict supply)) grouped);
      [ apply IH | apply reads_raise ].
Qed.

Lemma reads_group_size (status : string)
    (grouped : PyDict.t (list Supply.dict)) :
  reads (supply_inventory.group_size status grouped).
Proof.
  unfold supply_inventory.group_size.
  destruct (PyDict.get status grouped);
    [ apply reads_ret | apply reads_raise ].
Qed.

Lemma try_close_reads {A} (body : M (Response A)) (s : Session) :
  reads body -> snd (try_close body s) = db_close s.
Proof.
  intro H. unfold try_close. specialize (H s).
  destruct (body s) as [[ r | e ] s1]; simpl in *; now subst s1.
Qed.

Create HintDb reads.

#[export] Hint Resolve reads_ret reads_raise reads_external
  reads_query_first reads_query_all reads_group_by_status reads_group_size
  : reads.

Ltac reads :=
  repeat first
    [ solve [ auto with reads ]
    | progress cbv beta zeta
    | apply reads_bind; [ | intro ]
    | match goal with
      | |- reads (match ?x with _ => _ end) => destruct x
      | |- reads (if ?x then _ else _) => destruct x
      end ].

(** X21.  The functions that list or look up do nothing to the session
    but close it, whatever they find and whichever call raises: after
    [get_all_supplies], [get_supplies_for_project], [get_project],
    [get_all_projects], [get_portfolio_piece] and
    [analyze_style_preferences] the database is the one before, nothing
    was committed and nothing rolled back. *)
Theorem readers_only_close :
  (forall F category db,
      snd (supply_inventory.get_all_supplies F category db)
      = db_close (SessionLocal db)) /\
  (forall F medium style db,
      snd (supply_inventory.get_supplies_for_project F medium style db)
      = db_close (SessionLocal db)) /\
  (forall F project_id db,
      snd (project_filesaver.get_project F project_id db)
      = db_close (SessionLocal db)) /\
  (forall F status limit db,
      snd (project_filesaver.get_all_projects F status limit db)
      = db_close (SessionLocal db)) /\
  (forall F piece_id db,
      snd (portfolio_storehouse.get_portfolio_piece F piece_id db)
      = db_close (SessionLocal db)) /\
  (forall F save_to_db db,
      snd (pinterest_inspiration.analyze_style_preferences F save_to_db db)
      = db_close (SessionLocal db)).
Proof.
  repeat split; intros.
  - apply try_close_reads.
    unfold supply_inventory.get_all_supplies_try. reads.
  - apply try_close_reads.
    unfold supply_inventory.get_supplies_for_project_try. reads.
  - apply try_close_reads.
    unfold project_filesaver.get_project_try. reads.
  - apply try_close_reads.
    unfold project_filesaver.get_all_projects_try. reads.
  - apply try_close_reads.
    unfold portfolio_storehouse.get_portfolio_piece_try. reads.
  - apply try_close_reads.
    unfold pinterest_inspiration.analyze_style_preferences_try. reads.
Qed.

(** ** Writes that fail *)

(** X22.  When [create_project], [add_session_notes],
    [add_portfolio_piece] or [delete_portfolio_piece] answers with a
    failure, the database is the one before the call, provided the refresh
    after the commit does not raise; [delete_portfolio_piece] has no
    refresh, so there it holds without condition.  When the commit of
    [create_project] goes through and the refresh raises, the answer is
    the failure with the text of the exception, and the project is
    stored all the same. *)
Theorem failed_write_stores_nothing :
  (forall F now title description medium style estimated_budget
          materials_list steps notes db,
      F Refresh = None ->
      let r :=
        project_filesaver.create_project F now title description medium
          style estimated_budget materials_list steps notes db in
      success (fst r) = false -> db_after r = db) /\
  (forall F now timestamp project_id notes db,
      F Refresh = None ->
      let r :=
        project_filesaver.add_session_notes F now timestamp project_id notes
          db in
      success (fst r) = false -> db_after r = db) /\
  (forall F fs now title description project_id status medium dimensions
          image_path db r,
      F Refresh = None ->
      portfolio_storehouse.add_portfolio_piece F fs now title description
        project_id status medium dimensions image_path db = Returned r ->
      success (fst r) = false -> db_after r = db) /\
  (forall F removal piece_id delete_files db,
      let r :=
        portfolio_storehouse.delete_portfolio_piece F removal piece_id
          delete_files db in
      success (fst r) = false -> db_after r = db) /\
  (forall F e now title description medium style estimated_budget
          materials_list steps notes db,
      F Commit = None -> F Refresh = Some e ->
      let r :=
        project_filesaver.create_project F now title description medium
          style estimated_budget materials_list steps notes db in
      fst r = Failure e /\
      exists project,
        Project.title project = title /\
        projects (db_after r) = projects db ++ [project]).
Proof.
  split; [ | split; [ | split; [ | split ] ] ].
  - intros F now title description medium style estimated_budget
      materials_list steps notes db HR. cbv zeta.
    unfold project_filesaver.create_project,
      project_filesaver.create_project_try.
    run. destruct (F Commit); simpl; [ reflexivity | ].
    rewrite HR. simpl. discriminate.
  - intros F now timestamp project_id notes db HR. cbv zeta.
    unfold project_filesaver.add_session_notes,
      project_filesaver.add_session_notes_try.
    run. destruct (F QueryProject); simpl; [ reflexivity | ].
    destruct (find (project_filesaver.has_id project_id) (projects db));
      simpl; [ | reflexivity ].
    destruct (F Commit); simpl; [ reflexivity | ].
    rewrite HR. simpl. discriminate.
  - intros F fs now title description project_id status medium dimensions
      image_path db r HR.
    unfold portfolio_storehouse.add_portfolio_piece,
      portfolio_storehouse.add_portfolio_piece_try,
      portfolio_storehouse._ensure_portfolio_dir.
    run. destruct (F Makedirs); simpl; [ discriminate | ].
    destruct (Py.truthy image_path
              && path_exists fs (default ""%string image_path)); simpl.
    + destruct (F CopyFile); simpl;
        [ intro H; inversion H; reflexivity | ].
      destruct (F Commit); simpl; [ intro H; inversion H; reflexivity | ].
      rewrite HR. simpl. intro H. inversion H. discriminate.
    + destruct (F Commit); simpl; [ intro H; inversion H; reflexivity | ].
      rewrite HR. simpl. intro H. inversion H. discriminate.
  - intros F removal piece_id delete_files db. cbv zeta.
    unfold portfolio_storehouse.delete_portfolio_piece,
      portfolio_storehouse.delete_portfolio_piece_try.
    run. destruct (F QueryPiece); simpl; [ reflexivity | ].
    destruct (find (portfolio_storehouse.has_id piece_id)
                (portfolio_pieces db)); simpl; [ | reflexivity ].
    destruct (default false delete_files); simpl.
    + destruct removal; simpl; [ reflexivity | ].
      destruct (F Commit); simpl; [ reflexivity | discriminate ].
    + destruct (F Commit); simpl; [ reflexivity | discriminate ].
  - intros F e now title description medium style estimated_budget
      materials_list steps notes db HC HR. cbv zeta.
    unfold project_filesaver.create_project,
      project_filesaver.create_project_try.
    run. rewrite HC. simpl. rewrite HR. simpl.
    split; [ reflexivity | ]. eexists. split; [ | reflexivity ].
    reflexivity.
Qed.

Lemma failed_write_stores_nothing_witness :
  fst (project_filesaver.create_project Samples.refresh_fails 5%Z "Irises"
         None None None None None None None Samples.plans)
  = Failure "connection lost"%string
  /\ exists project,
       Project.title project = "Irises"%string /\
       projects
         (db_after
            (project_filesaver.create_project Samples.refresh_fails 5%Z
               "Irises" None None None None None None None Samples.plans))
       = projects Samples.plans ++ [project].
Proof.
  destruct failed_write_stores_nothing as [_ [_ [_ [_ H]]]].
  exact (H Samples.refresh_fails "connection lost"%string 5%Z
           "Irises"%string None None None None None None None Samples.plans
           eq_refl eq_refl).
Defined.

(** ** The projects on the dashboard *)

Lemma filter_firstn_le {A} (p : A -> bool) (n : nat) (l : list A) :
  (length (filter p (firstn n l)) <= length (filter p l))%nat.
Proof.
  revert n. induction l as [ | x l IH ]; intros [ | n ]; simpl; try lia.
  specialize (IH n). destruct (p x); simpl; lia.
Qed.

Lemma filter_project_dicts (status : string) (rows : list Project.t) :
  length (filter (fun d => String.eqb (Project.dict_status d) status)
                 (map Project.to_dict rows))
  = length (filter (fun p => String.eqb (Project.status p) status) rows).
Proof.
  induction rows as [ | p rows IH ]; simpl; [ reflexivity | ].
  destruct (String.eqb (Project.status p) status); simpl; now rewrite IH.
Qed.

Lemma get_all_projects_run (F : Faults) (status : option string)
    (limit : option nat) (db : DB) :
  F QueryProject = None ->
  let rows :=
    firstn (default 50%nat limit)
      (order_by project_filesaver.latest_first
         (filter (fun p => if Py.truthy status
                           then String.eqb (Project.status p)
                                           (default ""%string status)
                           else true)
                 (projects db))) in
  fst (project_filesaver.get_all_projects F status limit db)
  = Success (length rows, map Project.to_dict rows).
Proof.
  intro HQ. cbv zeta.
  unfold project_filesaver.get_all_projects,
    project_filesaver.get_all_projects_try.
  run. rewrite HQ. reflexivity.
Qed.

Lemma Permutation_insert_row {R} (leb : R -> R -> bool) (x : R)
    (l : list R) :
  Permutation (x :: l) (insert_row leb x l).
Proof.
  induction l as [ | y l IH ]; simpl; [ apply Permutation_refl | ].
  destruct (leb x y); [ apply Permutation_refl | ].
  apply perm_trans with (y :: x :: l); [ apply perm_swap | ].
  now apply perm_skip.
Qed.

Lemma Permutation_order_by {R} (leb : R -> R -> bool) (l : list R) :
  Permutation l (order_by leb l).
Proof.
  induction l as [ | x l IH ]; simpl; [ apply perm_nil | ].
  apply perm_trans with (x :: order_by leb l);
    [ now apply perm_skip | apply Permutation_insert_row ].
Qed.

Lemma StronglySorted_across {A} (before : A -> A -> Prop) (l1 l2 : list A) :
  StronglySorted before (l1 ++ l2) ->
  forall a b, In a l1 -> In b l2 -> before a b.
Proof.
  induction l1 as [ | x l1 IH ]; simpl; intros Hs a b Ha Hb; [ tauto | ].
  inversion Hs as [ | ? ? Hs' Hall ]; subst.
  destruct Ha as [ <- | Ha ].
  - rewrite Forall_forall in Hall. apply Hall. apply in_or_app. now right.
  - now apply IH.
Qed.

(** X24.  The dashboard of [api_dashboard] asks [get_all_projects] without
    a limit of its own, so it sees the 50 projects updated last: the
    projects it is given are, latest first, 50 of the table or all when
    there are fewer, and none of those left out was updated after one of
    those given.  Its total is their number, and its count of active
    projects, those given with the status "in_progress", is the number of
    such projects among them: it never exceeds the number of such projects
    in the table and is that number when the table holds no more than 50
    projects. *)
Theorem dashboard_counts_recent_projects (F : Faults) (db : DB) :
  F QueryProject = None ->
  let active_in (rows : list Project.t) :=
    length (filter (fun p => String.eqb (Project.status p) "in_progress")
                   rows) in
  exists total dicts kept dropped,
    fst (project_filesaver.get_all_projects F None None db)
    = Success (total, dicts) /\
    Permutation (projects db) (kept ++ dropped) /\
    dicts = map Project.to_dict kept /\
    StronglySorted
      (fun a b => (Project.updated_at b <= Project.updated_at a)%Z) kept /\
    (forall k d, In k kept -> In d dropped ->
                 (Project.updated_at d <= Project.updated_at k)%Z) /\
    total = length kept /\
    total = Nat.min 50 (length (projects db)) /\
    let active :=
      length (filter (fun d => String.eqb (Project.dict_status d)
                                          "in_progress") dicts) in
    active = active_in kept /\
    (active <= active_in (projects db))%nat /\
    ((length (projects db) <= 50)%nat ->
     dropped = [] /\ active = active_in (projects db)).
Proof.
  intro HQ. cbv zeta.
  rewrite (get_all_projects_run F None None db HQ). cbv zeta.
  cbn [Py.truthy default]. rewrite filter_all.
  set (sorted := order_by project_filesaver.latest_first (projects db)).
  assert (Hsorted :
    StronglySorted
      (fun a b => (Project.updated_at b <= Project.updated_at a)%Z) sorted).
  { apply order_by_sorted.
    - intros x y z. lia.
    - apply latest_first_before.
    - apply latest_first_after. }
  exists (length (firstn 50 sorted)), (map Project.to_dict (firstn 50 sorted)),
    (firstn 50 sorted), (skipn 50 sorted).
  split; [ reflexivity | ].
  split.
  { rewrite firstn_skipn. apply Permutation_order_by. }
  split; [ reflexivity | ].
  split; [ now apply StronglySorted_firstn | ].
  split.
  { apply (StronglySorted_across
             (fun a b => (Project.updated_at b <= Project.updated_at a)%Z)).
    now rewrite firstn_skipn. }
  split; [ reflexivity | ].
  split.
  { rewrite length_firstn. unfold sorted. now rewrite length_order_by. }
  rewrite filter_project_dicts.
  split; [ reflexivity | ]. split.
  - rewrite <- (filter_order_by project_filesaver.latest_first
                  (fun p => String.eqb (Project.status p) "in_progress")
                  (projects db)).
    apply filter_firstn_le.
  - intro Hle.
    assert (Hlen : (length sorted <= 50)%nat)
      by (unfold sorted; now rewrite length_order_by).
    split; [ now apply skipn_all2 | ].
    rewrite firstn_all2; [ apply filter_order_by | exact Hlen ].
Qed.

Lemma dashboard_counts_recent_projects_witness :
  exists total dicts,
    fst (project_filesaver.get_all_projects no_faults None None
           Samples.plans_and_irises)
    = Success (total, dicts) /\
    total = 2%nat /\
    length (filter (fun d => String.eqb (Project.dict_status d)
                                        "in_progress") dicts)
    = 1%nat.
Proof.
  destruct (dashboard_counts_recent_projects no_faults
              Samples.plans_and_irises eq_refl)
    as [total [dicts [kept [dropped
         [Hrun [_ [_ [_ [_ [_ [Htotal [_ [_ Hactive]]]]]]]]]]]]].
  exists total, dicts. split; [ exact Hrun | ].
  split; [ exact Htotal | ].
  apply Hactive. simpl. lia.
Defined.

(** * Every store function *)

(** ** The blocks commit or store nothing *)

Lemma transactional_group_by_status (rows : list Supply.t)
    (supply_list : list Supply.dict)
    (grouped : PyDict.t (list Supply.dict)) :
  transactional (supply_inventory.group_by_status rows supply_list grouped).
Proof.
  revert supply_list grouped.
  induction rows as [ | supply rows IH ]; intros supply_list grouped;
    cbn [supply_inventory.group_by_status]; cbv zeta.
  - apply transactional_ret.
  - destruct (PyDict.get (Supply.status (Supply.to_dict supply)) grouped);
      [ apply IH | apply transactional_raise ].
Qed.

Lemma transactional_group_size (status : string)
    (grouped : PyDict.t (list Supply.dict)) :
  transactional (supply_inventory.group_size status grouped).
Proof.
  unfold supply_inventory.group_size.
  destruct (PyDict.get status grouped);
    [ apply transactional_ret | apply transactional_raise ].
Qed.

Lemma transactional_piece_group_size {V} (status : string)
    (grouped : PyDict.t (list V)) :
  transactional (portfolio_storehouse.group_size status grouped).
Proof.
  unfold portfolio_storehouse.group_size.
  destruct (PyDict.get status grouped);
    [ apply transactional_ret | apply transactional_raise ].
Qed.

Lemma reads_piece_group_size {V} (status : string)
    (grouped : PyDict.t (list V)) :
  reads (portfolio_storehouse.group_size status grouped).
Proof.
  unfold portfolio_storehouse.group_size.
  destruct (PyDict.get status grouped);
    [ apply reads_ret | apply reads_raise ].
Qed.

#[export] Hint Resolve transactional_group_by_status
  transactional_group_size transactional_piece_group_size : transactional.

#[export] Hint Resolve reads_piece_group_size : reads.

Lemma transactional_get_all_supplies F category :
  transactional (supply_inventory.get_all_supplies_try F category).
Proof. unfold supply_inventory.get_all_supplies_try. transactional. Qed.

Lemma transactional_search_supplies F query :
  transactional (supply_inventory.search_supplies_try F query).
Proof. unfold supply_inventory.search_supplies_try. transactional. Qed.

Lemma transactional_get_supplies_for_project F medium style :
  transactional (supply_inventory.get_supplies_for_project_try F medium
                   style).
Proof.
  unfold supply_inventory.get_supplies_for_project_try. transactional.
Qed.

Lemma transactional_get_all_projects F status limit :
  transactional (project_filesaver.get_all_projects_try F status limit).
Proof. unfold project_filesaver.get_all_projects_try. transactional. Qed.

Lemma transactional_get_project F project_id :
  transactional (project_filesaver.get_project_try F project_id).
Proof. unfold project_filesaver.get_project_try. transactional. Qed.

Lemma transactional_create_project F now title description medium style
    estimated_budget materials_list steps notes :
  transactional (project_filesaver.create_project_try F now title description
                   medium style estimated_budget materials_list steps notes).
Proof. unfold project_filesaver.create_project_try. transactional. Qed.

Lemma transactional_add_session_notes F now timestamp project_id notes :
  transactional (project_filesaver.add_session_notes_try F now timestamp
                   project_id notes).
Proof. unfold project_filesaver.add_session_notes_try. transactional. Qed.

Lemma transactional_save_project_to_file F isalnum now timestamp
    materials_error steps_error project_id :
  transactional (project_filesaver.save_project_to_file_try F isalnum now
                   timestamp materials_error steps_error project_id).
Proof.
  unfold project_filesaver.save_project_to_file_try. transactional.
Qed.

Lemma transactional_get_portfolio F status medium limit :
  transactional (portfolio_storehouse.get_portfolio_try F status medium
                   limit).
Proof. unfold portfolio_storehouse.get_portfolio_try. transactional. Qed.

Lemma transactional_get_portfolio_piece F piece_id :
  transactional (portfolio_storehouse.get_portfolio_piece_try F piece_id).
Proof.
  unfold portfolio_storehouse.get_portfolio_piece_try. transactional.
Qed.

Lemma transactional_get_portfolio_stats F :
  transactional (portfolio_storehouse.get_portfolio_stats_try F).
Proof.
  unfold portfolio_storehouse.get_portfolio_stats_try. transactional.
Qed.

Lemma transactional_add_portfolio_piece F fs now title description
    project_id status medium dimensions image_path :
  transactional (portfolio_storehouse.add_portfolio_piece_try F fs now title
                   description project_id status medium dimensions
                   image_path).
Proof.
  unfold portfolio_storehouse.add_portfolio_piece_try. transactional.
Qed.

Lemma transactional_delete_portfolio_piece F removal piece_id delete_files :
  transactional (portfolio_storehouse.delete_portfolio_piece_try F removal
                   piece_id delete_files).
Proof.
  unfold portfolio_storehouse.delete_portfolio_piece_try. transactional.
Qed.

Lemma transactional_analyze_style_preferences F save_to_db :
  transactional (pinterest_inspiration.analyze_style_preferences_try F
                   save_to_db).
Proof.
  unfold pinterest_inspiration.analyze_style_preferences_try. transactional.
Qed.

(** ** The functions that only read store nothing *)

Lemma reads_stores_nothing {A} (body : M (Response A)) (db : DB) :
  reads body -> db_after (try_close body (SessionLocal db)) = db.
Proof.
  intro H. unfold db_after. now rewrite (try_close_reads body _ H).
Qed.

Lemma get_all_supplies_reads (F : Faults) (category : option string)
    (db : DB) :
  db_after (supply_inventory.get_all_supplies F category db) = db.
Proof.
  apply reads_stores_nothing.
  unfold supply_inventory.get_all_supplies_try. reads.
Qed.

Lemma search_supplies_reads (F : Faults) (query : string) (db : DB) :
  db_after (supply_inventory.search_supplies F query db) = db.
Proof.
  apply reads_stores_nothing.
  unfold supply_inventory.search_supplies_try. reads.
Qed.

Lemma get_supplies_for_project_reads (F : Faults) (medium : string)
    (style : option string) (db : DB) :
  db_after (supply_inventory.get_supplies_for_project F medium style db) = db.
Proof.
  apply reads_stores_nothing.
  unfold supply_inventory.get_supplies_for_project_try. reads.
Qed.

Lemma get_all_projects_reads (F : Faults) (status : option string)
    (limit : option nat) (db : DB) :
  db_after (project_filesaver.get_all_projects F status limit db) = db.
Proof.
  apply reads_stores_nothing.
  unfold project_filesaver.get_all_projects_try. reads.
Qed.

Lemma get_project_reads (F : Faults) (project_id : Z) (db : DB) :
  db_after (project_filesaver.get_project F project_id db) = db.
Proof.
  apply reads_stores_nothing.
  unfold project_filesaver.get_project_try. reads.
Qed.

Lemma get_portfolio_reads (F : Faults) (status medium : option string)
    (limit : option nat) (db : DB) :
  db_after (portfolio_storehouse.get_portfolio F status medium limit db) = db.
Proof.
  apply reads_stores_nothing.
  unfold portfolio_storehouse.get_portfolio_try. reads.
Qed.

Lemma get_portfolio_piece_reads (F : Faults) (piece_id : Z) (db : DB) :
  db_after (portfolio_storehouse.get_portfolio_piece F piece_id db) = db.
Proof.
  apply reads_stores_nothing.
  unfold portfolio_storehouse.get_portfolio_piece_try. reads.
Qed.

Lemma get_portfolio_stats_reads (F : Faults) (db : DB) :
  db_after (portfolio_storehouse.get_portfolio_stats F db) = db.
Proof.
  apply reads_stores_nothing.
  unfold portfolio_storehouse.get_portfolio_stats_try. reads.
Qed.

Lemma analyze_style_preferences_reads (F : Faults) (save_to_db : bool)
    (db : DB) :
  db_after (pinterest_inspiration.analyze_style_preferences F save_to_db db)
  = db.
Proof.
  apply reads_stores_nothing.
  unfold pinterest_inspiration.analyze_style_preferences_try. reads.
Qed.

(** ** Exceptions *)

Lemma frame_entered {A} (body : M (Response A)) (db : DB) :
  transactional body ->
  forall e s1,
    body (SessionLocal db) = (Raised e, s1) ->
    try_rollback_close body (SessionLocal db)
    = (Failure e, db_close (db_rollback s1)) /\
    (~ In DidCommit (journal s1) -> stored s1 = db).
Proof.
  intros Ht e s1 Hrun. split.
  - unfold try_rollback_close. now rewrite Hrun.
  - apply (raised_before_commit body db e s1 Ht Hrun).
Qed.

(** C8, as amended.  Every store function is a try frame around a block of
    session operations: the nine functions that write and the twelve that
    only read are their frame around their block for every database, and
    [add_progress_image], [add_portfolio_piece] and [save_project_to_file]
    are once the directories are made (and, in the first, the image is
    found).  When the block raises, the function returns the failure object
    that carries the text of the exception; a function that writes rolls
    the session back and closes it, a function that only reads closes it;
    and the stored database is the one before the call whenever the
    exception came before a commit, as it does when the query or the
    commit itself raises.  The functions that only read leave the database
    as it was in every case.  A supply, project or piece that is not there
    gives the same failure object, with a fixed message, in every function
    that looks one up. *)
Theorem exceptions_become_failures :
  (forall A (f : DB -> Response A * Session) (body : M (Response A)),
      framed_by try_rollback_close f body ->
      forall db e s1,
        body (SessionLocal db) = (Raised e, s1) ->
        f db = (Failure e, db_close (db_rollback s1)) /\
        journal (snd (f db)) = journal s1 ++ [DidRollback; DidClose] /\
        (~ In DidCommit (journal s1) -> db_after (f db) = db)) /\
  (forall A (f : DB -> Response A * Session) (body : M (Response A)),
      framed_by try_close f body ->
      forall db e s1,
        body (SessionLocal db) = (Raised e, s1) ->
        f db = (Failure e, db_close s1) /\
        journal (snd (f db)) = journal s1 ++ [DidClose] /\
        (~ In DidCommit (journal s1) -> db_after (f db) = db)) /\
  (forall F now name category brand color size quantity unit notes,
      framed_by try_rollback_close
        (supply_inventory.add_supply F now name category brand color size
          quantity unit notes)
        (supply_inventory.add_supply_try F now name category brand color size
          quantity unit notes)) /\
  (forall F now supply_id name quantity notes kw,
      framed_by try_rollback_close
        (supply_inventory.update_supply F now supply_id name quantity notes
          kw)
        (supply_inventory.update_supply_try F now supply_id name quantity
          notes kw)) /\
  (forall F now supply_id amount_used project_id,
      framed_by try_rollback_close
        (supply_inventory.use_supply F now supply_id amount_used project_id)
        (supply_inventory.use_supply_try F now supply_id amount_used
          project_id)) /\
  (forall F now title description medium style estimated_budget materials_list
          steps notes,
      framed_by try_rollback_close
        (project_filesaver.create_project F now title description medium style
          estimated_budget materials_list steps notes)
        (project_filesaver.create_project_try F now title description medium
          style estimated_budget materials_list steps notes)) /\
  (forall F now project_id title description status materials_list steps notes
          actual_budget kw,
      framed_by try_rollback_close
        (project_filesaver.update_project F now project_id title description
          status materials_list steps notes actual_budget kw)
        (project_filesaver.update_project_try F now project_id title
          description status materials_list steps notes actual_budget kw)) /\
  (forall F now timestamp project_id notes,
      framed_by try_rollback_close
        (project_filesaver.add_session_notes F now timestamp project_id notes)
        (project_filesaver.add_session_notes_try F now timestamp project_id
          notes)) /\
  (forall F fs now piece_id title description status image_path kw,
      framed_by try_rollback_close
        (portfolio_storehouse.update_portfolio_piece F fs now piece_id title
          description status image_path kw)
        (portfolio_storehouse.update_portfolio_piece_try F fs now piece_id
          title description status image_path kw)) /\
  (forall F removal piece_id delete_files,
      framed_by try_rollback_close
        (portfolio_storehouse.delete_portfolio_piece F removal piece_id
          delete_files)
        (portfolio_storehouse.delete_portfolio_piece_try F removal piece_id
          (default false delete_files))) /\
  (forall F category value confidence source,
      framed_by try_rollback_close
        (pinterest_inspiration.save_style_preference F category value
          confidence source)
        (pinterest_inspiration.save_style_preference_try F category value
          confidence source)) /\
  (forall F category,
      framed_by try_close
        (supply_inventory.get_all_supplies F category)
        (supply_inventory.get_all_supplies_try F category) /\
      forall db,
        db_after (supply_inventory.get_all_supplies F category db) = db) /\
  (forall F supply_id,
      framed_by try_close
        (supply_inventory.get_supply_by_id F supply_id)
        (supply_inventory.get_supply_by_id_try F supply_id) /\
      forall db,
        db_after (supply_inventory.get_supply_by_id F supply_id db) = db) /\
  (forall F threshold,
      framed_by try_close
        (supply_inventory.get_low_stock_supplies F threshold)
        (supply_inventory.get_low_stock_supplies_try F threshold) /\
      forall db,
        db_after (supply_inventory.get_low_stock_supplies F threshold db)
        = db) /\
  (forall F query,
      framed_by try_close
        (supply_inventory.search_supplies F query)
        (supply_inventory.search_supplies_try F query) /\
      forall db,
        db_after (supply_inventory.search_supplies F query db) = db) /\
  (forall F medium style,
      framed_by try_close
        (supply_inventory.get_supplies_for_project F medium style)
        (supply_inventory.get_supplies_for_project_try F medium style) /\
      forall db,
        db_after (supply_inventory.get_supplies_for_project F medium style db)
          = db) /\
  (forall F status limit,
      framed_by try_close
        (project_filesaver.get_all_projects F status limit)
        (project_filesaver.get_all_projects_try F status limit) /\
      forall db,
        db_after (project_filesaver.get_all_projects F status limit db)
        = db) /\
  (forall F project_id,
      framed_by try_close
        (project_filesaver.get_project F project_id)
        (project_filesaver.get_project_try F project_id) /\
      forall db,
        db_after (project_filesaver.get_project F project_id db) = db) /\
  (forall F project_id,
      framed_by try_close
        (project_filesaver.generate_shopping_list F project_id)
        (project_filesaver.generate_shopping_list_try F project_id) /\
      forall db,
        db_after (project_filesaver.generate_shopping_list F project_id db) =
          db) /\
  (forall F status medium limit,
      framed_by try_close
        (portfolio_storehouse.get_portfolio F status medium limit)
        (portfolio_storehouse.get_portfolio_try F status medium limit) /\
      forall db,
        db_after (portfolio_storehouse.get_portfolio F status medium limit db)
          = db) /\
  (forall F piece_id,
      framed_by try_close
        (portfolio_storehouse.get_portfolio_piece F piece_id)
        (portfolio_storehouse.get_portfolio_piece_try F piece_id) /\
      forall db,
        db_after (portfolio_storehouse.get_portfolio_piece F piece_id db)
        = db) /\
  (forall F,
      framed_by try_close
        (portfolio_storehouse.get_portfolio_stats F)
        (portfolio_storehouse.get_portfolio_stats_try F) /\
      forall db,
        db_after (portfolio_storehouse.get_portfolio_stats F db) = db) /\
  (forall F save_to_db,
      framed_by try_close
        (pinterest_inspiration.analyze_style_preferences F save_to_db)
        (pinterest_inspiration.analyze_style_preferences_try F save_to_db) /\
      forall db,
        db_after (pinterest_inspiration.analyze_style_preferences F save_to_db
          db) = db) /\
  (forall F now name category brand color size quantity unit notes db e,
      F Commit = Some e ->
      supply_inventory.add_supply F now name category brand color size
        quantity unit notes db
      = (Failure e, mkSession db db [DidRollback; DidClose])) /\
  (forall F now project_id title description status materials_list steps
          notes actual_budget kw db e,
      F QueryProject = Some e \/
      (F QueryProject = None /\
       find (project_filesaver.has_id project_id) (projects db) <> None /\
       F Commit = Some e) ->
      project_filesaver.update_project F now project_id title description
        status materials_list steps notes actual_budget kw db
      = (Failure e, mkSession db db [DidRollback; DidClose])) /\
  (forall F supply_id db e,
      F QuerySupply = Some e ->
      supply_inventory.get_supply_by_id F supply_id db
      = (Failure e, mkSession db db [DidClose])) /\
  (forall F supply_id db,
      F QuerySupply = None ->
      find (supply_inventory.has_id supply_id) (supplies db) = None ->
      supply_inventory.get_supply_by_id F supply_id db
      = (Failure "Supply not found", mkSession db db [DidClose])) /\
  (forall F now project_id title description status materials_list steps
          notes actual_budget kw db,
      F QueryProject = None ->
      find (project_filesaver.has_id project_id) (projects db) = None ->
      project_filesaver.update_project F now project_id title description
        status materials_list steps notes actual_budget kw db
      = (Failure "Project not found", mkSession db db [DidClose])) /\
  (forall F fs now piece_id title description status image_path kw db,
      F QueryPiece = None ->
      find (portfolio_storehouse.has_id piece_id) (portfolio_pieces db)
      = None ->
      portfolio_storehouse.update_portfolio_piece F fs now piece_id title
        description status image_path kw db
      = (Failure "Portfolio piece not found", mkSession db db [DidClose])) /\
  (forall F fs now piece_id image_path description,
      let body :=
        portfolio_storehouse.add_progress_image_try F fs now piece_id
          image_path description in
      transactional body /\
      forall db,
        path_exists fs image_path = true ->
        F Makedirs = None ->
        portfolio_storehouse.add_progress_image F fs now piece_id image_path
          description db
        = Returned (try_rollback_close body (SessionLocal db)) /\
        forall e s1,
          body (SessionLocal db) = (Raised e, s1) ->
          portfolio_storehouse.add_progress_image F fs now piece_id
            image_path description db
          = Returned (Failure e, db_close (db_rollback s1)) /\
          (~ In DidCommit (journal s1) -> stored s1 = db)) /\
  (forall F fs now piece_id image_path description db,
      path_exists fs image_path = true ->
      F Makedirs = None ->
      F QueryPiece = None ->
      find (portfolio_storehouse.has_id piece_id) (portfolio_pieces db)
      = None ->
      portfolio_storehouse.add_progress_image F fs now piece_id image_path
        description db
      = Returned (Failure "Portfolio piece not found",
                  mkSession db db [DidClose])) /\
  (forall F fs now title description project_id status medium dimensions
          image_path,
      let body :=
        portfolio_storehouse.add_portfolio_piece_try F fs now title
          description project_id status medium dimensions image_path in
      transactional body /\
      forall db,
        F Makedirs = None ->
        portfolio_storehouse.add_portfolio_piece F fs now title description
          project_id status medium dimensions image_path db
        = Returned (try_rollback_close body (SessionLocal db)) /\
        forall e s1,
          body (SessionLocal db) = (Raised e, s1) ->
          portfolio_storehouse.add_portfolio_piece F fs now title description
            project_id status medium dimensions image_path db
          = Returned (Failure e, db_close (db_rollback s1)) /\
          (~ In DidCommit (journal s1) -> stored s1 = db)) /\
  (forall F isalnum now timestamp materials_error steps_error project_id,
      let body :=
        project_filesaver.save_project_to_file_try F isalnum now timestamp
          materials_error steps_error project_id in
      transactional body /\
      forall db,
        F Makedirs = None ->
        project_filesaver.save_project_to_file F isalnum now timestamp
          materials_error steps_error project_id db
        = Returned (try_rollback_close body (SessionLocal db)) /\
        forall e s1,
          body (SessionLocal db) = (Raised e, s1) ->
          project_filesaver.save_project_to_file F isalnum now timestamp
            materials_error steps_error project_id db
          = Returned (Failure e, db_close (db_rollback s1)) /\
          (~ In DidCommit (journal s1) -> stored s1 = db)) /\
  (forall F now supply_id name quantity notes kw db,
      F QuerySupply = None ->
      find (supply_inventory.has_id supply_id) (supplies db) = None ->
      supply_inventory.update_supply F now supply_id name quantity notes kw db
      = (Failure "Supply not found", mkSession db db [DidClose])) /\
  (forall F now supply_id amount_used project_id db,
      F QuerySupply = None ->
      find (supply_inventory.has_id supply_id) (supplies db) = None ->
      supply_inventory.use_supply F now supply_id amount_used project_id db
      = (Failure "Supply not found", mkSession db db [DidClose])) /\
  (forall F project_id db,
      F QueryProject = None ->
      find (project_filesaver.has_id project_id) (projects db) = None ->
      project_filesaver.get_project F project_id db
      = (Failure "Project not found", mkSession db db [DidClose])) /\
  (forall F project_id db,
      F QueryProject = None ->
      find (project_filesaver.has_id project_id) (projects db) = None ->
      project_filesaver.generate_shopping_list F project_id db
      = (Failure "Project not found", mkSession db db [DidClose])) /\
  (forall F now timestamp project_id notes db,
      F QueryProject = None ->
      find (project_filesaver.has_id project_id) (projects db) = None ->
      project_filesaver.add_session_notes F now timestamp project_id notes db
      = (Failure "Project not found", mkSession db db [DidClose])) /\
  (forall F isalnum now timestamp materials_error steps_error project_id db,
      F Makedirs = None ->
      F QueryProject = None ->
      find (project_filesaver.has_id project_id) (projects db) = None ->
      project_filesaver.save_project_to_file F isalnum now timestamp
        materials_error steps_error project_id db
      = Returned (Failure "Project not found",
                  mkSession db db [DidClose])) /\
  (forall F piece_id db,
      F QueryPiece = None ->
      find (portfolio_storehouse.has_id piece_id) (portfolio_pieces db)
      = None ->
      portfolio_storehouse.get_portfolio_piece F piece_id db
      = (Failure "Portfolio piece not found", mkSession db db [DidClose])) /\
  (forall F removal piece_id delete_files db,
      F QueryPiece = None ->
      find (portfolio_storehouse.has_id piece_id) (portfolio_pieces db)
      = None ->
      portfolio_storehouse.delete_portfolio_piece F removal piece_id
        delete_files db
      = (Failure "Portfolio piece not found", mkSession db db [DidClose])).
Proof.
  split; [ intros A f body; apply frame_rollback | ].
  split; [ intros A f body; apply frame_close | ].
  split; [ intros; split;
           [ reflexivity | apply transactional_add_supply ] | ].
  split; [ intros; split;
           [ reflexivity | apply transactional_update_supply ] | ].
  split; [ intros; split;
           [ reflexivity | apply transactional_use_supply ] | ].
  split; [ intros; split;
           [ reflexivity | apply transactional_create_project ] | ].
  split; [ intros; split;
           [ reflexivity | apply transactional_update_project ] | ].
  split; [ intros; split;
           [ reflexivity | apply transactional_add_session_notes ] | ].
  split; [ intros; split;
           [ reflexivity | apply transactional_update_portfolio_piece ] | ].
  split; [ intros; split;
           [ reflexivity | apply transactional_delete_portfolio_piece ] | ].
  split; [ intros; split;
           [ reflexivity | apply transactional_save_style_preference ] | ].
  split; [ intros; split; [ split;
           [ reflexivity | apply transactional_get_all_supplies ]
           | apply get_all_supplies_reads ] | ].
  split; [ intros; split; [ split;
           [ reflexivity | apply transactional_get_supply_by_id ]
           | apply get_supply_by_id_reads ] | ].
  split; [ intros; split; [ split;
           [ reflexivity | apply transactional_get_low_stock_supplies ]
           | apply get_low_stock_supplies_reads ] | ].
  split; [ intros; split; [ split;
           [ reflexivity | apply transactional_search_supplies ]
           | apply search_supplies_reads ] | ].
  split; [ intros; split; [ split;
           [ reflexivity | apply transactional_get_supplies_for_project ]
           | apply get_supplies_for_project_reads ] | ].
  split; [ intros; split; [ split;
           [ reflexivity | apply transactional_get_all_projects ]
           | apply get_all_projects_reads ] | ].
  split; [ intros; split; [ split;
           [ reflexivity | apply transactional_get_project ]
           | apply get_project_reads ] | ].
  split; [ intros; split; [ split;
           [ reflexivity | apply transactional_generate_shopping_list ]
           | apply generate_shopping_list_reads ] | ].
  split; [ intros; split; [ split;
           [ reflexivity | apply transactional_get_portfolio ]
           | apply get_portfolio_reads ] | ].
  split; [ intros; split; [ split;
           [ reflexivity | apply transactional_get_portfolio_piece ]
           | apply get_portfolio_piece_reads ] | ].
  split; [ intros; split; [ split;
           [ reflexivity | apply transactional_get_portfolio_stats ]
           | apply get_portfolio_stats_reads ] | ].
  split; [ intros; split; [ split;
           [ reflexivity | apply transactional_analyze_style_preferences ]
           | apply analyze_style_preferences_reads ] | ].
  repeat match goal with |- _ /\ _ => split end.
  - intros F now name category brand color size quantity unit notes db e HC.
    unfold supply_inventory.add_supply, supply_inventory.add_supply_try.
    run. rewrite HC. reflexivity.
  - intros F now project_id title description status materials_list steps
      notes actual_budget kw db e H.
    unfold project_filesaver.update_project,
      project_filesaver.update_project_try.
    run. destruct H as [ HQ | [HQ [Hfind HC]] ]; rewrite HQ; simpl.
    + reflexivity.
    + destruct (find (project_filesaver.has_id project_id) (projects db));
        [ | congruence ].
      simpl. rewrite HC. reflexivity.
  - intros F supply_id db e HQ.
    unfold supply_inventory.get_supply_by_id,
      supply_inventory.get_supply_by_id_try.
    run. rewrite HQ. reflexivity.
  - intros F supply_id db HQ Hfind.
    unfold supply_inventory.get_supply_by_id,
      supply_inventory.get_supply_by_id_try.
    run. rewrite HQ. simpl. rewrite Hfind. reflexivity.
  - intros F now project_id title description status materials_list steps
      notes actual_budget kw db HQ Hfind.
    unfold project_filesaver.update_project,
      project_filesaver.update_project_try.
    run. rewrite HQ. simpl. rewrite Hfind. reflexivity.
  - intros F fs now piece_id title description status image_path kw db HQ
      Hfind.
    unfold portfolio_storehouse.update_portfolio_piece,
      portfolio_storehouse.update_portfolio_piece_try.
    run. rewrite HQ. simpl. rewrite Hfind. reflexivity.
  - intros F fs now piece_id image_path description. cbv zeta.
    split; [ apply transactional_add_progress_image | ].
    intros db He HM.
    assert (E :
      portfolio_storehouse.add_progress_image F fs now piece_id image_path
        description db
      = Returned
          (try_rollback_close
             (portfolio_storehouse.add_progress_image_try F fs now piece_id
                image_path description)
             (SessionLocal db))).
    { unfold portfolio_storehouse.add_progress_image,
        portfolio_storehouse._ensure_portfolio_dir, external.
      rewrite He, HM. reflexivity. }
    split; [ exact E | ]. intros e s1 Hrun. rewrite E.
    destruct (frame_entered _ db (transactional_add_progress_image F fs now
                piece_id image_path description) e s1 Hrun) as [Hf Hdb].
    rewrite Hf. split; [ reflexivity | exact Hdb ].
  - intros F fs now piece_id image_path description db He HM HQ Hfind.
    unfold portfolio_storehouse.add_progress_image,
      portfolio_storehouse.add_progress_image_try,
      portfolio_storehouse._ensure_portfolio_dir.
    run. rewrite He, HM. simpl. rewrite HQ. simpl. rewrite Hfind.
    reflexivity.
  - intros F fs now title description project_id status medium dimensions
      image_path. cbv zeta.
    split; [ apply transactional_add_portfolio_piece | ].
    intros db HM.
    assert (E :
      portfolio_storehouse.add_portfolio_piece F fs now title description
        project_id status medium dimensions image_path db
      = Returned
          (try_rollback_close
             (portfolio_storehouse.add_portfolio_piece_try F fs now title
                description project_id status medium dimensions image_path)
             (SessionLocal db))).
    { unfold portfolio_storehouse.add_portfolio_piece,
        portfolio_storehouse._ensure_portfolio_dir, external.
      rewrite HM. reflexivity. }
    split; [ exact E | ]. intros e s1 Hrun. rewrite E.
    destruct (frame_entered _ db (transactional_add_portfolio_piece F fs now
                title description project_id status medium dimensions
                image_path) e s1 Hrun) as [Hf Hdb].
    rewrite Hf. split; [ reflexivity | exact Hdb ].
  - intros F isalnum now timestamp materials_error steps_error project_id.
    cbv zeta.
    split; [ apply transactional_save_project_to_file | ].
    intros db HM.
    assert (E :
      project_filesaver.save_project_to_file F isalnum now timestamp
        materials_error steps_error project_id db
      = Returned
          (try_rollback_close
             (project_filesaver.save_project_to_file_try F isalnum now
                timestamp materials_error steps_error project_id)
             (SessionLocal db))).
    { unfold project_filesaver.save_project_to_file,
        project_filesaver._ensure_projects_dir, external.
      rewrite HM. reflexivity. }
    split; [ exact E | ]. intros e s1 Hrun. rewrite E.
    destruct (frame_entered _ db (transactional_save_project_to_file F
                isalnum now timestamp materials_error steps_error
                project_id) e s1 Hrun) as [Hf Hdb].
    rewrite Hf. split; [ reflexivity | exact Hdb ].
  - intros F now supply_id name quantity notes kw db HQ Hfind.
    unfold supply_inventory.update_supply,
      supply_inventory.update_supply_try.
    run. rewrite HQ. simpl. rewrite Hfind. reflexivity.
  - intros F now supply_id amount_used project_id db HQ Hfind.
    unfold supply_inventory.use_supply, supply_inventory.use_supply_try.
    run. rewrite HQ. simpl. rewrite Hfind. reflexivity.
  - intros F project_id db HQ Hfind.
    unfold project_filesaver.get_project, project_filesaver.get_project_try.
    run. rewrite HQ. simpl. rewrite Hfind. reflexivity.
  - intros F project_id db HQ Hfind.
    unfold project_filesaver.generate_shopping_list,
      project_filesaver.generate_shopping_list_try.
    run. rewrite HQ. simpl. rewrite Hfind. reflexivity.
  - intros F now timestamp project_id notes db HQ Hfind.
    unfold project_filesaver.add_session_notes,
      project_filesaver.add_session_notes_try.
    run. rewrite HQ. simpl. rewrite Hfind. reflexivity.
  - intros F isalnum now timestamp materials_error steps_error project_id db
      HM HQ Hfind.
    unfold project_filesaver.save_project_to_file,
      project_filesaver.save_project_to_file_try,
      project_filesaver._ensure_projects_dir.
    run. rewrite HM. simpl. rewrite HQ. simpl. rewrite Hfind. reflexivity.
  - intros F piece_id db HQ Hfind.
    unfold portfolio_storehouse.get_portfolio_piece,
      portfolio_storehouse.get_portfolio_piece_try.
    run. rewrite HQ. simpl. rewrite Hfind. reflexivity.
  - intros F removal piece_id delete_files db HQ Hfind.
    unfold portfolio_storehouse.delete_portfolio_piece,
      portfolio_storehouse.delete_portfolio_piece_try.
    run. rewrite HQ. simpl. rewrite Hfind. reflexivity.
Qed.

Lemma exceptions_become_failures_witness :
  supply_inventory.add_supply Samples.commit_fails 7%Z "Canvas" "canvas" None
    None None None None None empty_db
  = (Failure "database is locked",
     mkSession empty_db empty_db [DidRollback; DidClose]).
Proof.
  apply exceptions_become_failures. reflexivity.
Defined.

(** C8, as stated, fails in two places.  What [_ensure_portfolio_dir]
    raises in [add_progress_image] is raised before the [try] and leaves the
    function.  What [db.refresh] raises in [add_supply] is raised after the
    commit: the function returns the failure object, and the row is
    stored. *)
Lemma exceptions_escape_or_persist :
  portfolio_storehouse.add_progress_image Samples.makedirs_fails Samples.disk
    5%Z 1%Z "wash.png" None Samples.portfolio
  = Raised "Permission denied"%string /\
  fst (supply_inventory.add_supply Samples.refresh_fails 7%Z "Canvas" "canvas"
         None None None None None None empty_db)
  = Failure "connection lost" /\
  length (supplies (db_after
                      (supply_inventory.add_supply Samples.refresh_fails 7%Z
                         "Canvas" "canvas" None None None None None None
                         empty_db))) = 1%nat /\
  supplies empty_db = [].
Proof. repeat split. Qed.

